(** * CPIDebugLocal: the transport codec of the debugger bridge

    A shallow embedding of the codec pipeline of the repository:

    - [encodeContivaData] / [decodeContivaData] (contiva-encoder.js): the
      ZIP variant, JSON -> ZIP -> gzip -> base64 -> percent-encoding and
      back to the raw archive bytes;
    - [decodeGroovyString] (groovy-server.js) and [decodeGroovyData]
      (the Groovy decoder server): the deflate variant, URL-safe base64 ->
      standard base64 -> raw inflate -> UTF-8 -> JSON.

    and, around the codec, the rest of the two JavaScript files:

    - [cpiHelperToContiva], [objectToPropertiesFormat], [saveDecodedData]
      and the routes [/debug] and [/contiva/:data] (groovy-server.js),
      over the values [JSON.parse] builds;
    - [openInChrome] (contiva-encoder.js);
    - [formatAsProperties] (the Groovy decoder server).

    Strings are sequences of UTF-16 code units ([list Z]), buffers are
    [list byte].  The string and buffer primitives the code calls
    (String.replace, String.repeat, Buffer base64 conversions,
    encodeURIComponent / decodeURIComponent, java.util.Base64, the zlib
    inflater and the gzip container) are modelled executably; the
    compressor, the archive writer (for the example of the specification
    the order of the writes of its ZIP stream is modelled, with the
    signature that opens an entry), the UTF-8 text decoders, the JSON
    parsers, the numbers, the clock, the file system and the process
    library are parameters of the development. *)

From Stdlib Require Import ZArith List Bool Lia.
From Stdlib.Strings Require Import String Ascii Byte.
From Stdlib Require Import DecimalString.
Import ListNotations.
Local Open Scope Z_scope.

(* ------------------------------------------------------------------ *)
(** * Strings, buffers and outcomes *)

(** A JavaScript / Java string: its UTF-16 code units. *)
Definition jsstring := list Z.

(** A Node Buffer / Java byte[]: its bytes. *)
Definition buffer := list byte.

Definition b2z (b : byte) : Z := Z.of_N (Byte.to_N b).

Definition z2b (z : Z) : byte :=
  match Byte.of_N (Z.to_N (z mod 256)) with
  | Some b => b
  | None => x00
  end.

(** A string literal of the source, as code units. *)
Definition str (s : string) : jsstring :=
  map (fun a => Z.of_N (N_of_ascii a)) (list_ascii_of_string s).

(** The call of the pipeline that threw. *)
Inductive Stage : Type :=
| StagePercent   (* decodeURIComponent / encodeURIComponent: URIError *)
| StageBase64    (* Base64.decoder.decode: IllegalArgumentException *)
| StageInflate   (* zlib error / DataFormatException *)
| StageParse     (* JSON.parse SyntaxError / JsonSlurper exception *)
| StageCast.     (* [json as Map]: GroovyCastException *)

(** A call either returns a value or throws at a stage. *)
Inductive Outcome (A : Type) : Type :=
| Returned (a : A)
| Thrown (st : Stage).

Arguments Returned {A} a.
Arguments Thrown {A} st.

Definition bind {A B} (o : Outcome A) (k : A -> Outcome B) : Outcome B :=
  match o with
  | Returned a => k a
  | Thrown st => Thrown st
  end.

Notation "'let*' x ':=' o 'in' k" := (bind o (fun x => k))
  (at level 10, x name, o at level 100, k at level 200).

(** An externally supplied partial function ([None]: it threw), placed at
    the stage at which the pipeline calls it. *)
Definition at_stage {A} (st : Stage) (o : option A) : Outcome A :=
  match o with
  | Some a => Returned a
  | None => Thrown st
  end.

(* ------------------------------------------------------------------ *)
(** * String primitives *)

Definition ch_plus : Z := 43.     (* '+' *)
Definition ch_minus : Z := 45.    (* '-' *)
Definition ch_slash : Z := 47.    (* '/' *)
Definition ch_under : Z := 95.    (* '_' *)
Definition ch_eq : Z := 61.       (* '=' *)
Definition ch_percent : Z := 37.  (* '%' *)

(** [s.replace(/a/g, b)] for single characters; Java's
    [String.replace(char, char)]. *)
Definition replaceAll (a b : Z) (s : jsstring) : jsstring :=
  map (fun c => if c =? a then b else c) s.

(** ['='.repeat(n)], Groovy's ['=' * n]. *)
Definition repeat_eq (n : Z) : jsstring := repeat ch_eq (Z.to_nat n).

Definition strlen (s : jsstring) : Z := Z.of_nat (List.length s).

(** [(4 - (len % 4)) % 4], as both decoders and the encoder compute it. *)
Definition paddingNeeded (len : Z) : Z := (4 - (len mod 4)) mod 4.

(** Step 1 of both deflate-variant decoders, step 2 of [decodeContivaData]:
    [.replace(/-/g, '+').replace(/_/g, '/')]. *)
Definition toStandardAlphabet (s : jsstring) : jsstring :=
  replaceAll ch_under ch_slash (replaceAll ch_minus ch_plus s).

(** Step 2 of both deflate-variant decoders:
    [standardBase64 += '='.repeat(paddingNeeded)]. *)
Definition addPadding (s : jsstring) : jsstring :=
  s ++ repeat_eq (paddingNeeded (strlen s)).

(* ------------------------------------------------------------------ *)
(** * Base64 *)

Definition base64_alphabet : jsstring :=
  str "ABCDEFGHIJKLMNOPQRSTUVWXYZabcdefghijklmnopqrstuvwxyz0123456789+/".

Definition base64_char (i : Z) : Z := nth (Z.to_nat i) base64_alphabet ch_eq.

(** [buf.toString('base64')]: standard alphabet, padded.  Three bytes
    make four sextets. *)
Fixpoint base64_encode (buf : buffer) : jsstring :=
  match buf with
  | [] => []
  | [a] =>
      let a := b2z a in
      [base64_char (a / 4); base64_char (a mod 4 * 16); ch_eq; ch_eq]
  | [a; b] =>
      let a := b2z a in let b := b2z b in
      [base64_char (a / 4);
       base64_char (a mod 4 * 16 + b / 16);
       base64_char (b mod 16 * 4);
       ch_eq]
  | a :: b :: c :: rest =>
      let a := b2z a in let b := b2z b in let c := b2z c in
      base64_char (a / 4)
      :: base64_char (a mod 4 * 16 + b / 16)
      :: base64_char (b mod 16 * 4 + c / 64)
      :: base64_char (c mod 64)
      :: base64_encode rest
  end.

(** Node's decoding table: both alphabets are accepted, anything else
    (padding included) is not a base64 character. *)
Definition unbase64 (c : Z) : option Z :=
  if (65 <=? c) && (c <=? 90) then Some (c - 65)
  else if (97 <=? c) && (c <=? 122) then Some (c - 71)
  else if (48 <=? c) && (c <=? 57) then Some (c + 4)
  else if (c =? ch_plus) || (c =? ch_minus) then Some 62
  else if (c =? ch_slash) || (c =? ch_under) then Some 63
  else None.

(** Node's decoder reads one octet of each UTF-16 code unit
    ([static_cast<uint8_t>(src[i])]): its low byte. *)
Definition low_byte (c : Z) : Z := c mod 256.

(** The sextets Node's decoder consumes.  Of every code unit only the low
    byte is looked up in the table: a low byte outside the table is
    skipped, the first low byte that is ['='] ends the decoding. *)
Fixpoint legal_sextets (s : jsstring) : list Z :=
  match s with
  | [] => []
  | c :: s' =>
      let c := low_byte c in
      match unbase64 c with
      | Some v => v :: legal_sextets s'
      | None => if c =? ch_eq then [] else legal_sextets s'
      end
  end.

(** Four sextets make three bytes; a group cut short makes the bytes that
    are complete (two sextets one byte, three sextets two bytes). *)
Fixpoint bytes_of_sextets (l : list Z) : buffer :=
  match l with
  | a :: b :: c :: d :: rest =>
      z2b (a * 4 + b / 16)
      :: z2b (b mod 16 * 16 + c / 4)
      :: z2b (c mod 4 * 64 + d)
      :: bytes_of_sextets rest
  | [a; b; c] => [z2b (a * 4 + b / 16); z2b (b mod 16 * 16 + c / 4)]
  | [a; b] => [z2b (a * 4 + b / 16)]
  | _ => []
  end.

(** [Buffer.from(s, 'base64')]: never throws. *)
Definition Buffer_from_base64 (s : jsstring) : buffer :=
  bytes_of_sextets (legal_sextets s).

(** [java.util.Base64.getDecoder()]: the basic decoder's table (standard
    alphabet only; ['='] is handled by [decode0] itself). *)
Definition fromBase64 (c : Z) : option Z :=
  if (65 <=? c) && (c <=? 90) then Some (c - 65)
  else if (97 <=? c) && (c <=? 122) then Some (c - 71)
  else if (48 <=? c) && (c <=? 57) then Some (c + 4)
  else if c =? ch_plus then Some 62
  else if c =? ch_slash then Some 63
  else None.

(** The end of [Base64.Decoder.decode0]: the bytes of the last unit, and
    nothing may follow.  [None]: IllegalArgumentException. *)
Definition decode0_end (sp : jsstring) (bits shiftto : Z) (dst : buffer)
  : option buffer :=
  if shiftto =? 12 then None
  else
    let dst :=
      if shiftto =? 6 then dst ++ [z2b (bits / 65536)]
      else if shiftto =? 0 then
        dst ++ [z2b (bits / 65536); z2b (bits / 256)]
      else dst in
    match sp with
    | [] => Some dst
    | _ :: _ => None
    end.

(** The loop of [Base64.Decoder.decode0]: [bits] collects the sextets of
    a 4-character unit ([bits |= b << shiftto], the sextets do not
    overlap), [shiftto] is the position of the next one (18, 12, 6, 0). *)
Fixpoint decode0 (src : jsstring) (bits shiftto : Z) (dst : buffer)
  : option buffer :=
  match src with
  | [] => decode0_end [] bits shiftto dst
  | c :: sp =>
      if c =? ch_eq then
        if shiftto =? 6 then
          match sp with
          | [] => None
          | c' :: sp' =>
              if c' =? ch_eq then decode0_end sp' bits shiftto dst else None
          end
        else if shiftto =? 18 then None
        else decode0_end sp bits shiftto dst
      else
        match fromBase64 c with
        | None => None
        | Some b =>
            let bits := bits + b * 2 ^ shiftto in
            let shiftto := shiftto - 6 in
            if shiftto <? 0 then
              decode0 sp 0 18
                (dst ++ [z2b (bits / 65536); z2b (bits / 256); z2b bits])
            else decode0 sp bits shiftto dst
        end
  end.

(** [Base64.decoder.decode(String)]: [None] is IllegalArgumentException. *)
Definition Base64_decoder_decode (s : jsstring) : option buffer :=
  match s with
  | [] => Some []
  | [_] => None
  | _ => decode0 s 0 18 []
  end.

(* ------------------------------------------------------------------ *)
(** * Percent-encoding *)

Definition is_alpha (c : Z) : bool :=
  ((65 <=? c) && (c <=? 90)) || ((97 <=? c) && (c <=? 122)).

Definition is_digit (c : Z) : bool := (48 <=? c) && (c <=? 57).

(** The characters encodeURIComponent leaves alone: letters, digits and
    [- _ . ! ~ * ' ( )]. *)
Definition uriUnescaped (c : Z) : bool :=
  is_alpha c || is_digit c
  || existsb (Z.eqb c) (str "-_.!~*'()").

Definition hex_digit (v : Z) : Z :=
  nth (Z.to_nat v) (str "0123456789ABCDEF") 48.

(** One octet as [%XX], upper-case. *)
Definition percent_octet (o : Z) : jsstring :=
  [ch_percent; hex_digit (o / 16); hex_digit (o mod 16)].

(** The UTF-8 octets of a code point. *)
Definition utf8_octets (v : Z) : list Z :=
  if v <? 128 then [v]
  else if v <? 2048 then
    [Z.lor 192 (Z.shiftr v 6); Z.lor 128 (Z.land v 63)]
  else if v <? 65536 then
    [Z.lor 224 (Z.shiftr v 12); Z.lor 128 (Z.land (Z.shiftr v 6) 63);
     Z.lor 128 (Z.land v 63)]
  else
    [Z.lor 240 (Z.shiftr v 18); Z.lor 128 (Z.land (Z.shiftr v 12) 63);
     Z.lor 128 (Z.land (Z.shiftr v 6) 63); Z.lor 128 (Z.land v 63)].

Definition is_high_surrogate (c : Z) : bool := (55296 <=? c) && (c <=? 56319).
Definition is_low_surrogate (c : Z) : bool := (56320 <=? c) && (c <=? 57343).

(** [encodeURIComponent(s)]; [None] is URIError (a lone surrogate). *)
Fixpoint encodeURIComponent (s : jsstring) : option jsstring :=
  match s with
  | [] => Some []
  | c :: rest =>
      if uriUnescaped c then option_map (cons c) (encodeURIComponent rest)
      else if is_low_surrogate c then None
      else if is_high_surrogate c then
        match rest with
        | c2 :: rest' =>
            if is_low_surrogate c2 then
              let v := (c - 55296) * 1024 + (c2 - 56320) + 65536 in
              option_map (app (flat_map percent_octet (utf8_octets v)))
                         (encodeURIComponent rest')
            else None
        | [] => None
        end
      else
        option_map (app (flat_map percent_octet (utf8_octets c)))
                   (encodeURIComponent rest)
  end.

Definition hex_value (c : Z) : option Z :=
  if is_digit c then Some (c - 48)
  else if (65 <=? c) && (c <=? 70) then Some (c - 55)
  else if (97 <=? c) && (c <=? 102) then Some (c - 87)
  else None.

(** Where decodeURIComponent stands inside an escape sequence. *)
Inductive EscState : Type :=
| NoEscape                 (* outside [%XX] *)
| SawPercent               (* after [%] *)
| SawHex (h : Z).          (* after [%X] *)

(** Where it stands inside a multi-octet UTF-8 sequence: [need] octets
    are still to come, [acc] holds the bits read, [lo] is the least code
    point that needs this many octets. *)
Inductive Utf8State : Type :=
| NoSequence
| InSequence (need : nat) (acc lo : Z).

(** The code units of a decoded code point. *)
Definition code_units (v : Z) : jsstring :=
  if v <? 65536 then [v]
  else
    [Z.land (Z.shiftr (v - 65536) 10) 1023 + 55296;
     Z.land (v - 65536) 1023 + 56320].

(** One decoded octet [b] in UTF-8 state [u]: the new state and the code
    units completed, or URIError. *)
Definition decode_octet (u : Utf8State) (b : Z)
  : option (Utf8State * jsstring) :=
  match u with
  | NoSequence =>
      if b <? 128 then Some (NoSequence, [b])
      else if (192 <=? b) && (b <? 224) then
        Some (InSequence 1 (Z.land b 31) 128, [])
      else if (224 <=? b) && (b <? 240) then
        Some (InSequence 2 (Z.land b 15) 2048, [])
      else if (240 <=? b) && (b <? 248) then
        Some (InSequence 3 (Z.land b 7) 65536, [])
      else None
  | InSequence need acc lo =>
      if Z.land b 192 =? 128 then
        let acc := acc * 64 + Z.land b 63 in
        match need with
        | S (S n) => Some (InSequence (S n) acc lo, [])
        | _ =>
            if (lo <=? acc) && (acc <=? 1114111)
               && negb ((55296 <=? acc) && (acc <=? 57343))
            then Some (NoSequence, code_units acc)
            else None
        end
      else None
  end.

(** One character of the input of decodeURIComponent. *)
Definition decode_step (st : Utf8State * EscState) (c : Z)
  : option (Utf8State * EscState * jsstring) :=
  let (u, e) := st in
  match e with
  | NoEscape =>
      if c =? ch_percent then Some (u, SawPercent, [])
      else
        match u with
        | NoSequence => Some (NoSequence, NoEscape, [c])
        | InSequence _ _ _ => None
        end
  | SawPercent =>
      match hex_value c with
      | Some h => Some (u, SawHex h, [])
      | None => None
      end
  | SawHex h =>
      match hex_value c with
      | Some l =>
          match decode_octet u (16 * h + l) with
          | Some (u', out) => Some (u', NoEscape, out)
          | None => None
          end
      | None => None
      end
  end.

Fixpoint Decode (st : Utf8State * EscState) (s : jsstring)
  : option jsstring :=
  match s with
  | [] =>
      match st with
      | (NoSequence, NoEscape) => Some []
      | _ => None
      end
  | c :: rest =>
      match decode_step st c with
      | Some (st', out) => option_map (app out) (Decode st' rest)
      | None => None
      end
  end.

(** [decodeURIComponent(s)]; [None] is URIError. *)
Definition decodeURIComponent (s : jsstring) : option jsstring :=
  Decode (NoSequence, NoEscape) s.

(* ------------------------------------------------------------------ *)
(** * Inflate (RFC 1951), the decompressor behind [zlib.inflateRawSync],
      [zlib.gunzipSync] and [java.util.zip.Inflater] *)

(** The bits of a buffer, least significant bit of each byte first. *)
Definition bits_of_byte (b : byte) : list bool :=
  map (Z.testbit (b2z b)) [0; 1; 2; 3; 4; 5; 6; 7].

Definition bits_of (buf : buffer) : list bool := flat_map bits_of_byte buf.

(** [n] bits as a number, first bit least significant. *)
Fixpoint read_bits (n : nat) (bits : list bool) : option (Z * list bool) :=
  match n with
  | O => Some (0, bits)
  | S n' =>
      match bits with
      | [] => None
      | b :: bits' =>
          match read_bits n' bits' with
          | Some (v, r) => Some (Z.b2z b + 2 * v, r)
          | None => None
          end
      end
  end.

(** A canonical Huffman code: the number of codes of each length 1..15
    and the symbols ordered by code. *)
Record Huffman : Type := {
  counts : list Z;
  symbols : list Z
}.

Definition code_lengths_1_15 : list Z := map Z.of_nat (seq 1 15).

(** The code of a list of code lengths (symbol [i] has length
    [nth i lengths]), and how many codes are left unused: 0 for a complete
    code, negative for an over-subscribed one. *)
Definition construct (lengths : list Z) : Huffman * Z :=
  let indexed := combine (map Z.of_nat (seq 0 (List.length lengths))) lengths in
  let with_len len := filter (fun p => snd p =? len) indexed in
  let cnts := map (fun len => Z.of_nat (List.length (with_len len)))
                  code_lengths_1_15 in
  let syms := flat_map (fun len => map fst (with_len len)) code_lengths_1_15 in
  let left :=
    if forallb (Z.eqb 0) lengths then 0
    else fold_left (fun left c => if left <? 0 then left else 2 * left - c)
                   cnts 1 in
  ({| counts := cnts; symbols := syms |}, left).

Inductive Decoded : Type :=
| Symbol (sym : Z) (rest : list bool)
| NoCode          (* the bits read are no code of the table *)
| NoBits.         (* the input ended inside a code *)

(** Decode one symbol, a bit at a time: [code] is the code read so far,
    [first] the first code of the current length, [index] the position of
    its symbol. *)
Fixpoint decode_from (cnts : list Z) (syms : list Z) (code first index : Z)
                     (bits : list bool) : Decoded :=
  match cnts with
  | [] => NoCode
  | count :: cnts' =>
      match bits with
      | [] => NoBits
      | b :: bits' =>
          let code := code + Z.b2z b in
          if code - count <? first then
            Symbol (nth (Z.to_nat (index + (code - first))) syms (-1)) bits'
          else
            decode_from cnts' syms (2 * code) (2 * (first + count))
                        (index + count) bits'
      end
  end.

Definition decode (h : Huffman) (bits : list bool) : Decoded :=
  decode_from (counts h) (symbols h) 0 0 0 bits.

Definition length_base : list Z :=
  [3; 4; 5; 6; 7; 8; 9; 10; 11; 13; 15; 17; 19; 23; 27; 31; 35; 43; 51; 59;
   67; 83; 99; 115; 131; 163; 195; 227; 258].
Definition length_extra : list nat :=
  [0; 0; 0; 0; 0; 0; 0; 0; 1; 1; 1; 1; 2; 2; 2; 2; 3; 3; 3; 3; 4; 4; 4; 4;
   5; 5; 5; 5; 0]%nat.
Definition dist_base : list Z :=
  [1; 2; 3; 4; 5; 7; 9; 13; 17; 25; 33; 49; 65; 97; 129; 193; 257; 385; 513;
   769; 1025; 1537; 2049; 3073; 4097; 6145; 8193; 12289; 16385; 24577].
Definition dist_extra : list nat :=
  [0; 0; 0; 0; 1; 1; 2; 2; 3; 3; 4; 4; 5; 5; 6; 6; 7; 7; 8; 8; 9; 9; 10; 10;
   11; 11; 12; 12; 13; 13]%nat.
Definition code_length_order : list nat :=
  [16; 17; 18; 0; 8; 7; 9; 6; 10; 5; 11; 4; 12; 3; 13; 2; 14; 1; 15]%nat.

(** How a run of the inflater ends. *)
Inductive InflateStatus : Type :=
| StreamEnd      (* the final block was completed *)
| NeedInput      (* the input ended before the stream did *)
| DataError      (* the input is no deflate stream *)
| FarDistance.   (* a match reaches back before the start of the output *)

(** A run of the inflater over its whole input, with unbounded output
    space: the bytes produced before the run ended (most recent first),
    how it ended and the bits not read. *)
Record InflateRun : Type := {
  produced_rev : buffer;
  status : InflateStatus;
  unread : list bool
}.

Definition stop (rout : buffer) (st : InflateStatus) (bits : list bool)
  : InflateRun :=
  {| produced_rev := rout; status := st; unread := bits |}.

(** Copy [len] bytes from [dist] bytes back. *)
Fixpoint copy_match (len : nat) (dist : nat) (rout : buffer) : buffer :=
  match len with
  | O => rout
  | S len' => copy_match len' dist (nth (dist - 1) rout x00 :: rout)
  end.

(** The literal/length and distance symbols of one compressed block, up
    to its end-of-block symbol.  [Some] of the state after the block, or
    the run that ended inside it. *)
Fixpoint codes (fuel : nat) (lencode distcode : Huffman)
               (rout : buffer) (outcnt : Z) (bits : list bool)
  : InflateRun + (buffer * Z * list bool) :=
  match fuel with
  | O => inl (stop rout NeedInput bits)
  | S fuel' =>
      match decode lencode bits with
      | NoBits => inl (stop rout NeedInput bits)
      | NoCode => inl (stop rout DataError bits)
      | Symbol sym bits1 =>
          if sym <? 0 then inl (stop rout DataError bits)
          else if sym <? 256 then
            codes fuel' lencode distcode (z2b sym :: rout) (outcnt + 1) bits1
          else if sym =? 256 then inr (rout, outcnt, bits1)
          else
            let i := Z.to_nat (sym - 257) in
            if (29 <=? sym - 257) then inl (stop rout DataError bits)
            else
              match read_bits (nth i length_extra O) bits1 with
              | None => inl (stop rout NeedInput bits)
              | Some (ext, bits2) =>
                  let len := nth i length_base 0 + ext in
                  match decode distcode bits2 with
                  | NoBits => inl (stop rout NeedInput bits)
                  | NoCode => inl (stop rout DataError bits)
                  | Symbol dsym bits3 =>
                      if (dsym <? 0) || (30 <=? dsym) then
                        inl (stop rout DataError bits)
                      else
                        let j := Z.to_nat dsym in
                        match read_bits (nth j dist_extra O) bits3 with
                        | None => inl (stop rout NeedInput bits)
                        | Some (dext, bits4) =>
                            let dist := nth j dist_base 0 + dext in
                            if outcnt <? dist then
                              inl (stop rout FarDistance bits)
                            else
                              codes fuel' lencode distcode
                                    (copy_match (Z.to_nat len) (Z.to_nat dist)
                                                rout)
                                    (outcnt + len) bits4
                        end
                  end
              end
      end
  end.

(** The fixed code of block type 1. *)
Definition fixed_lencode : Huffman :=
  fst (construct (repeat 8 144 ++ repeat 9 112 ++ repeat 7 24 ++ repeat 8 8)).
Definition fixed_distcode : Huffman := fst (construct (repeat 5 30)).

(** Up to [k] whole bytes off the bit stream. *)
Fixpoint take_bytes (k : nat) (bits : list bool) (rout : buffer)
  : buffer * list bool :=
  match k with
  | O => (rout, bits)
  | S k' =>
      match read_bits 8 bits with
      | Some (v, bits') => take_bytes k' bits' (z2b v :: rout)
      | None => (rout, bits)
      end
  end.

(** A stored block: skip to the byte boundary, LEN, NLEN, LEN bytes. *)
Definition stored (rout : buffer) (outcnt : Z) (bits : list bool)
  : InflateRun + (buffer * Z * list bool) :=
  let bits := skipn (List.length bits mod 8) bits in
  match read_bits 16 bits with
  | None => inl (stop rout NeedInput bits)
  | Some (len, bits1) =>
      match read_bits 16 bits1 with
      | None => inl (stop rout NeedInput bits1)
      | Some (nlen, bits2) =>
          if negb (nlen =? 65535 - len) then inl (stop rout DataError bits2)
          else
            let n := Z.to_nat len in
            let avail := (List.length bits2 / 8)%nat in
            let '(rout', bits3) := take_bytes n bits2 rout in
            if Nat.ltb avail n then inl (stop rout' NeedInput bits3)
            else inr (rout', outcnt + len, bits3)
      end
  end.

Inductive LengthsRead : Type :=
| Lengths (ls : list Z) (rest : list bool)
| LengthsNoBits
| LengthsBad.

(** The code lengths of a dynamic block, run-length coded with the code
    length code [h]; [acc] holds the [n] lengths read, last first. *)
Fixpoint read_lengths (fuel : nat) (h : Huffman) (total : Z)
                      (acc : list Z) (n : Z) (bits : list bool)
  : LengthsRead :=
  if total <=? n then Lengths (rev acc) bits
  else
    match fuel with
    | O => LengthsBad
    | S fuel' =>
        match decode h bits with
        | NoBits => LengthsNoBits
        | NoCode => LengthsBad
        | Symbol sym bits1 =>
            if sym <? 0 then LengthsBad
            else if sym <? 16 then
              read_lengths fuel' h total (sym :: acc) (n + 1) bits1
            else if (sym =? 16) && (n =? 0) then LengthsBad
            else
              let '(base, nb) :=
                if sym =? 16 then (3, 2%nat)
                else if sym =? 17 then (3, 3%nat)
                else (11, 7%nat) in
              match read_bits nb bits1 with
              | None => LengthsNoBits
              | Some (v, bits2) =>
                  let rep := base + v in
                  let len := if sym =? 16 then hd 0 acc else 0 in
                  if total <? n + rep then LengthsBad
                  else
                    read_lengths fuel' h total
                                 (repeat len (Z.to_nat rep) ++ acc)
                                 (n + rep) bits2
              end
        end
    end.

(** The lengths of the code length code, in their transmitted order. *)
Fixpoint read_code_length_lengths (ncode : nat) (order : list nat)
                                  (bits : list bool)
  : option (list (nat * Z) * list bool) :=
  match ncode, order with
  | S k, o :: order' =>
      match read_bits 3 bits with
      | None => None
      | Some (v, bits') =>
          match read_code_length_lengths k order' bits' with
          | Some (l, r) => Some ((o, v) :: l, r)
          | None => None
          end
      end
  | _, _ => Some ([], bits)
  end.

Definition lookup_length (l : list (nat * Z)) (i : nat) : Z :=
  match find (fun p => Nat.eqb (fst p) i) l with
  | Some p => snd p
  | None => 0
  end.

(** An incomplete code is accepted only when it is a single code of
    length 1. *)
Definition usable (lengths : list Z) (left : Z) : bool :=
  (left =? 0)
  || ((0 <? left)
      && Nat.eqb (List.length (filter (fun l => (l =? 0) || (l =? 1)) lengths))
                 (List.length lengths)).

(** The header of a dynamic block: the two codes it defines. *)
Definition dynamic_tables (bits : list bool)
  : InflateStatus + (Huffman * Huffman * list bool) :=
  match read_bits 5 bits with
  | None => inl NeedInput
  | Some (hlit, bits1) =>
  match read_bits 5 bits1 with
  | None => inl NeedInput
  | Some (hdist, bits2) =>
  match read_bits 4 bits2 with
  | None => inl NeedInput
  | Some (hclen, bits3) =>
      let nlen := hlit + 257 in
      let ndist := hdist + 1 in
      if (286 <? nlen) || (30 <? ndist) then inl DataError
      else
        match read_code_length_lengths (Z.to_nat (hclen + 4))
                                       code_length_order bits3 with
        | None => inl NeedInput
        | Some (cl, bits4) =>
            let cl_lengths := map (lookup_length cl) (seq 0 19) in
            let '(clcode, clleft) := construct cl_lengths in
            if negb (clleft =? 0) then inl DataError
            else
              match read_lengths (Z.to_nat (nlen + ndist)) clcode
                                 (nlen + ndist) [] 0 bits4 with
              | LengthsNoBits => inl NeedInput
              | LengthsBad => inl DataError
              | Lengths ls bits5 =>
                  let ll := firstn (Z.to_nat nlen) ls in
                  let dl := skipn (Z.to_nat nlen) ls in
                  if nth 256 ll 0 =? 0 then inl DataError
                  else
                    let '(lencode, lleft) := construct ll in
                    let '(distcode, dleft) := construct dl in
                    if usable ll lleft && usable dl dleft
                    then inr (lencode, distcode, bits5)
                    else inl DataError
              end
        end
  end end end.

(** The blocks of a stream, up to the final one. *)
Fixpoint blocks (fuel : nat) (rout : buffer) (outcnt : Z) (bits : list bool)
  : InflateRun :=
  match fuel with
  | O => stop rout NeedInput bits
  | S fuel' =>
      match read_bits 3 bits with
      | None => stop rout NeedInput bits
      | Some (hdr, bits1) =>
          let last := Z.odd hdr in
          let type := Z.shiftr hdr 1 in
          let body :=
            if type =? 0 then stored rout outcnt bits1
            else if type =? 1 then
              codes (List.length bits1) fixed_lencode fixed_distcode
                    rout outcnt bits1
            else if type =? 2 then
              match dynamic_tables bits1 with
              | inl st => inl (stop rout st bits1)
              | inr (lencode, distcode, bits2) =>
                  codes (List.length bits2) lencode distcode rout outcnt bits2
              end
            else inl (stop rout DataError bits1) in
          match body with
          | inl run => run
          | inr (rout', outcnt', bits') =>
              if last then stop rout' StreamEnd bits'
              else blocks fuel' rout' outcnt' bits'
          end
      end
  end.

(** One run of the inflater over [input]. *)
Definition inflate_run (input : buffer) : InflateRun :=
  let bits := bits_of input in
  blocks (List.length bits) [] 0 bits.

Definition produced (r : InflateRun) : buffer := rev (produced_rev r).

(** The input bytes the run did not touch (the bits left in the byte it
    stopped in are dropped). *)
Definition remaining (input : buffer) (r : InflateRun) : buffer :=
  skipn (List.length input - List.length (unread r) / 8) input.

(** [zlib.inflateRawSync(buffer)]: the whole stream or an error. *)
Definition inflateRawSync (input : buffer) : Outcome buffer :=
  let r := inflate_run input in
  match status r with
  | StreamEnd => Returned (produced r)
  | _ => Thrown StageInflate
  end.

(** [new Inflater(true)], [setInput(input)], one call of
    [inflate(new byte[size])] and [end()]: the bytes written into the
    array.  The call returns when the array is full, when the stream ends
    or when the input is used up, whichever comes first; it throws
    DataFormatException when it meets invalid data before that (a match
    that reaches too far back is met only when its bytes are to be
    written, so not with a full array). *)
Definition Inflater_inflate (size : nat) (input : buffer) : Outcome buffer :=
  let r := inflate_run input in
  let out := produced r in
  if Nat.ltb size (List.length out) then Returned (firstn size out)
  else
    match status r with
    | StreamEnd | NeedInput => Returned out
    | FarDistance =>
        if Nat.eqb (List.length out) size then Returned out
        else Thrown StageInflate
    | DataError => Thrown StageInflate
    end.

(* ------------------------------------------------------------------ *)
(** * The gzip container (RFC 1952) *)

Definition crc32_step (c : Z) : Z :=
  if Z.odd c then Z.lxor (Z.shiftr c 1) 3988292384 else Z.shiftr c 1.

Definition crc32_byte (crc : Z) (b : byte) : Z :=
  let c := Z.lxor crc (b2z b) in
  crc32_step (crc32_step (crc32_step (crc32_step
    (crc32_step (crc32_step (crc32_step (crc32_step c))))))).

Definition crc32 (buf : buffer) : Z :=
  Z.lxor (fold_left crc32_byte buf 4294967295) 4294967295.

(** A 32-bit number, least significant byte first. *)
Definition le32 (v : Z) : buffer :=
  [z2b v; z2b (Z.shiftr v 8); z2b (Z.shiftr v 16); z2b (Z.shiftr v 24)].

(** The trailer of a gzip member: CRC-32 and length modulo 2^32 of the
    uncompressed data. *)
Definition gzip_trailer (data : buffer) : buffer :=
  le32 (crc32 data) ++ le32 (Z.of_nat (List.length data) mod 4294967296).

Fixpoint buffer_eqb (a b : buffer) : bool :=
  match a, b with
  | [], [] => true
  | x :: a', y :: b' => Byte.eqb x y && buffer_eqb a' b'
  | _, _ => false
  end.

(** The ten header bytes zlib writes for a gzip stream: magic 1f 8b,
    method 8 (deflate), no flags, MTIME 0, XFL 0 at the default level, and
    the code of the operating system zlib was built for. *)
Definition gzip_header (os : byte) : buffer :=
  [x1f; x8b; x08; x00; x00; x00; x00; x00; x00; os].

(** Skip a zero-terminated field. *)
Fixpoint skip_zero_terminated (b : buffer) : option buffer :=
  match b with
  | [] => None
  | c :: rest => if b2z c =? 0 then Some rest else skip_zero_terminated rest
  end.

(** One member of a gzip file: its content and the bytes after it. *)
Definition gunzip_member (input : buffer) : option (buffer * buffer) :=
  match input with
  | id1 :: id2 :: cm :: flg :: _ :: _ :: _ :: _ :: _ :: _ :: body =>
      let flg := b2z flg in
      if negb ((b2z id1 =? 31) && (b2z id2 =? 139) && (b2z cm =? 8)
               && (Z.land flg 224 =? 0)) then None
      else
        let after_extra :=
          if Z.testbit flg 2 then
            match body with
            | l0 :: l1 :: rest =>
                let xlen := Z.to_nat (b2z l0 + 256 * b2z l1) in
                if Nat.ltb (List.length rest) xlen then None
                else Some (skipn xlen rest)
            | _ => None
            end
          else Some body in
        let after_name :=
          match after_extra with
          | Some b => if Z.testbit flg 3 then skip_zero_terminated b else Some b
          | None => None
          end in
        let after_comment :=
          match after_name with
          | Some b => if Z.testbit flg 4 then skip_zero_terminated b else Some b
          | None => None
          end in
        let after_hcrc :=
          match after_comment with
          | Some b =>
              if Z.testbit flg 1 then
                let hdr := firstn (List.length input - List.length b) input in
                match b with
                | c0 :: c1 :: rest =>
                    if b2z c0 + 256 * b2z c1 =? Z.land (crc32 hdr) 65535
                    then Some rest else None
                | _ => None
                end
              else Some b
          | None => None
          end in
        match after_hcrc with
        | None => None
        | Some deflated =>
            let r := inflate_run deflated in
            match status r with
            | StreamEnd =>
                let out := produced r in
                let tail := remaining deflated r in
                if buffer_eqb (firstn 8 tail) (gzip_trailer out)
                then Some (out, skipn 8 tail)
                else None
            | _ => None
            end
        end
  | _ => None
  end.

(** The members of a gzip file, one after the other; input left over
    that starts with a zero byte is padding. *)
Fixpoint gunzip_members (fuel : nat) (input : buffer) : option buffer :=
  match fuel with
  | O => None
  | S fuel' =>
      match gunzip_member input with
      | None => None
      | Some (out, rest) =>
          match rest with
          | [] => Some out
          | c :: _ =>
              if b2z c =? 0 then Some out
              else option_map (app out) (gunzip_members fuel' rest)
          end
      end
  end.

(** [zlib.gunzipSync(buffer)]. *)
Definition gunzipSync (input : buffer) : Outcome buffer :=
  at_stage StageInflate (gunzip_members (List.length input) input).

(* ------------------------------------------------------------------ *)
(** * JSON text of the payload *)

(** The object handed to [encodeContivaData]: four strings and two
    objects of strings, the latter as their properties in enumeration
    order. *)
Record DebugPayload : Type := {
  currentSessionType : jsstring;
  scriptInput : jsstring;
  script : jsstring;
  functionName : jsstring;
  headers : list (jsstring * jsstring);
  properties : list (jsstring * jsstring)
}.

Definition ch_quote : Z := 34.      (* the double quote *)
Definition ch_backslash : Z := 92.

Definition hex_digit_lower (v : Z) : Z :=
  nth (Z.to_nat v) (str "0123456789abcdef") 48.

(** [\uXXXX] *)
Definition unicode_escape (c : Z) : jsstring :=
  [ch_backslash; 117; hex_digit_lower (c / 4096);
   hex_digit_lower (c / 256 mod 16); hex_digit_lower (c / 16 mod 16);
   hex_digit_lower (c mod 16)].

(** The characters of a JSON string literal (QuoteJSONString): the quote
    and the backslash are escaped, control characters are written as
    [\b \t \n \f \r] or [\u00XX], a surrogate without its partner as
    [\uDXXX]. *)
Fixpoint quote_chars (s : jsstring) : jsstring :=
  match s with
  | [] => []
  | c :: rest =>
      if c =? ch_quote then ch_backslash :: ch_quote :: quote_chars rest
      else if c =? ch_backslash then
        ch_backslash :: ch_backslash :: quote_chars rest
      else if c =? 8 then ch_backslash :: 98 :: quote_chars rest
      else if c =? 9 then ch_backslash :: 116 :: quote_chars rest
      else if c =? 10 then ch_backslash :: 110 :: quote_chars rest
      else if c =? 12 then ch_backslash :: 102 :: quote_chars rest
      else if c =? 13 then ch_backslash :: 114 :: quote_chars rest
      else if c <? 32 then unicode_escape c ++ quote_chars rest
      else if is_high_surrogate c then
        match rest with
        | c2 :: rest' =>
            if is_low_surrogate c2 then c :: c2 :: quote_chars rest'
            else unicode_escape c ++ quote_chars rest
        | [] => unicode_escape c
        end
      else if is_low_surrogate c then unicode_escape c ++ quote_chars rest
      else c :: quote_chars rest
  end.

Definition quote (s : jsstring) : jsstring :=
  ch_quote :: quote_chars s ++ [ch_quote].

Definition member (k v : jsstring) : jsstring := quote k ++ str ":" ++ v.

Fixpoint join_comma (l : list jsstring) : jsstring :=
  match l with
  | [] => []
  | [x] => x
  | x :: rest => x ++ str "," ++ join_comma rest
  end.

Definition object_text (members : list jsstring) : jsstring :=
  str "{" ++ join_comma members ++ str "}".

Definition string_map_text (m : list (jsstring * jsstring)) : jsstring :=
  object_text (map (fun kv => member (fst kv) (quote (snd kv))) m).

(** [JSON.stringify(contivaData)] *)
Definition JSON_stringify (d : DebugPayload) : jsstring :=
  object_text
    [member (str "currentSessionType") (quote (currentSessionType d));
     member (str "scriptInput") (quote (scriptInput d));
     member (str "script") (quote (script d));
     member (str "functionName") (quote (functionName d));
     member (str "headers") (string_map_text (headers d));
     member (str "properties") (string_map_text (properties d))].

Definition replacement_bytes : buffer := [xef; xbf; xbd].

(** The UTF-8 bytes of a string ([Buffer.from(string)]): a surrogate pair
    is one code point, a lone surrogate becomes U+FFFD. *)
Fixpoint utf8_encode (s : jsstring) : buffer :=
  match s with
  | [] => []
  | c :: rest =>
      if is_high_surrogate c then
        match rest with
        | c2 :: rest' =>
            if is_low_surrogate c2 then
              map z2b (utf8_octets
                         ((c - 55296) * 1024 + (c2 - 56320) + 65536))
              ++ utf8_encode rest'
            else replacement_bytes ++ utf8_encode rest
        | [] => replacement_bytes
        end
      else if is_low_surrogate c then replacement_bytes ++ utf8_encode rest
      else map z2b (utf8_octets c) ++ utf8_encode rest
  end.

(* ------------------------------------------------------------------ *)
(** * The external collaborators *)

(** zlib's compressor: the raw deflate stream of a buffer at the default
    level, and the operating-system code zlib writes into gzip headers. *)
Class Compressor : Type := {
  os_code : byte;
  deflate : buffer -> buffer
}.

(** One file of an archive: [archive.append(source, { name, date })]. *)
Record ArchiveEntry : Type := {
  entry_name : jsstring;
  entry_content : buffer;
  entry_date : Z          (* milliseconds since the epoch *)
}.

Record ArchiverOptions : Type := {
  zlib_level : Z;
  archive_date : option Z
}.

(** The archiver library: the chunks its stream emits, from [pipe] to the
    end of [finalize], for the ZIP archive of the entries. *)
Class Archiver : Type := {
  archiver_chunks : ArchiverOptions -> list ArchiveEntry -> list buffer
}.

(** [archiver('zip', ...)] writes the archive through the ZIP stream of
    compress-commons.  For every entry [_writeLocalFileHeader] writes the
    signature of a local file header, [getLongBytes(SIG_LFH)], and then
    the fields of the header; the data of the entry follow; [_finish]
    writes the central directory after the last entry.  The signature is
    a constant of the library; what it computes from the entries (the
    fields, the data deflated at the level of the options, the central
    directory) is a parameter. *)
Definition SIG_LFH : Z := 67324752.     (* 0x04034b50 *)

(** [zipUtil.getLongBytes(v)]: four bytes, the lowest first. *)
Definition getLongBytes (v : Z) : buffer := le32 v.

Class ZipWriter : Type := {
  (* the header from the version to the extra field *)
  local_header_fields : ArchiverOptions -> ArchiveEntry -> buffer;
  (* the data of the entry and what closes it *)
  entry_data : ArchiverOptions -> ArchiveEntry -> list buffer;
  (* the central directory and the end record *)
  central_directory : ArchiverOptions -> list ArchiveEntry -> list buffer
}.

(** The writes of one entry, the signature first. *)
Definition zip_entry_chunks {W : ZipWriter} (options : ArchiverOptions)
                            (e : ArchiveEntry) : list buffer :=
  getLongBytes SIG_LFH :: local_header_fields options e
  :: entry_data options e.

Definition zip_archiver {W : ZipWriter} : Archiver :=
  {| archiver_chunks := fun options entries =>
       flat_map (zip_entry_chunks options) entries
       ++ central_directory options entries |}.

(** The JavaScript side of the deflate variant: [buf.toString('utf-8')]
    and [JSON.parse] ([None]: SyntaxError), over JSON values [J]. *)
Class JsRuntime (J : Type) : Type := {
  Buffer_toString_utf8 : buffer -> jsstring;
  JSON_parse : jsstring -> option J
}.

(** The Groovy side: [new String(bytes, 0, n, 'UTF-8')],
    [new JsonSlurper().parseText] ([None]: it threw) and the cast
    [json as Map] ([None]: GroovyCastException). *)
Class GroovyRuntime (J : Type) : Type := {
  String_new_utf8 : buffer -> jsstring;
  JsonSlurper_parseText : jsstring -> option J;
  asMap : J -> option J
}.

(* ------------------------------------------------------------------ *)
(** * contiva-encoder.js *)

Record GzipOptions : Type := { mtime : option Z }.

(** [zlib.gzipSync(data, options)]: header, deflate stream and trailer.
    zlib writes a zero MTIME whatever the options say; [mtime] is no
    option it reads. *)
Definition gzipSync {C : Compressor} (data : buffer) (options : GzipOptions)
  : buffer :=
  gzip_header os_code ++ deflate data ++ gzip_trailer data.

(** What the compressor owes the inflater at [data], when [tail] follows
    the stream: the run ends with the stream, has produced [data] and has
    left [tail] unread. *)
Definition deflate_inverts {C : Compressor} (data tail : buffer) : Prop :=
  status (inflate_run (deflate data ++ tail)) = StreamEnd
  /\ produced (inflate_run (deflate data ++ tail)) = data
  /\ remaining (deflate data ++ tail) (inflate_run (deflate data ++ tail))
     = tail.

(** The date of an entry: the one given, else the time of the call. *)
Definition dateify (now : Z) (date : option Z) : Z :=
  match date with
  | Some d => d
  | None => now
  end.

(** [archive.append(source, { name, date })] at time [now]. *)
Definition archive_append (now : Z) (source : jsstring) (name : jsstring)
                          (date : option Z) : ArchiveEntry :=
  {| entry_name := name;
     entry_content := utf8_encode source;
     entry_date := dateify now date |}.

(** Steps 1 and 2 of [encodeContivaData]: the JSON string, the archive
    with the one entry [data.json], and the buffer the ['data'] handler
    builds ([zipBuffer = Buffer.concat([zipBuffer, chunk])], from
    [Buffer.alloc(0)]). *)
Definition contiva_archive {A : Archiver} (now : Z) (contivaData : DebugPayload)
  : buffer :=
  let jsonString := JSON_stringify contivaData in
  let chunks :=
    archiver_chunks
      {| zlib_level := 9; archive_date := Some 0 |}
      [archive_append now jsonString (str "data.json") (Some 0)] in
  fold_left (fun zipBuffer chunk => zipBuffer ++ chunk) chunks [].

(** [encodeContivaData(contivaData)], called at time [now]; [Thrown] is
    the rejected promise. *)
Definition encodeContivaData {C : Compressor} {A : Archiver}
                             (now : Z) (contivaData : DebugPayload)
  : Outcome jsstring :=
  (* Steps 1, 2: JSON string, ZIP archive *)
  let zipBuffer := contiva_archive now contivaData in
  (* Step 3: gzip *)
  let compressed := gzipSync zipBuffer {| mtime := Some 0 |} in
  (* Step 4: standard base64, padded *)
  let base64 := base64_encode compressed in
  let base64 := base64 ++ repeat_eq (paddingNeeded (strlen base64)) in
  (* Step 5: URL-encode *)
  at_stage StagePercent (encodeURIComponent base64).

Record ContivaDecoded : Type := {
  zipBuffer : buffer;
  message : jsstring
}.

Definition archive_message : jsstring :=
  str "This is a ZIP archive. Extract with a ZIP tool or use the archiver library to read.".

(** [decodeContivaData(encodedData)] *)
Definition decodeContivaData (encodedData : jsstring)
  : Outcome ContivaDecoded :=
  (* Step 1: URL-decode *)
  let* decodedUrl := at_stage StagePercent (decodeURIComponent encodedData) in
  (* Step 2: standard base64 from the URL-safe form *)
  let standardBase64 := toStandardAlphabet decodedUrl in
  (* Step 3: base64 to binary *)
  let buffer := Buffer_from_base64 standardBase64 in
  (* Step 4: gunzip *)
  let* decompressed := gunzipSync buffer in
  Returned {| zipBuffer := decompressed; message := archive_message |}.

(* ------------------------------------------------------------------ *)
(** * groovy-server.js and the Groovy decoder server *)

(** [decodeGroovyString(urlSafeBase64)] *)
Definition decodeGroovyString {J : Type} {R : JsRuntime J}
                              (urlSafeBase64 : jsstring) : Outcome J :=
  (* Step 1: standard base64 from the URL-safe form *)
  let standardBase64 := toStandardAlphabet urlSafeBase64 in
  (* Step 2: restore padding *)
  let standardBase64 := addPadding standardBase64 in
  (* Step 3: base64 to binary *)
  let buffer := Buffer_from_base64 standardBase64 in
  (* Step 4: inflate the raw deflate data *)
  let* decompressed := inflateRawSync buffer in
  (* Step 5: UTF-8 string *)
  let jsonString := Buffer_toString_utf8 decompressed in
  (* Step 6: parse JSON *)
  at_stage StageParse (JSON_parse jsonString).

(** The size of the array the Groovy decoder inflates into. *)
Definition groovy_buffer_size : nat := Z.to_nat 10240.

(** [decodeGroovyData(urlSafeBase64)] *)
Definition decodeGroovyData {J : Type} {R : GroovyRuntime J}
                            (urlSafeBase64 : jsstring) : Outcome J :=
  (* Step 1: URL-safe base64 to standard base64 *)
  let standardBase64 := toStandardAlphabet urlSafeBase64 in
  (* Step 2: add padding if needed *)
  let standardBase64 := addPadding standardBase64 in
  (* Step 3: base64 to binary *)
  let* buffer := at_stage StageBase64 (Base64_decoder_decode standardBase64) in
  (* Step 4: decompress with deflate, into byte[10240] *)
  let* decompressed := Inflater_inflate groovy_buffer_size buffer in
  (* Step 5: UTF-8 string *)
  let jsonString := String_new_utf8 decompressed in
  (* Step 6: parse JSON *)
  let* json := at_stage StageParse (JsonSlurper_parseText jsonString) in
  at_stage StageCast (asMap json).

(* ------------------------------------------------------------------ *)
(** * JavaScript values *)

(** Numbers (IEEE doubles), with the operations the code applies to
    them: ToBoolean (false for +0, -0 and NaN), isFinite and ToString,
    and the number of a length. *)
Class JsNumbers : Type := {
  JsNum : Type;
  Number_toBoolean : JsNum -> bool;
  Number_isFinite : JsNum -> bool;
  Number_toString : JsNum -> jsstring;
  Number_of_length : Z -> JsNum
}.

#[local] Set Warnings "-register-all".

(** The values [JSON.parse] builds, and [undefined].  An object is the
    list of its own properties in the order [Object.entries] gives them,
    each key once. *)
Inductive JsValue {N : JsNumbers} : Type :=
| JsUndefined
| JsNull
| JsBoolean (b : bool)
| JsNumber (n : JsNum)
| JsString (s : jsstring)
| JsArray (items : list JsValue)
| JsObject (entries : list (jsstring * JsValue)).

(** What a call throws. *)
Inductive Exception : Type :=
| PipelineError (st : Stage)      (* a step of a decoder or of the encoder *)
| TypeError                       (* a property of undefined or null read,
                                     something that is no function called *)
| SystemError (code : jsstring).  (* the file system, the process library *)

(** A call returns or throws. *)
Inductive Completion (A : Type) : Type :=
| Normal (a : A)
| Throw (e : Exception).

Arguments Normal {A} a.
Arguments Throw {A} e.

Fixpoint jsstring_eqb (a b : jsstring) : bool :=
  match a, b with
  | [], [] => true
  | x :: a', y :: b' => (x =? y) && jsstring_eqb a' b'
  | _, _ => false
  end.

(** [sep]-separated concatenation: [lines.join(sep)]. *)
Fixpoint join (sep : jsstring) (l : list jsstring) : jsstring :=
  match l with
  | [] => []
  | [x] => x
  | x :: rest => x ++ sep ++ join sep rest
  end.

(** The decimal digits of an array index. *)
Definition index_key (i : nat) : jsstring :=
  str (NilZero.string_of_uint (Nat.to_uint i)).

Section Values.

Context {N : JsNumbers}.

(** ToBoolean: what [||], [!] and [if] test. *)
Definition truthy (v : JsValue) : bool :=
  match v with
  | JsUndefined | JsNull => false
  | JsBoolean b => b
  | JsNumber n => Number_toBoolean n
  | JsString [] => false
  | JsString (_ :: _) => true
  | JsArray _ | JsObject _ => true
  end.

(** [a || b] *)
Definition or_else (a b : JsValue) : JsValue := if truthy a then a else b.

(** [typeof v === 'object'] *)
Definition typeof_object (v : JsValue) : bool :=
  match v with
  | JsNull | JsArray _ | JsObject _ => true
  | _ => false
  end.

Fixpoint own_property (entries : list (jsstring * JsValue)) (key : jsstring)
  : JsValue :=
  match entries with
  | [] => JsUndefined
  | (k, v) :: rest => if jsstring_eqb k key then v else own_property rest key
  end.

(** [v.key], for the keys this code reads: none is an array index,
    [length] or a member of a prototype, so only an object has them. *)
Definition get (v : JsValue) (key : jsstring) : Completion JsValue :=
  match v with
  | JsUndefined | JsNull => Throw TypeError
  | JsObject entries => Normal (own_property entries key)
  | _ => Normal JsUndefined
  end.

(** [Object.entries(v)] of an object or an array. *)
Definition Object_entries (v : JsValue) : list (jsstring * JsValue) :=
  match v with
  | JsObject entries => entries
  | JsArray items =>
      combine (map index_key (seq 0 (List.length items))) items
  | _ => []
  end.

(** [JSON.stringify(v)]; [None] is [undefined].  A number that is not
    finite is written [null], as is [undefined] inside an array; a
    property whose value is [undefined] is left out. *)
Fixpoint stringify (v : JsValue) : option jsstring :=
  match v with
  | JsUndefined => None
  | JsNull => Some (str "null")
  | JsBoolean b => Some (if b then str "true" else str "false")
  | JsNumber n =>
      Some (if Number_isFinite n then Number_toString n else str "null")
  | JsString s => Some (quote s)
  | JsArray items =>
      Some (str "["
            ++ join_comma (map (fun x => match stringify x with
                                         | Some t => t
                                         | None => str "null"
                                         end) items)
            ++ str "]")
  | JsObject entries =>
      Some (object_text
              (flat_map (fun kv => match stringify (snd kv) with
                                   | Some t => [member (fst kv) t]
                                   | None => []
                                   end) entries))
  end.

(** [String(v)] *)
Fixpoint ToString (v : JsValue) : jsstring :=
  match v with
  | JsUndefined => str "undefined"
  | JsNull => str "null"
  | JsBoolean b => if b then str "true" else str "false"
  | JsNumber n => Number_toString n
  | JsString s => s
  | JsArray items =>
      join_comma (map (fun x => match x with
                                | JsUndefined | JsNull => []
                                | _ => ToString x
                                end) items)
  | JsObject _ => str "[object Object]"
  end.

(** The payload of the encoder as a value. *)
Definition string_map_value (m : list (jsstring * jsstring)) : JsValue :=
  JsObject (map (fun kv => (fst kv, JsString (snd kv))) m).

Definition payload_value (d : DebugPayload) : JsValue :=
  JsObject
    [(str "currentSessionType", JsString (currentSessionType d));
     (str "scriptInput", JsString (scriptInput d));
     (str "script", JsString (script d));
     (str "functionName", JsString (functionName d));
     (str "headers", string_map_value (headers d));
     (str "properties", string_map_value (properties d))].

End Values.

(* ------------------------------------------------------------------ *)
(** * groovy-server.js: conversion and the properties format *)

(** [Date.prototype.toUTCString] and [toISOString] of a time stamp
    (milliseconds since the epoch). *)
Class JsDates : Type := {
  Date_toUTCString : Z -> jsstring;
  Date_toISOString : Z -> jsstring
}.

Definition ch_newline : Z := 10.
Definition ch_tab : Z := 9.
Definition ch_colon : Z := 58.

(** The class [[=:\t]] of the escaping regular expression. *)
Definition properties_special (c : Z) : bool :=
  (c =? ch_eq) || (c =? ch_colon) || (c =? ch_tab).

(** [s.replace(/[=:\t]/g, '\\$&')]: a backslash before each match. *)
Definition escapeValue (s : jsstring) : jsstring :=
  flat_map (fun c => if properties_special c then [ch_backslash; c] else [c])
           s.

Section Conversion.

Context {N : JsNumbers} {D : JsDates}.

(** [cpiHelperToContiva(cpiHelperData)] *)
Definition cpiHelperToContiva (cpiHelperData : JsValue)
  : Completion JsValue :=
  match get cpiHelperData (str "input") with
  | Throw e => Throw e
  | Normal i =>
  match get cpiHelperData (str "script") with
  | Throw e => Throw e
  | Normal s =>
      let input := or_else i (JsObject []) in
      let script := or_else s (JsObject []) in
      match get input (str "body"), get script (str "code"),
            get script (str "function"), get input (str "headers"),
            get input (str "properties") with
      | Normal body, Normal code, Normal function, Normal headers,
        Normal properties =>
          Normal
            (JsObject
               [(str "currentSessionType", JsString (str "groovy"));
                (str "scriptInput", or_else body (JsString []));
                (str "script", or_else code (JsString []));
                (str "functionName",
                 or_else function (JsString (str "processData")));
                (str "headers", or_else headers (JsObject []));
                (str "properties", or_else properties (JsObject []))])
      | _, _, _, _, _ => Throw TypeError
      end
  end end.

(** One line of the loop of [objectToPropertiesFormat]. *)
Definition property_line (entry : jsstring * JsValue) : jsstring :=
  let (key, value) := entry in
  let val :=
    if typeof_object value then
      match stringify value with
      | Some text => JsString text
      | None => JsUndefined
      end
    else value in
  let escapedVal := escapeValue (ToString val) in
  key ++ str "=" ++ escapedVal.

(** [objectToPropertiesFormat(obj, title)], called at time [now];
    [title] is [None] when the argument is left out. *)
Definition objectToPropertiesFormat (now : Z) (obj : JsValue)
                                    (title : option jsstring) : jsstring :=
  let title := match title with
               | Some t => t
               | None => str "Contents"
               end in
  let lines := [str "#" ++ title] in
  let dateStr := Date_toUTCString now in
  let lines := lines ++ [str "#" ++ dateStr] in
  let lines :=
    match obj with
    | JsArray _ | JsObject _ => lines ++ map property_line (Object_entries obj)
    | _ => lines
    end in
  join [ch_newline] lines.

End Conversion.

(* ------------------------------------------------------------------ *)
(** * groovy-server.js: saving and the [/debug] routes *)

(** A call of the file-system library. *)
Inductive FsCall {N : JsNumbers} : Type :=
| ExistsSync (path : jsstring)
| MkdirSync (path : jsstring)
| WriteFileSync (path : jsstring) (data : JsValue).

(** The machine the server runs on: [path.join], and what the file
    system answers to a call after the calls made so far. *)
Class NodeFs {N : JsNumbers} : Type := {
  path_join : jsstring -> jsstring -> jsstring;
  fs_exists : list FsCall -> jsstring -> bool;
  fs_throws : list FsCall -> FsCall -> option Exception
}.

(** [error.message] *)
Class JsErrors : Type := {
  error_message : Exception -> jsstring
}.

(** An HTTP reply: [res.status(statusCode).json(body)]. *)
Record Response {N : JsNumbers} : Type := {
  statusCode : Z;
  body : JsValue
}.

(** [process.env.DATA_DUMP_PATH || 'C:\\CPIViewer\\DataDump'] *)
Definition DATA_DUMP_BASE (DATA_DUMP_PATH : option jsstring) : jsstring :=
  match DATA_DUMP_PATH with
  | Some (c :: path) => c :: path
  | _ => str "C:\CPIViewer\DataDump"
  end.

Section Saving.

Context {N : JsNumbers} {D : JsDates} {F : NodeFs} {E : JsErrors}.

Definition existsSync (calls : list FsCall) (path : jsstring)
  : list FsCall * bool :=
  (calls ++ [ExistsSync path], fs_exists calls path).

Definition mkdirSync (calls : list FsCall) (path : jsstring)
  : list FsCall * option Exception :=
  (calls ++ [MkdirSync path], fs_throws calls (MkdirSync path)).

Definition writeFileSync (calls : list FsCall) (path : jsstring)
                         (data : JsValue)
  : list FsCall * option Exception :=
  (calls ++ [WriteFileSync path data],
   fs_throws calls (WriteFileSync path data)).

(** [if (!fs.existsSync(dir)) fs.mkdirSync(dir, { recursive: true })] *)
Definition ensure_directory (calls : list FsCall) (dir : jsstring)
  : list FsCall * option Exception :=
  let (calls, found) := existsSync calls dir in
  if found then (calls, None) else mkdirSync calls dir.

(** [{ success: false, error: error.message }] *)
Definition save_failure (error : Exception) : JsValue :=
  JsObject [(str "success", JsBoolean false);
            (str "error", JsString (error_message error))].

(** [saveDecodedData(decodedData)]: the calls made so far go in, the
    calls made and the object returned come out.  [env] is the value of
    DATA_DUMP_PATH, [t_header] and [t_properties] are the times at which
    the two properties texts are written out. *)
Definition saveDecodedData (env : option jsstring) (t_header t_properties : Z)
                           (calls : list FsCall) (decodedData : JsValue)
  : list FsCall * JsValue :=
  let DATA_DUMP_DEBUG := path_join (DATA_DUMP_BASE env) (str "Debug") in
  let DATA_DUMP_PROPERTIES := path_join (DATA_DUMP_BASE env) (str "Debug") in
  match ensure_directory calls DATA_DUMP_DEBUG with
  | (calls, Some error) => (calls, save_failure error)
  | (calls, None) =>
  match ensure_directory calls DATA_DUMP_PROPERTIES with
  | (calls, Some error) => (calls, save_failure error)
  | (calls, None) =>
  match get decodedData (str "input") with
  | Throw error => (calls, save_failure error)
  | Normal i =>
      let input := or_else i (JsObject []) in
      let fixedFilename := str "debug" in
      (* body, as it is; an error is logged and dropped *)
      let calls :=
        let bodyPath :=
          path_join DATA_DUMP_DEBUG (fixedFilename ++ str ".body") in
        match get input (str "body") with
        | Normal b =>
            fst (writeFileSync calls bodyPath (or_else b (JsString [])))
        | Throw _ => calls
        end in
      (* headers, in properties format *)
      let calls :=
        let headersPath :=
          path_join DATA_DUMP_DEBUG (fixedFilename ++ str ".header") in
        match get input (str "headers") with
        | Normal h =>
            let headersContent :=
              objectToPropertiesFormat t_header (or_else h (JsObject []))
                                       (Some (str "Header Contents")) in
            fst (writeFileSync calls headersPath (JsString headersContent))
        | Throw _ => calls
        end in
      (* properties, in properties format *)
      let calls :=
        let propertiesPath :=
          path_join DATA_DUMP_PROPERTIES
                    (fixedFilename ++ str ".properties") in
        match get input (str "properties") with
        | Normal p =>
            let propertiesContent :=
              objectToPropertiesFormat t_properties
                                       (or_else p (JsObject []))
                                       (Some (str "Properties Contents")) in
            fst (writeFileSync calls propertiesPath
                               (JsString propertiesContent))
        | Throw _ => calls
        end in
      (calls,
       JsObject
         [(str "success", JsBoolean true);
          (str "files",
           JsObject
             [(str "body",
               JsString (path_join DATA_DUMP_DEBUG
                                   (fixedFilename ++ str ".body")));
              (str "header",
               JsString (path_join DATA_DUMP_DEBUG
                                   (fixedFilename ++ str ".header")));
              (str "properties",
               JsString (path_join DATA_DUMP_PROPERTIES
                                   (fixedFilename ++ str ".properties")))])])
  end end end.

Context {R : JsRuntime JsValue}.

(** [decodeGroovyString(v)] on a value of any type: what is no string
    has no [substring] to call. *)
Definition decodeGroovyString_value (v : JsValue) : Completion JsValue :=
  match v with
  | JsString urlSafeBase64 =>
      match decodeGroovyString urlSafeBase64 with
      | Returned parsed => Normal parsed
      | Thrown st => Throw (PipelineError st)
      end
  | _ => Throw TypeError
  end.

(** The reply of the [catch] block of both [/debug] routes. *)
Definition decode_failed (error : Exception) (now : Z) : Response :=
  {| statusCode := 400;
     body :=
       JsObject [(str "success", JsBoolean false);
                 (str "message", JsString (str "Failed to decode data"));
                 (str "error", JsString (error_message error));
                 (str "timestamp", JsString (Date_toISOString now))] |}.

(** What both [/debug] routes do with [data]: decode, save, reply. *)
Definition decode_and_save (env : option jsstring)
                           (t_header t_properties t_reply : Z)
                           (calls : list FsCall) (data : JsValue)
  : list FsCall * Response :=
  match decodeGroovyString_value data with
  | Throw error => (calls, decode_failed error t_reply)
  | Normal decodedData =>
      let (calls, saveResult) :=
        saveDecodedData env t_header t_properties calls decodedData in
      match get saveResult (str "files") with
      | Throw error => (calls, decode_failed error t_reply)
      | Normal files =>
          (calls,
           {| statusCode := 200;
              body :=
                JsObject
                  [(str "success", JsBoolean true);
                   (str "message",
                    JsString (str "Data decoded successfully"));
                   (str "data", decodedData);
                   (str "files", or_else files JsNull);
                   (str "timestamp",
                    JsString (Date_toISOString t_reply))] |})
      end
  end.

(** [app.get('/debug/:data', ...)]; [encodedData] is [req.params.data],
    the path parameter as Express hands it over: percent-decoded. *)
Definition get_debug (env : option jsstring)
                     (t_header t_properties t_reply : Z)
                     (calls : list FsCall) (encodedData : jsstring)
  : list FsCall * Response :=
  decode_and_save env t_header t_properties t_reply calls
                  (JsString encodedData).

(** [app.post('/debug', ...)]; [req_body] is [req.body]. *)
Definition post_debug (env : option jsstring)
                      (t_header t_properties t_reply : Z)
                      (calls : list FsCall) (req_body : JsValue)
  : list FsCall * Response :=
  match get req_body (str "data") with
  | Throw error => (calls, decode_failed error t_reply)
  | Normal data =>
      if negb (truthy data) then
        (calls,
         {| statusCode := 400;
            body :=
              JsObject
                [(str "success", JsBoolean false);
                 (str "message",
                  JsString (str "Missing " ++ [ch_quote] ++ str "data"
                            ++ [ch_quote] ++ str " field in request body"));
                 (str "timestamp", JsString (Date_toISOString t_reply))] |})
      else
        decode_and_save env t_header t_properties t_reply calls data
  end.

End Saving.

(* ------------------------------------------------------------------ *)
(** * contiva-encoder.js: [openInChrome] *)

(** [process.platform] *)
Inductive Platform : Type :=
| Win32
| Darwin
| OtherPlatform.

(** The URL [openInChrome] builds. *)
Definition contiva_url (encodedData : jsstring) : jsstring :=
  str "https://ide.contiva.com/cpi/script/debug?data=" ++ encodedData.

(** The command it hands to [exec]. *)
Definition chrome_command (platform : Platform) (encodedData : jsstring)
  : jsstring :=
  let url := contiva_url encodedData in
  match platform with
  | Win32 => str "start chrome " ++ [ch_quote] ++ url ++ [ch_quote]
  | Darwin =>
      str "open -a " ++ [ch_quote] ++ str "Google Chrome" ++ [ch_quote]
      ++ str " " ++ [ch_quote] ++ url ++ [ch_quote]
  | OtherPlatform => str "google-chrome " ++ [ch_quote] ++ url ++ [ch_quote]
  end.

(** [child_process.exec(command, callback)]: the callback is called with
    an error or without one, unless [exec] itself throws. *)
Inductive ExecOutcome : Type :=
| ExecCalledBack (error : option Exception)
| ExecThrew (error : Exception).

Class ChildProcess : Type := {
  platform : Platform;
  exec : jsstring -> ExecOutcome
}.

Section Browser.

Context {N : JsNumbers} {P : ChildProcess}.

(** [openInChrome(encodedData)]: the command it runs and how its promise
    settles.  The callback resolves the promise whether the command
    failed or not; only an exception of [exec] itself rejects it. *)
Definition openInChrome (encodedData : jsstring)
  : jsstring * Completion JsValue :=
  let command := chrome_command platform encodedData in
  (command,
   match exec command with
   | ExecCalledBack _ => Normal JsUndefined
   | ExecThrew error => Throw error
   end).

End Browser.

(* ------------------------------------------------------------------ *)
(** * groovy-server.js: the [/contiva/:data] route *)

(** The data the route encodes. *)
Definition contiva_route_data : DebugPayload :=
  {| currentSessionType := str "groovy";
     scriptInput :=
       str "{ " ++ [ch_quote] ++ str "test" ++ [ch_quote] ++ str ": "
       ++ [ch_quote] ++ str "testval3" ++ [ch_quote] ++ str " }";
     script :=
       str "//import com.sap.gateway.ip.core.customdev.util.Message;"
       ++ [ch_newline; ch_newline]
       ++ str "def Message processData(Message message) {"
       ++ [ch_newline] ++ str "    return message;" ++ [ch_newline]
       ++ str "}";
     functionName := str "processData";
     headers :=
       [(str "SAP_MessageProcessingLogID",
         str "AGlnwRPCOT1y6HLEfkmHVDXWnnu0");
        (str "SAP_TRACE_HEADER_1768407316206_MessageType", str "STEP")];
     properties :=
       [(str "AnotherProp", str "conf1"); (str "TestingProp", str "conf2")] |}.

Section ContivaRoute.

Context {N : JsNumbers} {D : JsDates} {E : JsErrors} {P : ChildProcess}
        {C : Compressor} {A : Archiver} {R : JsRuntime JsValue}.

(** The reply of the outer [catch] block. *)
Definition convert_failed (error : Exception) (now : Z) : Response :=
  {| statusCode := 400;
     body :=
       JsObject
         [(str "success", JsBoolean false);
          (str "message", JsString (str "Failed to convert and encode data"));
          (str "error", JsString (error_message error));
          (str "timestamp", JsString (Date_toISOString now))] |}.

(** The reply of the route once the data is encoded: of [encoded] the
    first 100 characters are sent, [last] is the member that tells how
    the browser fared. *)
Definition converted (message : jsstring) (contivaData : DebugPayload)
                     (encoded : jsstring) (last : jsstring * JsValue)
                     (now : Z) : Response :=
  {| statusCode := 200;
     body :=
       JsObject
         [(str "success", JsBoolean true);
          (str "message", JsString message);
          (str "contivaData", payload_value contivaData);
          (str "encoded", JsString (firstn 100 encoded ++ str "..."));
          (str "encodedLength", JsNumber (Number_of_length (strlen encoded)));
          last;
          (str "timestamp", JsString (Date_toISOString now))] |}.

(** [app.get('/contiva/:data', ...)]: the command run, if any, and the
    reply.  [encodedData] is [req.params.data], [now] the time of the
    call of the encoder, [t_reply] the time of the reply. *)
Definition get_contiva (now t_reply : Z) (encodedData : jsstring)
  : option jsstring * Response :=
  match decodeGroovyString encodedData with
  | Thrown st => (None, convert_failed (PipelineError st) t_reply)
  | Returned cpiHelperData =>
      if negb (truthy cpiHelperData) || negb (typeof_object cpiHelperData)
      then
        (None,
         {| statusCode := 400;
            body :=
              JsObject
                [(str "success", JsBoolean false);
                 (str "message",
                  JsString (str "Decoded data is not a valid object"));
                 (str "timestamp", JsString (Date_toISOString t_reply))] |})
      else
        (* hasInput, hasScript *)
        match get cpiHelperData (str "input"),
              get cpiHelperData (str "script") with
        | Normal _, Normal _ =>
            (* the call of cpiHelperToContiva is commented out: the data
               is the constant *)
            let contivaData := contiva_route_data in
            match encodeContivaData now contivaData with
            | Thrown st => (None, convert_failed (PipelineError st) t_reply)
            | Returned encodedContivaData =>
                match openInChrome encodedContivaData with
                | (command, Normal url) =>
                    (Some command,
                     converted
                       (str "Data converted and opened in Contiva IDE")
                       contivaData encodedContivaData (str "url", url)
                       t_reply)
                | (command, Throw chromeError) =>
                    (Some command,
                     converted
                       (str "Data converted successfully"
                        ++ str " (browser opening failed)")
                       contivaData encodedData
                       (str "warning", JsString (error_message chromeError))
                       t_reply)
                end
            end
        | Throw error, _ | _, Throw error =>
            (None, convert_failed error t_reply)
        end
  end.

End ContivaRoute.

(* ------------------------------------------------------------------ *)
(** * The Groovy decoder server: the properties format *)

(** What the Groovy runtime decides here: the coercion [s as char] of a
    string of two characters ([None]: it throws), [Date.toString] and
    [JsonOutput.toJson] of a value that is no String. *)
Class GroovyText (V : Type) : Type := {
  two_characters_as_char : Z -> Z -> option Z;
  Date_toString : Z -> jsstring;
  JsonOutput_toJson : V -> jsstring
}.

Section GroovyProperties.

Context {V : Type} {G : GroovyText V}.

(** [s as char]: a string of one character is that character. *)
Definition as_char (s : jsstring) : option Z :=
  match s with
  | [c] => Some c
  | [a; b] => two_characters_as_char a b
  | _ => None
  end.

(** [valStr.replace(a as char, b as char)], Java's
    [String.replace(char, char)]; [None] when a coercion throws. *)
Definition replace_as_char (valStr : option jsstring) (a b : jsstring)
  : option jsstring :=
  match valStr with
  | None => None
  | Some s =>
      match as_char a, as_char b with
      | Some oldChar, Some newChar => Some (replaceAll oldChar newChar s)
      | _, _ => None
      end
  end.

(** The body of the closure of [data.each]: the line of one entry. *)
Definition properties_entry (entry : jsstring * (jsstring + V))
  : option jsstring :=
  let (key, value) := entry in
  let valStr := match value with
                | inl text => text
                | inr other => JsonOutput_toJson other
                end in
  (* Escape special characters *)
  let valStr :=
    replace_as_char
      (replace_as_char
         (replace_as_char (Some valStr)
                          [ch_backslash] [ch_backslash; ch_backslash])
         [ch_eq] [ch_backslash; ch_eq])
      [ch_colon] [ch_backslash; ch_colon] in
  option_map (fun valStr => key ++ str "=" ++ valStr) valStr.

Fixpoint properties_entries (data : list (jsstring * (jsstring + V)))
  : option (list jsstring) :=
  match data with
  | [] => Some []
  | entry :: rest =>
      match properties_entry entry with
      | None => None
      | Some line => option_map (cons line) (properties_entries rest)
      end
  end.

(** [formatAsProperties(title, data)], called at time [now]; [data] is
    the map as the entries [each] visits; [None]: it throws. *)
Definition formatAsProperties (now : Z) (title : jsstring)
                              (data : list (jsstring * (jsstring + V)))
  : option jsstring :=
  let lines := [str "#" ++ title; str "#" ++ Date_toString now] in
  option_map (fun entries => join [ch_newline] (lines ++ entries))
             (properties_entries data).

End GroovyProperties.

(* ------------------------------------------------------------------ *)
(** * The pipeline as the specification words it *)


(** The shape of a base64 text: its data characters (the longest prefix
    inside the standard alphabet) and what follows them. *)
Definition is_base64_char (c : Z) : bool :=
  match fromBase64 c with
  | Some _ => true
  | None => false
  end.

Fixpoint data_part (p : jsstring) : jsstring :=
  match p with
  | [] => []
  | c :: rest => if is_base64_char c then c :: data_part rest else []
  end.

Fixpoint tail_part (p : jsstring) : jsstring :=
  match p with
  | [] => []
  | c :: rest => if is_base64_char c then tail_part rest else p
  end.

(** A well-formed base64 text: [r] data characters in the last unit are
    followed by nothing, or (for 2 and 3) by the padding that completes
    the unit; a unit of one character is never complete. *)
Definition canonical_tail (r : Z) (tail : jsstring) : bool :=
  match tail with
  | [] => negb (r =? 1)
  | [c] => (r =? 3) && (c =? ch_eq)
  | [c; c'] => (r =? 2) && (c =? ch_eq) && (c' =? ch_eq)
  | _ => false
  end.

Definition well_formed_base64 (p : jsstring) : bool :=
  canonical_tail (strlen (data_part p) mod 4) (tail_part p).

(** The characters of a transport string the specification allows. *)
Definition url_query_safe (c : Z) : bool :=
  is_alpha c || is_digit c || existsb (Z.eqb c) (str "%.-_~").

(* ------------------------------------------------------------------ *)
(** * Reference collaborators

    Simple implementations of the collaborator interfaces, used to run
    the pipeline on concrete inputs. *)

Definition le16 (v : Z) : buffer := [z2b v; z2b (v / 256)].

(** A compressor that emits stored blocks only, as zlib does at level 0:
    blocks of at most 65535 bytes, the last one marked final. *)
Fixpoint stored_blocks (fuel : nat) (data : buffer) : buffer :=
  let len := Z.of_nat (List.length data) in
  match fuel with
  | O => x01 :: le16 len ++ le16 (65535 - len) ++ data
  | S fuel' =>
      if len <=? 65535 then x01 :: le16 len ++ le16 (65535 - len) ++ data
      else
        x00 :: le16 65535 ++ le16 0 ++ firstn (Z.to_nat 65535) data
        ++ stored_blocks fuel' (skipn (Z.to_nat 65535) data)
  end.

Definition stored_compressor : Compressor :=
  {| os_code := x03;
     deflate := fun data =>
       stored_blocks (List.length data / Z.to_nat 65535) data |}.

(** The MS-DOS time and date of a time stamp (UTC), not before 1980. *)
Definition dos_time_date (ms : Z) : Z * Z :=
  if ms <? 315532800000 then (0, 33)
  else
    let secs := ms / 1000 mod 86400 in
    let z := ms / 86400000 + 719468 in
    let era := z / 146097 in
    let doe := z - era * 146097 in
    let yoe := (doe - doe / 1460 + doe / 36524 - doe / 146096) / 365 in
    let doy := doe - (365 * yoe + yoe / 4 - yoe / 100) in
    let mp := (5 * doy + 2) / 153 in
    let d := doy - (153 * mp + 2) / 5 + 1 in
    let m := if mp <? 10 then mp + 3 else mp - 9 in
    let y := yoe + era * 400 + (if m <=? 2 then 1 else 0) in
    (secs / 3600 * 2048 + secs / 60 mod 60 * 32 + secs mod 60 / 2,
     (y - 1980) * 512 + m * 32 + d).

(** The fields a local file header and a central directory header of a
    stored entry share. *)
Definition zip_entry_fields (e : ArchiveEntry) : buffer :=
  let '(time, date) := dos_time_date (entry_date e) in
  let size := Z.of_nat (List.length (entry_content e)) in
  le16 10 ++ le16 2048 ++ le16 0 ++ le16 time ++ le16 date
  ++ le32 (crc32 (entry_content e)) ++ le32 size ++ le32 size
  ++ le16 (Z.of_nat (List.length (utf8_encode (entry_name e)))) ++ le16 0.

Definition zip_local_record (e : ArchiveEntry) : buffer :=
  [x50; x4b; x03; x04] ++ zip_entry_fields e
  ++ utf8_encode (entry_name e) ++ entry_content e.

Definition zip_central_record (offset : Z) (e : ArchiveEntry) : buffer :=
  [x50; x4b; x01; x02] ++ le16 20 ++ zip_entry_fields e
  ++ le16 0 ++ le16 0 ++ le16 0 ++ le32 0 ++ le32 offset
  ++ utf8_encode (entry_name e).

(** The local records of the entries from [offset] on, and the central
    directory that points at them. *)
Fixpoint zip_records (offset : Z) (es : list ArchiveEntry) : buffer * buffer :=
  match es with
  | [] => ([], [])
  | e :: rest =>
      let local := zip_local_record e in
      let '(locals, central) :=
        zip_records (offset + Z.of_nat (List.length local)) rest in
      (local ++ locals, zip_central_record offset e ++ central)
  end.

(** An archive writer that stores its entries uncompressed: the local
    records, the central directory and the end record, a chunk each. *)
Definition stored_zip_chunks (es : list ArchiveEntry) : list buffer :=
  let '(locals, central) := zip_records 0 es in
  let n := Z.of_nat (List.length es) in
  [locals; central;
   [x50; x4b; x05; x06] ++ le16 0 ++ le16 0 ++ le16 n ++ le16 n
   ++ le32 (Z.of_nat (List.length central))
   ++ le32 (Z.of_nat (List.length locals)) ++ le16 0].

Definition stored_archiver : Archiver :=
  {| archiver_chunks := fun _ es => stored_zip_chunks es |}.

(** The same writer behind [zip_archiver]: the fields and the name, the
    content as it is, the central directory and the end record. *)
Definition stored_zip_writer : ZipWriter :=
  {| local_header_fields := fun _ e =>
       zip_entry_fields e ++ utf8_encode (entry_name e);
     entry_data := fun _ e => [entry_content e];
     central_directory := fun _ es => tl (stored_zip_chunks es) |}.

(** Runtimes whose JSON values are the JSON texts themselves: every byte
    is read as one character (which is UTF-8 on ASCII bytes), parsing
    accepts every text. *)
Definition text_js_runtime : JsRuntime jsstring :=
  {| Buffer_toString_utf8 := map b2z; JSON_parse := @Some jsstring |}.

Definition text_groovy_runtime : GroovyRuntime jsstring :=
  {| String_new_utf8 := map b2z;
     JsonSlurper_parseText := @Some jsstring;
     asMap := @Some jsstring |}.

(** The example payload of the specification (section 8). *)
Definition example_payload : DebugPayload :=
  {| currentSessionType := str "groovy";
     scriptInput :=
       str "{ " ++ [ch_quote] ++ str "test" ++ [ch_quote] ++ str ": "
       ++ [ch_quote] ++ str "testval3" ++ [ch_quote] ++ str " }";
     script := str "...";
     functionName := str "processData";
     headers :=
       [(str "SAP_MessageProcessingLogID",
         str "AGlnwRPCOT1y6HLEfkmHVDXWnnu0")];
     properties := [(str "AnotherProp", str "conf1")] |}.

(** The transport string of the example, with the reference compressor
    and archive writer. *)
Definition example_transport :=
  Eval vm_compute in
    match @encodeContivaData stored_compressor stored_archiver 0
                             example_payload with
    | Returned s => s
    | Thrown _ => []
    end.

(** Numbers restricted to the integers. *)
Definition integer_numbers : JsNumbers :=
  {| JsNum := Z;
     Number_toBoolean := fun n => negb (n =? 0);
     Number_isFinite := fun _ => true;
     Number_toString := fun n => str (NilZero.string_of_int (Z.to_int n));
     Number_of_length := fun n => n |}.

(** Dates written as the number of milliseconds. *)
Definition plain_dates : JsDates :=
  {| Date_toUTCString := fun t => str (NilZero.string_of_int (Z.to_int t));
     Date_toISOString := fun t => str (NilZero.string_of_int (Z.to_int t)) |}.

(** An empty disk on which every call succeeds. *)
Definition empty_disk {N : JsNumbers} : NodeFs :=
  {| path_join := fun a b => a ++ str "/" ++ b;
     fs_exists := fun _ _ => false;
     fs_throws := fun _ _ => None |}.

(** A disk on which every write fails. *)
Definition read_only_disk {N : JsNumbers} : NodeFs :=
  {| path_join := fun a b => a ++ str "/" ++ b;
     fs_exists := fun _ _ => true;
     fs_throws := fun _ call =>
       match call with
       | WriteFileSync _ _ => Some (SystemError (str "EROFS"))
       | _ => None
       end |}.

Definition plain_errors : JsErrors :=
  {| error_message := fun e =>
       match e with
       | PipelineError _ => str "decoding failed"
       | TypeError => str "TypeError"
       | SystemError code => code
       end |}.

(** A runtime for values whose parser gives the text back as a string
    value. *)
Definition text_value_runtime : JsRuntime (@JsValue integer_numbers) :=
  {| Buffer_toString_utf8 := map b2z;
     JSON_parse := fun text => Some (JsString text) |}.

(** A runtime whose parser reads the one text [null] and takes every
    other text for a string value. *)
Definition null_runtime : JsRuntime (@JsValue integer_numbers) :=
  {| Buffer_toString_utf8 := map b2z;
     JSON_parse := fun text =>
       Some (if jsstring_eqb text (str "null") then JsNull
             else JsString text) |}.

(* ------------------------------------------------------------------ *)
(** * Notions used in the statements *)

(** Neither [-] nor [_]. *)
Definition no_urlsafe_char (c : Z) : bool :=
  negb (c =? ch_minus) && negb (c =? ch_under).

(** What the normalisation puts for one character. *)
Definition standard_char (c : Z) : Z :=
  if c =? ch_minus then ch_plus else if c =? ch_under then ch_slash else c.

(** The URL-safe alphabet for the standard one: [-] for [+] and [_] for
    [/]. *)
Definition url_safe_char (c : Z) : Z :=
  if c =? ch_plus then ch_minus else if c =? ch_slash then ch_under else c.

Definition to_url_safe_alphabet (s : jsstring) : jsstring :=
  map url_safe_char s.

(** A text without its trailing [=]. *)
Fixpoint strip_padding (s : jsstring) : jsstring :=
  match s with
  | [] => []
  | c :: rest =>
      match strip_padding rest with
      | [] => if c =? ch_eq then [] else [c]
      | t => c :: t
      end
  end.

(** The four forms in which the base64 text of a buffer travels:
    standard or URL-safe alphabet, padded or not. *)
Definition base64_forms (buf : buffer) : list jsstring :=
  let standard := base64_encode buf in
  [standard; strip_padding standard;
   to_url_safe_alphabet standard;
   to_url_safe_alphabet (strip_padding standard)].

(** A table maps the character of every sextet back to the sextet. *)
Definition inverts_alphabet (table : Z -> option Z) (v : Z) : bool :=
  match table (base64_char v) with
  | Some w => w =? v
  | None => false
  end.

(** The characters of a padded standard base64 text. *)
Definition is_base64_text_char (c : Z) : bool :=
  is_base64_char c || (c =? ch_eq).

(** decodeURIComponent outside any escape sequence. *)
Definition decode_start : Utf8State * EscState := (NoSequence, NoEscape).

(** A character of either alphabet, URL-safe or standard. *)
Definition is_either_alphabet_char (c : Z) : bool :=
  match unbase64 c with
  | Some _ => true
  | None => false
  end.

(** The sextet of a character of the standard alphabet. *)
Definition sextet (c : Z) : Z :=
  match fromBase64 c with
  | Some v => v
  | None => 0
  end.

(** What may follow the data characters: nothing, or a character outside
    the alphabet. *)
Definition ends_data (tail : jsstring) : Prop :=
  match tail with
  | [] => True
  | c :: _ => is_base64_char c = false
  end.

(** The text and JSON stages of the Groovy decoder. *)
Definition groovy_text_stages {J : Type} {R : GroovyRuntime J}
                               (decompressed : buffer) : Outcome J :=
  let* json :=
    at_stage StageParse
             (JsonSlurper_parseText (String_new_utf8 decompressed)) in
  at_stage StageCast (asMap json).

(** The text and JSON stages of the JavaScript decoder. *)
Definition js_text_stages {J : Type} {R : JsRuntime J}
                           (decompressed : buffer) : Outcome J :=
  at_stage StageParse (JSON_parse (Buffer_toString_utf8 decompressed)).

(** A reader of escaped values: the backslash before [=], [:] or TAB is
    dropped. *)
Fixpoint unescapeValue (s : jsstring) : jsstring :=
  match s with
  | [] => []
  | b :: rest =>
      match rest with
      | c :: rest' =>
          if (b =? ch_backslash) && properties_special c
          then c :: unescapeValue rest'
          else b :: unescapeValue rest
      | [] => [b]
      end
  end.

(** The paths of the files written by a list of calls. *)
Definition written {N : JsNumbers} (calls : list FsCall) : list jsstring :=
  flat_map (fun call => match call with
                        | WriteFileSync path _ => [path]
                        | _ => []
                        end) calls.

(** The characters of the URL of the IDE with safe data: those of the
    data and [: / ? =]. *)
Definition url_plain (c : Z) : bool :=
  url_query_safe c || existsb (Z.eqb c) (str ":/?=").

(** Whether a text starts with two hexadecimal digits. *)
Definition two_hex_digits (b : jsstring) : bool :=
  match b with
  | h :: l :: _ =>
      match hex_value h, hex_value l with
      | Some _, Some _ => true
      | _, _ => false
      end
  | _ => false
  end.

(** The base64 text of the first nine bytes of a gzip header: magic,
    method, flags, MTIME and XFL. *)
Definition gzip_prefix : jsstring := str "H4sIAAAAAAAA".

(** The paths of the three files of [saveDecodedData]. *)
Definition saved_paths {N : JsNumbers} {F : NodeFs} (env : option jsstring)
  : list jsstring :=
  let dir := path_join (DATA_DUMP_BASE env) (str "Debug") in
  [path_join dir (str "debug.body"); path_join dir (str "debug.header");
   path_join dir (str "debug.properties")].

(** The object [saveDecodedData] returns as [files] on success. *)
Definition saved_files {N : JsNumbers} {F : NodeFs} (env : option jsstring)
  : JsValue :=
  let dir := path_join (DATA_DUMP_BASE env) (str "Debug") in
  JsObject
    [(str "body", JsString (path_join dir (str "debug.body")));
     (str "header", JsString (path_join dir (str "debug.header")));
     (str "properties", JsString (path_join dir (str "debug.properties")))].

(* ------------------------------------------------------------------ *)
(** * Concrete inputs of the deflate variant *)

(** A transport string whose payload inflates to the JSON text
    [{"a":"b"}] followed by 10300 spaces: 10309 bytes. *)
Definition oversized_input : jsstring :=
  str "7cEBEQAgCASwKt7HsI3W4OhOELZVXm5--gAAAAAAAAAAAACrDA".

Definition oversized_document : buffer :=
  [x7b; x22; x61; x22; x3a; x22; x62; x22; x7d]
  ++ repeat x20 (Z.to_nat 10300).


Definition percent_encoded_document : buffer :=
  map z2b (str "{") ++ [x22] ++ map z2b (str "input") ++ [x22]
  ++ map z2b (str ":{") ++ [x22] ++ map z2b (str "body") ++ [x22]
  ++ map z2b (str ":") ++ [x22] ++ map z2b (str "hi") ++ [x22]
  ++ map z2b (str "}}").

(** The payload [{"a":1}] (twelve base64 characters, no padding needed)
    followed by a stray padding character. *)
Definition stray_padding_input : jsstring := str "q1ZKVLIyrAUA=".

Definition stray_padding_document : buffer :=
  [x7b; x22; x61; x22; x3a; x31; x7d].

(** The payload [{"a":"b"}] followed by a line feed. *)
Definition line_feed_input : jsstring := str "q1ZKVLJSSlKqBQA" ++ [10].

Definition small_document : buffer :=
  [x7b; x22; x61; x22; x3a; x22; x62; x22; x7d].

(* ================================================================== *)
(** * Properties *)

(* ------------------------------------------------------------------ *)
(** ** Bytes and strings *)

Lemma b2z_range (b : byte) : 0 <= b2z b < 256.
Proof.
  unfold b2z. pose proof (Byte.to_N_bounded b). lia.
Qed.

Lemma z2b_b2z (b : byte) : z2b (b2z b) = b.
Proof.
  unfold z2b. rewrite Z.mod_small by apply b2z_range.
  unfold b2z. rewrite N2Z.id, Byte.of_to_N. reflexivity.
Qed.

Lemma b2z_z2b (z : Z) : b2z (z2b z) = z mod 256.
Proof.
  unfold z2b, b2z.
  assert (Hr : 0 <= z mod 256 < 256) by (apply Z.mod_pos_bound; lia).
  destruct (Byte.of_N (Z.to_N (z mod 256))) as [b|] eqn:E.
  - apply Byte.to_of_N in E. rewrite E. lia.
  - apply Byte.of_N_None_iff in E. lia.
Qed.

Lemma z2b_eq (z : Z) (b : byte) : z = b2z b -> z2b z = b.
Proof.
  intros ->. apply z2b_b2z.
Qed.

Lemma z2b_mod (z : Z) : z2b (z mod 256) = z2b z.
Proof.
  unfold z2b. rewrite Z.mod_mod by lia. reflexivity.
Qed.

Lemma strlen_app (s t : jsstring) : strlen (s ++ t) = strlen s + strlen t.
Proof.
  unfold strlen. rewrite length_app. lia.
Qed.

Lemma strlen_nonneg (s : jsstring) : 0 <= strlen s.
Proof.
  unfold strlen. lia.
Qed.

Lemma strlen_repeat_eq (n : Z) : 0 <= n -> strlen (repeat_eq n) = n.
Proof.
  intros Hn. unfold strlen, repeat_eq. rewrite repeat_length. lia.
Qed.

(* ------------------------------------------------------------------ *)
(** ** Padding *)

Lemma paddingNeeded_range (len : Z) : 0 <= paddingNeeded len <= 3.
Proof.
  unfold paddingNeeded.
  pose proof (Z.mod_pos_bound (4 - len mod 4) 4). lia.
Qed.

Lemma paddingNeeded_completes (len : Z) : (len + paddingNeeded len) mod 4 = 0.
Proof.
  unfold paddingNeeded.
  rewrite Zplus_mod_idemp_r.
  replace (len + (4 - len mod 4)) with (len - len mod 4 + 1 * 4) by lia.
  rewrite Z_mod_plus_full, Zminus_mod_idemp_r, Z.sub_diag.
  reflexivity.
Qed.

Lemma paddingNeeded_multiple (k : Z) : paddingNeeded (4 * k) = 0.
Proof.
  unfold paddingNeeded.
  rewrite Z.mul_comm, Z_mod_mult. reflexivity.
Qed.

Lemma paddingNeeded_zero (len : Z) : len mod 4 = 0 -> paddingNeeded len = 0.
Proof.
  intros H. unfold paddingNeeded. rewrite H. reflexivity.
Qed.

Lemma strlen_addPadding (s : jsstring) : strlen (addPadding s) mod 4 = 0.
Proof.
  unfold addPadding. rewrite strlen_app, strlen_repeat_eq.
  - apply paddingNeeded_completes.
  - apply paddingNeeded_range.
Qed.

Lemma addPadding_padded (s : jsstring) : strlen s mod 4 = 0 -> addPadding s = s.
Proof.
  intros H. unfold addPadding. rewrite paddingNeeded_zero by exact H.
  apply app_nil_r.
Qed.

Lemma addPadding_idempotent (s : jsstring) :
  addPadding (addPadding s) = addPadding s.
Proof.
  apply addPadding_padded, strlen_addPadding.
Qed.

(* ------------------------------------------------------------------ *)
(** ** Alphabet normalisation *)

Lemma replaceAll_absent (a b : Z) (s : jsstring) :
  forallb (fun c => negb (c =? a)) s = true -> replaceAll a b s = s.
Proof.
  induction s as [|c s IH]; simpl; intros H.
  - reflexivity.
  - apply andb_true_iff in H as [Hc Hs].
    apply negb_true_iff in Hc. rewrite Hc.
    f_equal. apply IH, Hs.
Qed.

Lemma toStandardAlphabet_standard (s : jsstring) :
  forallb no_urlsafe_char s = true -> toStandardAlphabet s = s.
Proof.
  intros H. unfold toStandardAlphabet.
  assert (Hm : forallb (fun c => negb (c =? ch_minus)) s = true).
  { rewrite forallb_forall in *. intros c Hc.
    specialize (H c Hc). unfold no_urlsafe_char in H.
    apply andb_true_iff in H. tauto. }
  assert (Hu : forallb (fun c => negb (c =? ch_under)) s = true).
  { rewrite forallb_forall in *. intros c Hc.
    specialize (H c Hc). unfold no_urlsafe_char in H.
    apply andb_true_iff in H. tauto. }
  rewrite (replaceAll_absent ch_minus ch_plus s Hm).
  apply replaceAll_absent, Hu.
Qed.

Lemma toStandardAlphabet_no_urlsafe (s : jsstring) :
  forallb no_urlsafe_char (toStandardAlphabet s) = true.
Proof.
  unfold toStandardAlphabet, replaceAll.
  rewrite map_map, forallb_forall. intros c Hc.
  apply in_map_iff in Hc as [d [Hd _]]. subst c.
  unfold no_urlsafe_char, ch_minus, ch_plus, ch_under, ch_slash.
  destruct (d =? 45) eqn:E1; simpl.
  - reflexivity.
  - destruct (d =? 95) eqn:E2; simpl.
    + reflexivity.
    + rewrite E1, E2. reflexivity.
Qed.

Lemma toStandardAlphabet_idempotent (s : jsstring) :
  toStandardAlphabet (toStandardAlphabet s) = toStandardAlphabet s.
Proof.
  apply toStandardAlphabet_standard, toStandardAlphabet_no_urlsafe.
Qed.

Lemma strlen_toStandardAlphabet (s : jsstring) :
  strlen (toStandardAlphabet s) = strlen s.
Proof.
  unfold strlen, toStandardAlphabet, replaceAll.
  rewrite !length_map. reflexivity.
Qed.

Lemma toStandardAlphabet_app (s t : jsstring) :
  toStandardAlphabet (s ++ t) = toStandardAlphabet s ++ toStandardAlphabet t.
Proof.
  unfold toStandardAlphabet, replaceAll. rewrite !map_app. reflexivity.
Qed.

Lemma toStandardAlphabet_repeat_eq (n : Z) :
  toStandardAlphabet (repeat_eq n) = repeat_eq n.
Proof.
  apply toStandardAlphabet_standard.
  unfold repeat_eq. apply forallb_forall. intros c Hc.
  apply repeat_spec in Hc. subst c. reflexivity.
Qed.

(** Normalising a padded string is padding the normalised string. *)
Lemma toStandardAlphabet_addPadding (s : jsstring) :
  toStandardAlphabet (addPadding s) = addPadding (toStandardAlphabet s).
Proof.
  unfold addPadding.
  rewrite toStandardAlphabet_app, toStandardAlphabet_repeat_eq,
    strlen_toStandardAlphabet.
  reflexivity.
Qed.

(* ------------------------------------------------------------------ *)
(** ** Base64: Node decodes what Node encodes *)

Lemma list_ind3 {A : Type} (P : list A -> Prop) :
  P [] -> (forall a, P [a]) -> (forall a b, P [a; b]) ->
  (forall a b c l, P l -> P (a :: b :: c :: l)) ->
  forall l, P l.
Proof.
  intros H0 H1 H2 H3. fix IH 1.
  intros [|a [|b [|c l]]].
  - exact H0.
  - apply H1.
  - apply H2.
  - apply H3, IH.
Qed.

Lemma sextet_cases (v : Z) :
  0 <= v < 64 -> In v (map Z.of_nat (seq 0 64)).
Proof.
  intros H. replace v with (Z.of_nat (Z.to_nat v)) by lia.
  apply in_map, in_seq. lia.
Qed.

Lemma inverts_alphabet_spec (table : Z -> option Z) (v : Z) :
  forallb (inverts_alphabet table) (map Z.of_nat (seq 0 64)) = true ->
  0 <= v < 64 -> table (base64_char v) = Some v.
Proof.
  intros K H. apply sextet_cases in H.
  rewrite forallb_forall in K. specialize (K v H).
  unfold inverts_alphabet in K.
  destruct (table (base64_char v)) as [w|]; [|discriminate K].
  apply Z.eqb_eq in K. congruence.
Qed.

Lemma fromBase64_base64_char (v : Z) :
  0 <= v < 64 -> fromBase64 (base64_char v) = Some v.
Proof.
  apply inverts_alphabet_spec. vm_compute. reflexivity.
Qed.

Lemma unbase64_base64_char (v : Z) :
  0 <= v < 64 -> unbase64 (base64_char v) = Some v.
Proof.
  apply inverts_alphabet_spec. vm_compute. reflexivity.
Qed.

(** On the standard alphabet Node's table is Java's. *)
Lemma unbase64_fromBase64 (c v : Z) :
  fromBase64 c = Some v -> unbase64 c = Some v.
Proof.
  unfold fromBase64, unbase64.
  destruct ((65 <=? c) && (c <=? 90)); [auto|].
  destruct ((97 <=? c) && (c <=? 122)); [auto|].
  destruct ((48 <=? c) && (c <=? 57)); [auto|].
  destruct (c =? ch_plus); simpl; [auto|].
  destruct (c =? ch_slash) eqn:E; [|discriminate].
  apply Z.eqb_eq in E. subst c. auto.
Qed.

Lemma fromBase64_range (c v : Z) : fromBase64 c = Some v -> 0 <= v < 64.
Proof.
  unfold fromBase64.
  destruct ((65 <=? c) && (c <=? 90)) eqn:E1;
    [intros [= <-]; lia|].
  destruct ((97 <=? c) && (c <=? 122)) eqn:E2;
    [intros [= <-]; lia|].
  destruct ((48 <=? c) && (c <=? 57)) eqn:E3;
    [intros [= <-]; lia|].
  destruct (c =? ch_plus); [intros [= <-]; lia|].
  destruct (c =? ch_slash); [intros [= <-]; lia|].
  discriminate.
Qed.

Lemma fromBase64_not_eq (c v : Z) :
  fromBase64 c = Some v -> (c =? ch_eq) = false.
Proof.
  intros H. destruct (c =? ch_eq) eqn:E; [|reflexivity].
  apply Z.eqb_eq in E. subst c. discriminate H.
Qed.

Ltac sextet_arith := Z.div_mod_to_equations; lia.

(** A character of Node's table is its own low byte. *)
Lemma unbase64_low_byte (c v : Z) : unbase64 c = Some v -> low_byte c = c.
Proof.
  unfold unbase64, low_byte, ch_plus, ch_minus, ch_slash, ch_under.
  intros H. apply Z.mod_small.
  destruct ((65 <=? c) && (c <=? 90)) eqn:E1; [lia|].
  destruct ((97 <=? c) && (c <=? 122)) eqn:E2; [lia|].
  destruct ((48 <=? c) && (c <=? 57)) eqn:E3; [lia|].
  destruct ((c =? 43) || (c =? 45)) eqn:E4; [lia|].
  destruct ((c =? 47) || (c =? 95)) eqn:E5; [lia|].
  discriminate H.
Qed.

(** A character of the table is read as itself. *)
Lemma legal_sextets_table (c v : Z) (t : jsstring) :
  unbase64 c = Some v -> legal_sextets (c :: t) = v :: legal_sextets t.
Proof.
  intros H. cbn [legal_sextets]. cbv zeta.
  rewrite (unbase64_low_byte c v H), H. reflexivity.
Qed.

Lemma legal_sextets_pad (t : jsstring) : legal_sextets (ch_eq :: t) = [].
Proof. reflexivity. Qed.

Lemma legal_sextets_char (v : Z) (t : jsstring) :
  0 <= v < 64 ->
  legal_sextets (base64_char v :: t) = v :: legal_sextets t.
Proof.
  intros H. apply legal_sextets_table, unbase64_base64_char, H.
Qed.

(** [Buffer.from(buf.toString('base64'), 'base64')] is [buf]. *)
Lemma Buffer_from_base64_encode (buf : buffer) :
  Buffer_from_base64 (base64_encode buf) = buf.
Proof.
  unfold Buffer_from_base64.
  induction buf as [|a|a b|a b c l IH] using list_ind3.
  - reflexivity.
  - pose proof (b2z_range a).
    cbn [base64_encode].
    rewrite !legal_sextets_char, legal_sextets_pad by sextet_arith.
    cbn [bytes_of_sextets].
    repeat f_equal; apply z2b_eq; sextet_arith.
  - pose proof (b2z_range a). pose proof (b2z_range b).
    cbn [base64_encode].
    rewrite !legal_sextets_char, legal_sextets_pad by sextet_arith.
    cbn [bytes_of_sextets].
    repeat f_equal; apply z2b_eq; sextet_arith.
  - pose proof (b2z_range a). pose proof (b2z_range b).
    pose proof (b2z_range c).
    cbn [base64_encode].
    rewrite !legal_sextets_char by sextet_arith.
    cbn [bytes_of_sextets]. rewrite IH.
    repeat f_equal; apply z2b_eq; sextet_arith.
Qed.

Lemma is_base64_char_base64_char (v : Z) :
  0 <= v < 64 -> is_base64_text_char (base64_char v) = true.
Proof.
  intros H. unfold is_base64_text_char, is_base64_char.
  rewrite fromBase64_base64_char by exact H. reflexivity.
Qed.

Lemma base64_encode_chars (buf : buffer) :
  forallb is_base64_text_char (base64_encode buf) = true.
Proof.
  induction buf as [|a|a b|a b c l IH] using list_ind3.
  - reflexivity.
  - pose proof (b2z_range a).
    cbn [base64_encode forallb].
    rewrite !is_base64_char_base64_char by sextet_arith. reflexivity.
  - pose proof (b2z_range a). pose proof (b2z_range b).
    cbn [base64_encode forallb].
    rewrite !is_base64_char_base64_char by sextet_arith. reflexivity.
  - pose proof (b2z_range a). pose proof (b2z_range b).
    pose proof (b2z_range c).
    cbn [base64_encode forallb].
    rewrite !is_base64_char_base64_char by sextet_arith. exact IH.
Qed.

(** [toString('base64')] pads by itself: its length is a multiple of 4. *)
Lemma strlen_base64_encode (buf : buffer) : strlen (base64_encode buf) mod 4 = 0.
Proof.
  induction buf as [|a|a b|a b c l IH] using list_ind3;
    try reflexivity.
  cbn [base64_encode]. unfold strlen in *. cbn [List.length].
  rewrite !Nat2Z.inj_succ.
  replace (Z.succ (Z.succ (Z.succ (Z.succ (Z.of_nat (List.length (base64_encode l)))))))
    with (Z.of_nat (List.length (base64_encode l)) + 1 * 4) by lia.
  rewrite Z_mod_plus_full. exact IH.
Qed.

(** The standard alphabet and the padding contain no URL-safe character. *)
Lemma base64_text_no_urlsafe (s : jsstring) :
  forallb is_base64_text_char s = true -> forallb no_urlsafe_char s = true.
Proof.
  intros H. rewrite forallb_forall in *. intros c Hc.
  specialize (H c Hc). unfold no_urlsafe_char.
  destruct (c =? ch_minus) eqn:E1.
  - apply Z.eqb_eq in E1. subst c. discriminate H.
  - destruct (c =? ch_under) eqn:E2.
    + apply Z.eqb_eq in E2. subst c. discriminate H.
    + reflexivity.
Qed.

(* ------------------------------------------------------------------ *)
(** ** Percent-encoding of base64 text *)

Lemma base64_text_char_cases (c : Z) :
  is_base64_text_char c = true ->
  is_alpha c || is_digit c = true \/ c = ch_plus \/ c = ch_slash \/ c = ch_eq.
Proof.
  unfold is_base64_text_char, is_base64_char, fromBase64, is_alpha, is_digit.
  destruct ((65 <=? c) && (c <=? 90)); [auto|].
  destruct ((97 <=? c) && (c <=? 122)); [auto|].
  destruct ((48 <=? c) && (c <=? 57)); [auto|].
  destruct (c =? ch_plus) eqn:E1; [apply Z.eqb_eq in E1; auto|].
  destruct (c =? ch_slash) eqn:E2; [apply Z.eqb_eq in E2; auto|].
  destruct (c =? ch_eq) eqn:E3; [apply Z.eqb_eq in E3; auto|].
  discriminate.
Qed.

Lemma alnum_not_percent (c : Z) :
  is_alpha c || is_digit c = true -> (c =? ch_percent) = false.
Proof.
  unfold is_alpha, is_digit, ch_percent. intros H.
  destruct (c =? 37) eqn:E; [|reflexivity].
  apply Z.eqb_eq in E. subst c. discriminate H.
Qed.

Lemma alnum_unescaped (c : Z) :
  is_alpha c || is_digit c = true -> uriUnescaped c = true.
Proof.
  unfold uriUnescaped. intros ->. reflexivity.
Qed.

Lemma alnum_url_query_safe (c : Z) :
  is_alpha c || is_digit c = true -> url_query_safe c = true.
Proof.
  unfold url_query_safe. intros ->. reflexivity.
Qed.

Lemma Decode_literal (c : Z) (t : jsstring) :
  (c =? ch_percent) = false ->
  Decode decode_start (c :: t) = option_map (cons c) (Decode decode_start t).
Proof.
  intros H. unfold decode_start. cbn [Decode decode_step]. rewrite H.
  destruct (Decode (NoSequence, NoEscape) t); reflexivity.
Qed.

Lemma Decode_cons (st : Utf8State * EscState) (c : Z) (rest : jsstring) :
  Decode st (c :: rest)
  = match decode_step st c with
    | Some (st', out) => option_map (app out) (Decode st' rest)
    | None => None
    end.
Proof. reflexivity. Qed.

(** One character of a concrete escape sequence. *)
Ltac decode_char :=
  rewrite Decode_cons;
  match goal with
  | |- context [decode_step ?st ?c] =>
      let v := eval vm_compute in (decode_step st c) in
      change (decode_step st c) with v
  end;
  cbv beta iota.

(** An escape of one ASCII octet decodes to that character. *)
Lemma Decode_escape (c : Z) (t : jsstring) :
  In c [ch_plus; ch_slash; ch_eq] ->
  Decode decode_start (percent_octet c ++ t)
  = option_map (cons c) (Decode decode_start t).
Proof.
  unfold decode_start.
  intros [<-|[<-|[<-|[]]]].
  - change (percent_octet ch_plus ++ t) with (37 :: 50 :: 66 :: t).
    do 3 decode_char.
    destruct (Decode (NoSequence, NoEscape) t); reflexivity.
  - change (percent_octet ch_slash ++ t) with (37 :: 50 :: 70 :: t).
    do 3 decode_char.
    destruct (Decode (NoSequence, NoEscape) t); reflexivity.
  - change (percent_octet ch_eq ++ t) with (37 :: 51 :: 68 :: t).
    do 3 decode_char.
    destruct (Decode (NoSequence, NoEscape) t); reflexivity.
Qed.

Lemma encode_unescaped (c : Z) (s : jsstring) :
  uriUnescaped c = true ->
  encodeURIComponent (c :: s) = option_map (cons c) (encodeURIComponent s).
Proof.
  intros H. cbn [encodeURIComponent]. rewrite H. reflexivity.
Qed.

Lemma encode_escaped (c : Z) (s : jsstring) :
  In c [ch_plus; ch_slash; ch_eq] ->
  encodeURIComponent (c :: s)
  = option_map (app (percent_octet c)) (encodeURIComponent s).
Proof.
  intros [<-|[<-|[<-|[]]]]; reflexivity.
Qed.

Lemma percent_octet_safe (c : Z) :
  In c [ch_plus; ch_slash; ch_eq] ->
  forallb url_query_safe (percent_octet c) = true.
Proof.
  intros [<-|[<-|[<-|[]]]]; reflexivity.
Qed.

(** encodeURIComponent accepts every base64 text, writes only letters,
    digits and [%], and decodeURIComponent gives the text back. *)
Lemma percent_round_trip (s : jsstring) :
  forallb is_base64_text_char s = true ->
  exists t, encodeURIComponent s = Some t
            /\ decodeURIComponent t = Some s
            /\ forallb url_query_safe t = true.
Proof.
  unfold decodeURIComponent. fold decode_start.
  induction s as [|c s IH]; intros H.
  - exists []. repeat split; reflexivity.
  - cbn [forallb] in H. apply andb_true_iff in H as [Hc Hs].
    destruct (IH Hs) as [t [Henc [Hdec Hsafe]]].
    destruct (base64_text_char_cases c Hc) as [Ha|He].
    + exists (c :: t). repeat split.
      * rewrite encode_unescaped by (apply alnum_unescaped, Ha).
        rewrite Henc. reflexivity.
      * rewrite Decode_literal by (apply alnum_not_percent, Ha).
        rewrite Hdec. reflexivity.
      * cbn [forallb]. rewrite alnum_url_query_safe by exact Ha. exact Hsafe.
    + assert (Hin : In c [ch_plus; ch_slash; ch_eq]).
      { simpl. destruct He as [ -> | [ -> | -> ] ]; auto. }
      exists (percent_octet c ++ t). repeat split.
      * rewrite encode_escaped by exact Hin. rewrite Henc. reflexivity.
      * rewrite Decode_escape by exact Hin. rewrite Hdec. reflexivity.
      * rewrite forallb_app, percent_octet_safe by exact Hin. exact Hsafe.
Qed.

(* ------------------------------------------------------------------ *)
(** ** The inflater on stored blocks: the reference compressor *)

Lemma bits_of_app (a b : buffer) : bits_of (a ++ b) = bits_of a ++ bits_of b.
Proof. unfold bits_of. apply flat_map_app. Qed.

Lemma bits_of_cons (x : byte) (b : buffer) :
  bits_of (x :: b) = bits_of_byte x ++ bits_of b.
Proof. reflexivity. Qed.

Lemma length_bits_of (b : buffer) :
  List.length (bits_of b) = (8 * List.length b)%nat.
Proof.
  induction b as [|x b IH]; [reflexivity|].
  rewrite bits_of_cons, length_app, IH. unfold bits_of_byte.
  rewrite length_map. cbn [List.length]. lia.
Qed.

Lemma read_bits_byte (b : byte) (r : list bool) :
  read_bits 8 (bits_of_byte b ++ r) = Some (b2z b, r).
Proof. destruct b; reflexivity. Qed.

Lemma read_bits_add (n m : nat) (bits : list bool) :
  read_bits (n + m) bits
  = match read_bits n bits with
    | Some (v, r) =>
        match read_bits m r with
        | Some (w, r') => Some (v + 2 ^ Z.of_nat n * w, r')
        | None => None
        end
    | None => None
    end.
Proof.
  revert bits. induction n as [|n IH]; intros bits.
  - cbn [Nat.add read_bits]. destruct (read_bits m bits) as [[w r']|];
      [|reflexivity].
    f_equal. f_equal. change (2 ^ Z.of_nat 0) with 1. lia.
  - cbn [Nat.add read_bits]. destruct bits as [|b bits]; [reflexivity|].
    rewrite IH. destruct (read_bits n bits) as [[v r]|]; [|reflexivity].
    destruct (read_bits m r) as [[w r']|]; [|reflexivity].
    f_equal. f_equal. rewrite Nat2Z.inj_succ, Z.pow_succ_r by lia. ring.
Qed.

Lemma read_bits_le16 (v : Z) (rest : buffer) :
  0 <= v < 65536 ->
  read_bits 16 (bits_of (le16 v ++ rest)) = Some (v, bits_of rest).
Proof.
  intros Hv. unfold le16. cbn [app]. rewrite !bits_of_cons.
  change 16%nat with (8 + 8)%nat. rewrite read_bits_add.
  rewrite read_bits_byte, read_bits_byte.
  f_equal. f_equal. rewrite !b2z_z2b. change (2 ^ Z.of_nat 8) with 256.
  Z.div_mod_to_equations. lia.
Qed.

Lemma take_bytes_data (data : buffer) (tl : list bool) (rout : buffer) :
  take_bytes (List.length data) (bits_of data ++ tl) rout
  = (rev data ++ rout, tl).
Proof.
  revert rout. induction data as [|x data IH]; intros rout; [reflexivity|].
  cbn [List.length take_bytes]. rewrite bits_of_cons, <- app_assoc.
  rewrite read_bits_byte, z2b_b2z, IH. cbn [rev]. rewrite <- app_assoc.
  reflexivity.
Qed.

(** One stored block, read from the bits left in the byte of its
    header. *)
Lemma stored_block (data rest : buffer) (rout : buffer) (outcnt : Z)
                   (pad : list bool) :
  (List.length pad < 8)%nat ->
  Z.of_nat (List.length data) <= 65535 ->
  stored rout outcnt
         (pad ++ bits_of (le16 (Z.of_nat (List.length data))
                          ++ le16 (65535 - Z.of_nat (List.length data))
                          ++ data ++ rest))
  = inr (rev data ++ rout, outcnt + Z.of_nat (List.length data), bits_of rest).
Proof.
  intros Hpad Hlen. unfold stored.
  assert (Hskip : (List.length
                     (pad ++ bits_of
                               (le16 (Z.of_nat (List.length data))
                                ++ le16 (65535 - Z.of_nat (List.length data))
                                ++ data ++ rest)) mod 8
                   = List.length pad)%nat).
  { rewrite length_app, length_bits_of. symmetry.
    apply Nat.mod_unique with (q := List.length
             (le16 (Z.of_nat (List.length data))
              ++ le16 (65535 - Z.of_nat (List.length data)) ++ data ++ rest));
      lia. }
  rewrite Hskip. rewrite skipn_app, Nat.sub_diag, skipn_all. cbn [app skipn].
  rewrite read_bits_le16 by lia.
  assert (Hn : 0 <= 65535 - Z.of_nat (List.length data) < 65536) by lia.
  rewrite (read_bits_le16 _ _ Hn).
  rewrite Z.eqb_refl. cbn [negb]. rewrite Nat2Z.id.
  rewrite bits_of_app, take_bytes_data.
  assert (Hav : Nat.ltb (List.length (bits_of data ++ bits_of rest) / 8)
                        (List.length data) = false).
  { apply Nat.ltb_ge. rewrite length_app, !length_bits_of.
    rewrite <- Nat.mul_add_distr_l, Nat.mul_comm, Nat.div_mul by lia. lia. }
  rewrite Hav. reflexivity.
Qed.

Lemma blocks_stored (n : nat) (rout : buffer) (outcnt : Z)
                    (bits bits1 : list bool) (hdr : Z) :
  read_bits 3 bits = Some (hdr, bits1) ->
  Z.shiftr hdr 1 = 0 ->
  blocks (S n) rout outcnt bits
  = match stored rout outcnt bits1 with
    | inl run => run
    | inr (rout', outcnt', bits') =>
        if Z.odd hdr then stop rout' StreamEnd bits'
        else blocks n rout' outcnt' bits'
    end.
Proof.
  intros H1 H2. cbn [blocks]. rewrite H1. cbv zeta. rewrite H2.
  reflexivity.
Qed.

Lemma stored_block_final (n : nat) (data rest rout : buffer) (outcnt : Z) :
  Z.of_nat (List.length data) <= 65535 ->
  blocks (S n) rout outcnt
         (bits_of (x01 :: le16 (Z.of_nat (List.length data))
                   ++ le16 (65535 - Z.of_nat (List.length data))
                   ++ data ++ rest))
  = stop (rev data ++ rout) StreamEnd (bits_of rest).
Proof.
  intros Hlen. rewrite bits_of_cons.
  rewrite (blocks_stored n rout outcnt _
             ([false; false; false; false; false]
              ++ bits_of (le16 (Z.of_nat (List.length data))
                          ++ le16 (65535 - Z.of_nat (List.length data))
                          ++ data ++ rest)) 1);
    [|reflexivity|reflexivity].
  rewrite stored_block; [reflexivity|cbn; lia|exact Hlen].
Qed.

Lemma stored_block_more (n : nat) (data rest rout : buffer) (outcnt : Z) :
  Z.of_nat (List.length data) = 65535 ->
  blocks (S n) rout outcnt
         (bits_of (x00 :: le16 65535 ++ le16 0 ++ data ++ rest))
  = blocks n (rev data ++ rout) (outcnt + 65535) (bits_of rest).
Proof.
  intros Hlen. rewrite bits_of_cons.
  rewrite (blocks_stored n rout outcnt _
             ([false; false; false; false; false]
              ++ bits_of (le16 65535 ++ le16 0 ++ data ++ rest)) 0);
    [|reflexivity|reflexivity].
  replace (le16 65535) with (le16 (Z.of_nat (List.length data)))
    by (rewrite Hlen; reflexivity).
  replace (le16 0) with (le16 (65535 - Z.of_nat (List.length data)))
    by (rewrite Hlen; reflexivity).
  rewrite stored_block; [|cbn; lia|lia].
  rewrite Hlen. reflexivity.
Qed.

Lemma blocks_stored_blocks (f : nat) :
  forall (data rest rout : buffer) (outcnt : Z) (n : nat),
    (List.length data <= Z.to_nat 65535 * S f)%nat ->
    (f < n)%nat ->
    blocks n rout outcnt (bits_of (stored_blocks f data ++ rest))
    = stop (rev data ++ rout) StreamEnd (bits_of rest).
Proof.
  induction f as [|f IH]; intros data rest rout outcnt n Hlen Hn;
    destruct n as [|n]; try lia.
  - cbn [stored_blocks]. cbn [app]. rewrite <- !app_assoc.
    apply stored_block_final. lia.
  - cbn [stored_blocks].
    destruct (Z.of_nat (List.length data) <=? 65535) eqn:E.
    + apply Z.leb_le in E. cbn [app]. rewrite <- !app_assoc.
      apply stored_block_final. exact E.
    + apply Z.leb_gt in E. cbn [app]. rewrite <- !app_assoc.
      rewrite stored_block_more
        by (rewrite length_firstn; lia).
      rewrite IH; [|rewrite length_skipn; lia|lia].
      rewrite app_assoc, <- rev_app_distr, firstn_skipn. reflexivity.
Qed.

Lemma stored_blocks_longer (f : nat) :
  forall data : buffer,
    (List.length data < List.length (stored_blocks f data))%nat.
Proof.
  induction f as [|f IH]; intros data.
  - cbn [stored_blocks List.length]. rewrite !length_app.
    cbn [le16 List.length]. lia.
  - cbn [stored_blocks].
    destruct (Z.of_nat (List.length data) <=? 65535) eqn:E.
    + cbn [List.length]. rewrite !length_app. cbn [le16 List.length]. lia.
    + apply Z.leb_gt in E. cbn [List.length]. rewrite !length_app.
      specialize (IH (skipn (Z.to_nat 65535) data)).
      rewrite length_skipn in IH. rewrite length_firstn.
      cbn [le16 List.length]. lia.
Qed.

(** The inflater undoes the reference compressor, whatever follows the
    stream. *)
Lemma stored_compressor_inverts (data tail : buffer) :
  @deflate_inverts stored_compressor data tail.
Proof.
  unfold deflate_inverts. cbn [deflate stored_compressor].
  set (f := (List.length data / Z.to_nat 65535)%nat).
  assert (Hrun : inflate_run (stored_blocks f data ++ tail)
                 = stop (rev data ++ []) StreamEnd (bits_of tail)).
  { unfold inflate_run. apply blocks_stored_blocks.
    - unfold f.
      pose proof (Nat.div_mod_eq (List.length data) (Z.to_nat 65535)).
      pose proof (Nat.mod_upper_bound (List.length data) (Z.to_nat 65535)).
      lia.
    - rewrite length_bits_of, length_app.
      pose proof (stored_blocks_longer f data).
      assert (f <= List.length data)%nat
        by (apply Nat.Div0.div_le_upper_bound; lia).
      lia. }
  rewrite Hrun. unfold produced, remaining.
  cbn [stop produced_rev status unread].
  rewrite app_nil_r, rev_involutive. repeat split.
  rewrite length_bits_of, length_app.
  replace (8 * List.length tail / 8)%nat with (List.length tail)
    by (rewrite Nat.mul_comm, Nat.div_mul; lia).
  replace (List.length (stored_blocks f data) + List.length tail
           - List.length tail)%nat
    with (List.length (stored_blocks f data) + 0)%nat by lia.
  rewrite skipn_app, Nat.add_0_r, skipn_all, Nat.sub_diag. reflexivity.
Qed.

(* ------------------------------------------------------------------ *)
(** ** The gzip container *)

Lemma buffer_eqb_refl (b : buffer) : buffer_eqb b b = true.
Proof.
  induction b as [|x b IH]; [reflexivity|].
  cbn [buffer_eqb]. rewrite IH, andb_true_r.
  apply Byte.byte_dec_lb. reflexivity.
Qed.

(** A member whose header has no flags: the deflate stream starts after
    the ten header bytes. *)
Lemma gunzip_member_plain (m0 m1 m2 m3 xfl os : byte) (body : buffer) :
  gunzip_member (x1f :: x8b :: x08 :: x00 :: m0 :: m1 :: m2 :: m3 :: xfl
                 :: os :: body)
  = match status (inflate_run body) with
    | StreamEnd =>
        if buffer_eqb (firstn 8 (remaining body (inflate_run body)))
                      (gzip_trailer (produced (inflate_run body)))
        then Some (produced (inflate_run body),
                   skipn 8 (remaining body (inflate_run body)))
        else None
    | _ => None
    end.
Proof. reflexivity. Qed.

Lemma gzip_trailer_length (data : buffer) :
  firstn 8 (gzip_trailer data) = gzip_trailer data
  /\ skipn 8 (gzip_trailer data) = [].
Proof. split; reflexivity. Qed.

(** gunzip undoes gzip wherever the inflater undoes the compressor. *)
Lemma gunzipSync_gzipSync {C : Compressor} (data : buffer)
                          (options : GzipOptions) :
  deflate_inverts data (gzip_trailer data) ->
  gunzipSync (gzipSync data options) = Returned data.
Proof.
  intros [Hend [Hout Hrest]].
  unfold gunzipSync, gzipSync, gzip_header.
  cbn [app List.length gunzip_members].
  rewrite gunzip_member_plain, Hend, Hrest, Hout.
  destruct (gzip_trailer_length data) as [-> ->].
  rewrite buffer_eqb_refl. reflexivity.
Qed.

(* ------------------------------------------------------------------ *)
(** ** The ZIP variant *)

Lemma fold_left_app_concat (chunks : list buffer) (acc : buffer) :
  fold_left (fun zipBuffer chunk => zipBuffer ++ chunk) chunks acc
  = acc ++ List.concat chunks.
Proof.
  revert acc. induction chunks as [|c chunks IH]; intros acc; cbn.
  - symmetry. apply app_nil_r.
  - rewrite IH, app_assoc. reflexivity.
Qed.

Section ZipVariant.

Context {C : Compressor} {A : Archiver}.

(** The buffer the ['data'] handler has built at ['end']: the chunks of
    the archive of the entry dated 0, one after the other. *)
Lemma contiva_archive_chunks (now : Z) (x : DebugPayload) :
  contiva_archive now x
  = List.concat
      (archiver_chunks
         {| zlib_level := 9; archive_date := Some 0 |}
         [{| entry_name := str "data.json";
             entry_content := utf8_encode (JSON_stringify x);
             entry_date := 0 |}]).
Proof.
  unfold contiva_archive. apply fold_left_app_concat.
Qed.

(** Step 4 of the encoder adds no padding: [toString('base64')] has
    padded already. *)
Lemma encoder_padding_is_empty (compressed : buffer) :
  base64_encode compressed
  ++ repeat_eq (paddingNeeded (strlen (base64_encode compressed)))
  = base64_encode compressed.
Proof.
  rewrite paddingNeeded_zero by apply strlen_base64_encode.
  apply app_nil_r.
Qed.

(** What the encoder returns: the percent-encoding of the base64 text of
    the gzip bytes, and the decoder's way back to those bytes. *)
Lemma encodeContivaData_returns (now : Z) (x : DebugPayload) :
  exists s,
    encodeContivaData now x = Returned s
    /\ forallb url_query_safe s = true
    /\ decodeURIComponent s
       = Some (base64_encode
                 (gzipSync (contiva_archive now x) {| mtime := Some 0 |}))
    /\ Buffer_from_base64
         (toStandardAlphabet
            (base64_encode
               (gzipSync (contiva_archive now x) {| mtime := Some 0 |})))
       = gzipSync (contiva_archive now x) {| mtime := Some 0 |}.
Proof.
  set (gz := gzipSync (contiva_archive now x) {| mtime := Some 0 |}).
  destruct (percent_round_trip (base64_encode gz) (base64_encode_chars gz))
    as [s [Henc [Hdec Hsafe]]].
  exists s. repeat split.
  - unfold encodeContivaData. fold gz.
    rewrite encoder_padding_is_empty, Henc. reflexivity.
  - exact Hsafe.
  - exact Hdec.
  - rewrite toStandardAlphabet_standard
      by apply base64_text_no_urlsafe, base64_encode_chars.
    apply Buffer_from_base64_encode.
Qed.

(** The decoder on what the encoder returns, once the inflater undoes
    the compressor on the archive. *)
Lemma decodeContivaData_encoded (now : Z) (x : DebugPayload) :
  deflate_inverts (contiva_archive now x)
                  (gzip_trailer (contiva_archive now x)) ->
  exists s,
    encodeContivaData now x = Returned s
    /\ decodeContivaData s
       = Returned {| zipBuffer := contiva_archive now x;
                     message := archive_message |}.
Proof.
  intros Hzlib.
  destruct (encodeContivaData_returns now x) as [s [Henc [_ [Hdec Hb64]]]].
  exists s. split; [exact Henc|].
  unfold decodeContivaData. rewrite Hdec. cbn [at_stage bind].
  rewrite Hb64, (gunzipSync_gzipSync _ _ Hzlib). reflexivity.
Qed.

End ZipVariant.

Section ZipClaims.

Context {C : Compressor} {A : Archiver}.

(** C1 (round trip, ZIP variant).  Whenever the inflater undoes zlib's
    compressor on the archive of [x], the encoder returns a transport
    string, and the decoder applied to it returns exactly the archive the
    encoder built: the bytes the archiver emitted for the ZIP archive
    whose one entry [data.json] holds the UTF-8 text of
    [JSON.stringify(x)]. *)
Theorem zip_round_trip (now : Z) (x : DebugPayload) :
  deflate_inverts (contiva_archive now x)
                  (gzip_trailer (contiva_archive now x)) ->
  exists s,
    encodeContivaData now x = Returned s
    /\ decodeContivaData s
       = Returned
           {| zipBuffer :=
                List.concat
                  (archiver_chunks
                     {| zlib_level := 9; archive_date := Some 0 |}
                     [{| entry_name := str "data.json";
                         entry_content := utf8_encode (JSON_stringify x);
                         entry_date := 0 |}]);
              message := archive_message |}.
Proof.
  intros Hzlib. rewrite <- (contiva_archive_chunks now x).
  apply decodeContivaData_encoded, Hzlib.
Qed.

(** C2 (determinism).  Two calls with equal payloads return the same
    transport string whatever the time of each call: the entry is
    appended with the date 0, so the archive is the archive of the entry
    dated 0 (an entry appended without a date would carry the time of the
    call), and the MTIME field of the gzip header (bytes 4 to 7) is 0. *)
Theorem encode_deterministic (now1 now2 : Z) (x : DebugPayload) :
  encodeContivaData now1 x = encodeContivaData now2 x
  /\ contiva_archive now1 x
     = List.concat
         (archiver_chunks
            {| zlib_level := 9; archive_date := Some 0 |}
            [{| entry_name := str "data.json";
                entry_content := utf8_encode (JSON_stringify x);
                entry_date := 0 |}])
  /\ firstn 4 (skipn 4 (gzipSync (contiva_archive now1 x)
                                 {| mtime := Some 0 |}))
     = [x00; x00; x00; x00]
  /\ entry_date (archive_append now1 (JSON_stringify x) (str "data.json")
                                None)
     = now1.
Proof.
  split; [reflexivity|]. split; [apply contiva_archive_chunks|].
  split; reflexivity.
Qed.

(** The encoder has no error path of its own: for every payload, at any
    time, it returns a string, and the string holds only characters from
    [A-Za-z0-9%.-_~]. *)
Theorem encoder_output_safe (now : Z) (x : DebugPayload) :
  exists s,
    encodeContivaData now x = Returned s /\ forallb url_query_safe s = true.
Proof.
  destruct (encodeContivaData_returns now x) as [s [Henc [Hsafe _]]].
  exists s. split; assumption.
Qed.

End ZipClaims.

Section ZipExample.

Context {C : Compressor} {W : ZipWriter}.

(** An archive of the ZIP writer that holds an entry starts with the
    signature of a local file header. *)
Lemma zip_archive_signature (now : Z) (x : DebugPayload) :
  firstn 4 (contiva_archive (A := zip_archiver) now x)
  = [x50; x4b; x03; x04].
Proof.
  rewrite contiva_archive_chunks. reflexivity.
Qed.

(** C4 (the example of the specification).  With the archive written by
    the ZIP writer of the archiver library, and whenever the inflater
    undoes zlib's compressor on that archive, encoding the example
    payload gives a string of characters from [A-Za-z0-9%.-_~];
    percent-decoding and base64-decoding it gives bytes that start with
    1f 8b, and gunzipping those gives bytes that start with 50 4b 03 04,
    the signature the writer puts before the header of the entry
    [data.json]. *)
Theorem example_encoding (now : Z) :
  deflate_inverts
    (contiva_archive (A := zip_archiver) now example_payload)
    (gzip_trailer (contiva_archive (A := zip_archiver) now example_payload)) ->
  exists s u,
    encodeContivaData (A := zip_archiver) now example_payload = Returned s
    /\ forallb url_query_safe s = true
    /\ decodeURIComponent s = Some u
    /\ firstn 2 (Buffer_from_base64 u) = [x1f; x8b]
    /\ exists archive,
         gunzipSync (Buffer_from_base64 u) = Returned archive
         /\ firstn 4 archive = [x50; x4b; x03; x04].
Proof.
  intros Hzlib.
  destruct (encodeContivaData_returns (A := zip_archiver) now example_payload)
    as [s [Henc [Hsafe [Hdec _]]]].
  exists s. eexists. split; [exact Henc|]. split; [exact Hsafe|].
  split; [exact Hdec|].
  rewrite Buffer_from_base64_encode. split; [reflexivity|].
  exists (contiva_archive (A := zip_archiver) now example_payload).
  split; [apply gunzipSync_gzipSync, Hzlib|apply zip_archive_signature].
Qed.

End ZipExample.


(** C8 (the decoder stops at the archive).  When [decodeContivaData]
    returns, its [zipBuffer] is what gunzip made of the base64-decoded,
    normalised, percent-decoded input, byte for byte, and its [message]
    is the fixed notice: the archive is not opened. *)
Theorem decodeContivaData_raw (s : jsstring) (r : ContivaDecoded) :
  decodeContivaData s = Returned r ->
  exists u,
    decodeURIComponent s = Some u
    /\ gunzipSync (Buffer_from_base64 (toStandardAlphabet u))
       = Returned (zipBuffer r)
    /\ message r = archive_message.
Proof.
  unfold decodeContivaData. intros H.
  destruct (decodeURIComponent s) as [u|]; [|discriminate H].
  cbn [at_stage bind] in H.
  destruct (gunzipSync (Buffer_from_base64 (toStandardAlphabet u)))
    as [z|st] eqn:Hz; [|discriminate H].
  cbn [bind] in H. injection H as <-.
  exists u. split; [reflexivity|]. split; [exact Hz|reflexivity].
Qed.

(* ------------------------------------------------------------------ *)
(** ** The ZIP variant on the example, with the reference collaborators *)

Lemma zip_round_trip_witness :
  exists s,
    @encodeContivaData stored_compressor stored_archiver 0 example_payload
    = Returned s
    /\ decodeContivaData s
       = Returned
           {| zipBuffer :=
                List.concat
                  (stored_zip_chunks
                     [{| entry_name := str "data.json";
                         entry_content :=
                           utf8_encode (JSON_stringify example_payload);
                         entry_date := 0 |}]);
              message := archive_message |}.
Proof.
  apply (@zip_round_trip stored_compressor stored_archiver 0 example_payload).
  vm_compute. repeat split.
Defined.

Lemma example_encoding_witness :
  exists s u,
    @encodeContivaData stored_compressor (@zip_archiver stored_zip_writer)
                       0 example_payload
    = Returned s
    /\ forallb url_query_safe s = true
    /\ decodeURIComponent s = Some u
    /\ firstn 2 (Buffer_from_base64 u) = [x1f; x8b]
    /\ exists archive,
         gunzipSync (Buffer_from_base64 u) = Returned archive
         /\ firstn 4 archive = [x50; x4b; x03; x04].
Proof.
  apply (@example_encoding stored_compressor stored_zip_writer 0).
  vm_compute. repeat split.
Defined.

Lemma decodeContivaData_raw_witness :
  exists u,
    decodeURIComponent example_transport = Some u
    /\ gunzipSync (Buffer_from_base64 (toStandardAlphabet u))
       = Returned (@contiva_archive stored_archiver 0 example_payload)
    /\ archive_message = archive_message.
Proof.
  apply (@decodeContivaData_raw example_transport
           {| zipBuffer := @contiva_archive stored_archiver 0 example_payload;
              message := archive_message |}).
  vm_compute. reflexivity.
Defined.

(* ------------------------------------------------------------------ *)
(** ** Base64: what java.util.Base64 accepts, and what it returns *)

Lemma list_ind4 {A : Type} (P : list A -> Prop) :
  P [] -> (forall a, P [a]) -> (forall a b, P [a; b]) ->
  (forall a b c, P [a; b; c]) ->
  (forall a b c d l, P l -> P (a :: b :: c :: d :: l)) ->
  forall l, P l.
Proof.
  intros H0 H1 H2 H3 H4. fix IH 1.
  intros [|a [|b [|c [|d l]]]].
  - exact H0.
  - apply H1.
  - apply H2.
  - apply H3.
  - apply H4, IH.
Qed.

Lemma is_base64_char_sextet (c : Z) :
  is_base64_char c = true -> fromBase64 c = Some (sextet c).
Proof.
  unfold is_base64_char, sextet.
  destruct (fromBase64 c); [reflexivity|discriminate].
Qed.

Lemma sextet_range (c : Z) : 0 <= sextet c < 64.
Proof.
  unfold sextet. destruct (fromBase64 c) as [v|] eqn:E.
  - exact (fromBase64_range c v E).
  - lia.
Qed.

Lemma z2b_congr (x y : Z) : x mod 256 = y mod 256 -> z2b x = z2b y.
Proof.
  intros H. unfold z2b. rewrite H. reflexivity.
Qed.

(** One character of the alphabet in the loop of [decode0]. *)
Lemma decode0_char (c : Z) (sp : jsstring) (bits shiftto : Z) (dst : buffer) :
  is_base64_char c = true ->
  decode0 (c :: sp) bits shiftto dst
  = if shiftto - 6 <? 0 then
      decode0 sp 0 18
        (dst ++ [z2b ((bits + sextet c * 2 ^ shiftto) / 65536);
                 z2b ((bits + sextet c * 2 ^ shiftto) / 256);
                 z2b (bits + sextet c * 2 ^ shiftto)])
    else decode0 sp (bits + sextet c * 2 ^ shiftto) (shiftto - 6) dst.
Proof.
  intros H. apply is_base64_char_sextet in H.
  cbn [decode0]. rewrite (fromBase64_not_eq c _ H), H. reflexivity.
Qed.

(** A character outside the alphabet: only ['='] can be accepted. *)
Lemma decode0_other (c : Z) (sp : jsstring) (bits shiftto : Z) (dst : buffer)
                    (out : buffer) :
  is_base64_char c = false ->
  decode0 (c :: sp) bits shiftto dst = Some out ->
  c = ch_eq.
Proof.
  intros H. cbn [decode0].
  destruct (c =? ch_eq) eqn:E.
  - intros _. apply Z.eqb_eq, E.
  - unfold is_base64_char in H.
    destruct (fromBase64 c); [discriminate H|discriminate].
Qed.

(** The bytes Java makes of the sextets of a unit are Node's. *)
Lemma unit_byte1 (a b : Z) (rest : Z) :
  0 <= a < 64 -> 0 <= b < 64 -> 0 <= rest < 4096 ->
  z2b ((0 + a * 2 ^ 18 + b * 2 ^ 12 + rest) / 65536) = z2b (a * 4 + b / 16).
Proof.
  intros Ha Hb Hr. apply z2b_congr. f_equal.
  change (2 ^ 18) with 262144. change (2 ^ 12) with 4096. sextet_arith.
Qed.

Lemma unit_byte2 (a b c : Z) (rest : Z) :
  0 <= a < 64 -> 0 <= b < 64 -> 0 <= c < 64 -> 0 <= rest < 64 ->
  z2b ((0 + a * 2 ^ 18 + b * 2 ^ 12 + c * 2 ^ 6 + rest) / 256)
  = z2b (b mod 16 * 16 + c / 4).
Proof.
  intros Ha Hb Hc Hr. apply z2b_congr.
  change (2 ^ 18) with 262144. change (2 ^ 12) with 4096.
  change (2 ^ 6) with 64. sextet_arith.
Qed.

Lemma unit_byte3 (a b c d : Z) :
  0 <= a < 64 -> 0 <= b < 64 -> 0 <= c < 64 -> 0 <= d < 64 ->
  z2b (0 + a * 2 ^ 18 + b * 2 ^ 12 + c * 2 ^ 6 + d * 2 ^ 0)
  = z2b (c mod 4 * 64 + d).
Proof.
  intros Ha Hb Hc Hd. apply z2b_congr.
  change (2 ^ 18) with 262144. change (2 ^ 12) with 4096.
  change (2 ^ 6) with 64. change (2 ^ 0) with 1. sextet_arith.
Qed.

(** A complete unit of four characters. *)
Lemma decode0_unit (a b c d : Z) (sp : jsstring) (dst : buffer) :
  forallb is_base64_char [a; b; c; d] = true ->
  decode0 (a :: b :: c :: d :: sp) 0 18 dst
  = decode0 sp 0 18
      (dst ++ bytes_of_sextets [sextet a; sextet b; sextet c; sextet d]).
Proof.
  cbn [forallb]. rewrite !andb_true_iff. intros [Ha [Hb [Hc [Hd _]]]].
  pose proof (sextet_range a). pose proof (sextet_range b).
  pose proof (sextet_range c). pose proof (sextet_range d).
  rewrite (decode0_char _ _ _ _ _ Ha). change (18 - 6 <? 0) with false.
  change (18 - 6) with 12. cbv iota.
  rewrite (decode0_char _ _ _ _ _ Hb). change (12 - 6 <? 0) with false.
  change (12 - 6) with 6. cbv iota.
  rewrite (decode0_char _ _ _ _ _ Hc). change (6 - 6 <? 0) with false.
  change (6 - 6) with 0. cbv iota.
  rewrite (decode0_char _ _ _ _ _ Hd). change (0 - 6 <? 0) with true.
  cbv iota. cbn [bytes_of_sextets].
  do 2 f_equal. f_equal; [|f_equal; [|f_equal]].
  - replace (0 + sextet a * 2 ^ 18 + sextet b * 2 ^ 12 + sextet c * 2 ^ 6
             + sextet d * 2 ^ 0)
      with (0 + sextet a * 2 ^ 18 + sextet b * 2 ^ 12
            + (sextet c * 64 + sextet d))
      by (change (2 ^ 6) with 64; change (2 ^ 0) with 1; lia).
    apply unit_byte1; lia.
  - replace (0 + sextet a * 2 ^ 18 + sextet b * 2 ^ 12 + sextet c * 2 ^ 6
             + sextet d * 2 ^ 0)
      with (0 + sextet a * 2 ^ 18 + sextet b * 2 ^ 12 + sextet c * 2 ^ 6
            + sextet d)
      by (change (2 ^ 0) with 1; lia).
    apply unit_byte2; lia.
  - apply unit_byte3; lia.
Qed.

Lemma canonical_tail_cases (r : Z) (tail : jsstring) :
  canonical_tail r tail = true ->
  tail = [] \/ tail = [ch_eq] \/ tail = [ch_eq; ch_eq].
Proof.
  unfold canonical_tail.
  destruct tail as [|c [|c' [|c'' t]]]; intros H.
  - auto.
  - apply andb_true_iff in H as [_ H]. apply Z.eqb_eq in H. subst. auto.
  - apply andb_true_iff in H as [H H2]. apply andb_true_iff in H as [_ H1].
    apply Z.eqb_eq in H1, H2. subst. auto.
  - discriminate H.
Qed.

(** Run [decode0] on what is left once the unit's bits are known. *)
Ltac decode0_run H :=
  cbn [decode0 decode0_end Z.eqb Pos.eqb ch_eq] in H.

(** The last unit: zero to three data characters and the tail. *)
Lemma decode0_last (data tail : jsstring) (dst out : buffer) :
  (List.length data < 4)%nat ->
  forallb is_base64_char data = true ->
  ends_data tail ->
  decode0 (data ++ tail) 0 18 dst = Some out ->
  canonical_tail (strlen data mod 4) tail = true
  /\ out = dst ++ bytes_of_sextets (map sextet data).
Proof.
  intros Hlen Hdata Htail.
  destruct data as [|a [|b [|c [|d l]]]]; cbn [List.length] in Hlen;
    try lia; clear Hlen;
    cbn [forallb] in Hdata; rewrite ?andb_true_iff in Hdata;
    cbn [app map bytes_of_sextets].
  - (* no data character *)
    destruct tail as [|e t]; intros Hd.
    + decode0_run Hd. injection Hd as <-. rewrite app_nil_r. auto.
    + pose proof (decode0_other _ _ _ _ _ _ Htail Hd) as ->.
      discriminate Hd.
  - (* one: never accepted *)
    destruct Hdata as [Ha _].
    rewrite (decode0_char _ _ _ _ _ Ha). change (18 - 6 <? 0) with false.
    change (18 - 6) with 12. cbv iota.
    destruct tail as [|e t]; intros Hd.
    + discriminate Hd.
    + pose proof (decode0_other _ _ _ _ _ _ Htail Hd) as ->.
      discriminate Hd.
  - (* two: one byte, padding [==] or none *)
    destruct Hdata as [Ha [Hb _]].
    pose proof (sextet_range a). pose proof (sextet_range b).
    rewrite (decode0_char _ _ _ _ _ Ha). change (18 - 6 <? 0) with false.
    change (18 - 6) with 12. cbv iota.
    rewrite (decode0_char _ _ _ _ _ Hb). change (12 - 6 <? 0) with false.
    change (12 - 6) with 6. cbv iota.
    assert (Hbyte : z2b ((0 + sextet a * 2 ^ 18 + sextet b * 2 ^ 12) / 65536)
                    = z2b (sextet a * 4 + sextet b / 16)).
    { replace (0 + sextet a * 2 ^ 18 + sextet b * 2 ^ 12)
        with (0 + sextet a * 2 ^ 18 + sextet b * 2 ^ 12 + 0) by lia.
      apply unit_byte1; lia. }
    revert Hbyte.
    generalize (0 + sextet a * 2 ^ 18 + sextet b * 2 ^ 12). intros bits Hbyte.
    destruct tail as [|e t]; intros Hd.
    + decode0_run Hd. injection Hd as <-. rewrite Hbyte. auto.
    + pose proof (decode0_other _ _ _ _ _ _ Htail Hd) as ->.
      decode0_run Hd. destruct t as [|e' t']; [discriminate Hd|].
      destruct (e' =? ch_eq) eqn:E; [|discriminate Hd].
      apply Z.eqb_eq in E. subst e'.
      destruct t' as [|e'' t'']; [|discriminate Hd].
      injection Hd as <-. rewrite Hbyte. auto.
  - (* three: two bytes, padding [=] or none *)
    destruct Hdata as [Ha [Hb [Hc _]]].
    pose proof (sextet_range a). pose proof (sextet_range b).
    pose proof (sextet_range c).
    rewrite (decode0_char _ _ _ _ _ Ha). change (18 - 6 <? 0) with false.
    change (18 - 6) with 12. cbv iota.
    rewrite (decode0_char _ _ _ _ _ Hb). change (12 - 6 <? 0) with false.
    change (12 - 6) with 6. cbv iota.
    rewrite (decode0_char _ _ _ _ _ Hc). change (6 - 6 <? 0) with false.
    change (6 - 6) with 0. cbv iota.
    assert (Hb1 : z2b ((0 + sextet a * 2 ^ 18 + sextet b * 2 ^ 12
                        + sextet c * 2 ^ 6) / 65536)
                  = z2b (sextet a * 4 + sextet b / 16)).
    { apply unit_byte1; change (2 ^ 6) with 64; lia. }
    assert (Hb2 : z2b ((0 + sextet a * 2 ^ 18 + sextet b * 2 ^ 12
                        + sextet c * 2 ^ 6) / 256)
                  = z2b (sextet b mod 16 * 16 + sextet c / 4)).
    { replace (0 + sextet a * 2 ^ 18 + sextet b * 2 ^ 12 + sextet c * 2 ^ 6)
        with (0 + sextet a * 2 ^ 18 + sextet b * 2 ^ 12 + sextet c * 2 ^ 6
              + 0) by lia.
      apply unit_byte2; lia. }
    revert Hb1 Hb2.
    generalize (0 + sextet a * 2 ^ 18 + sextet b * 2 ^ 12 + sextet c * 2 ^ 6).
    intros bits Hb1 Hb2.
    destruct tail as [|e t]; intros Hd.
    + decode0_run Hd. injection Hd as <-. rewrite Hb1, Hb2. auto.
    + pose proof (decode0_other _ _ _ _ _ _ Htail Hd) as ->.
      decode0_run Hd. destruct t as [|e' t']; [|discriminate Hd].
      injection Hd as <-. rewrite Hb1, Hb2. auto.
Qed.

Lemma strlen_unit (a b c d : Z) (l : jsstring) :
  strlen (a :: b :: c :: d :: l) mod 4 = strlen l mod 4.
Proof.
  unfold strlen. cbn [List.length]. rewrite !Nat2Z.inj_succ.
  replace (Z.succ (Z.succ (Z.succ (Z.succ (Z.of_nat (List.length l))))))
    with (Z.of_nat (List.length l) + 1 * 4) by lia.
  apply Z_mod_plus_full.
Qed.

(** When [decode0] accepts data characters followed by a tail, the tail
    is the canonical one for the number of data characters, and the
    bytes are those of the sextets. *)
Lemma decode0_spec (data : jsstring) :
  forall (tail : jsstring) (dst out : buffer),
    forallb is_base64_char data = true ->
    ends_data tail ->
    decode0 (data ++ tail) 0 18 dst = Some out ->
    canonical_tail (strlen data mod 4) tail = true
    /\ out = dst ++ bytes_of_sextets (map sextet data).
Proof.
  induction data as [|a|a b|a b c|a b c d l IH] using list_ind4;
    intros tail dst out Hdata Htail H;
    try (apply decode0_last; [cbn [List.length]; lia|assumption..]).
  assert (Hunit : forallb is_base64_char [a; b; c; d] = true).
  { cbn [forallb] in *. rewrite !andb_true_iff in *. tauto. }
  assert (Hrest : forallb is_base64_char l = true).
  { cbn [forallb] in Hdata. rewrite !andb_true_iff in Hdata. tauto. }
  change ((a :: b :: c :: d :: l) ++ tail)
    with (a :: b :: c :: d :: (l ++ tail)) in H.
  rewrite (decode0_unit a b c d (l ++ tail) dst Hunit) in H.
  destruct (IH tail _ out Hrest Htail H) as [Hc ->].
  split.
  - rewrite strlen_unit. exact Hc.
  - cbn [map bytes_of_sextets]. rewrite <- app_assoc. reflexivity.
Qed.

Lemma data_tail_split (p : jsstring) : p = data_part p ++ tail_part p.
Proof.
  induction p as [|c p IH]; [reflexivity|].
  cbn [data_part tail_part]. destruct (is_base64_char c).
  - cbn [app]. f_equal. exact IH.
  - reflexivity.
Qed.

Lemma data_part_chars (p : jsstring) :
  forallb is_base64_char (data_part p) = true.
Proof.
  induction p as [|c p IH]; [reflexivity|].
  cbn [data_part]. destruct (is_base64_char c) eqn:E; [|reflexivity].
  cbn [forallb]. rewrite E. exact IH.
Qed.

Lemma tail_part_ends (p : jsstring) : ends_data (tail_part p).
Proof.
  induction p as [|c p IH]; [exact I|].
  cbn [tail_part]. destruct (is_base64_char c) eqn:E; [exact IH|exact E].
Qed.

Lemma Base64_decoder_decode_decode0 (p : jsstring) :
  Base64_decoder_decode p = decode0 p 0 18 [].
Proof.
  destruct p as [|c [|c' p']]; try reflexivity.
  cbn [Base64_decoder_decode decode0].
  destruct (c =? ch_eq); [reflexivity|].
  destruct (fromBase64 c); reflexivity.
Qed.

(** What [Base64.decoder.decode] accepts is well formed, and what it
    returns are the bytes of the sextets of the data characters. *)
Lemma Base64_decoder_decode_spec (p : jsstring) (out : buffer) :
  Base64_decoder_decode p = Some out ->
  well_formed_base64 p = true
  /\ out = bytes_of_sextets (map sextet (data_part p)).
Proof.
  rewrite Base64_decoder_decode_decode0.
  rewrite (data_tail_split p) at 1.
  intros H.
  apply decode0_spec in H;
    [exact H|apply data_part_chars|apply tail_part_ends].
Qed.

(** A base64 text that is not well formed makes the Java decoder throw. *)
Lemma Base64_decoder_decode_malformed (p : jsstring) :
  well_formed_base64 p = false -> Base64_decoder_decode p = None.
Proof.
  intros H. destruct (Base64_decoder_decode p) as [out|] eqn:E;
    [|reflexivity].
  apply Base64_decoder_decode_spec in E. destruct E as [E _].
  rewrite E in H. discriminate H.
Qed.

Lemma legal_sextets_data (data tail : jsstring) :
  forallb is_base64_char data = true ->
  tail = [] \/ tail = [ch_eq] \/ tail = [ch_eq; ch_eq] ->
  legal_sextets (data ++ tail) = map sextet data.
Proof.
  intros Hdata Htail. induction data as [|c data IH].
  - destruct Htail as [ -> | [ -> | -> ] ]; reflexivity.
  - cbn [forallb] in Hdata. apply andb_true_iff in Hdata as [Hc Hdata].
    apply is_base64_char_sextet in Hc.
    cbn [app map].
    rewrite (legal_sextets_table c _ _ (unbase64_fromBase64 c _ Hc)),
      (IH Hdata).
    reflexivity.
Qed.

Lemma data_tail_app (data tail : jsstring) :
  forallb is_base64_char data = true ->
  ends_data tail ->
  data_part (data ++ tail) = data /\ tail_part (data ++ tail) = tail.
Proof.
  intros Hdata Htail. induction data as [|c data IH].
  - destruct tail as [|e t]; [split; reflexivity|].
    cbn [app data_part tail_part]. cbn [ends_data] in Htail.
    rewrite Htail. split; reflexivity.
  - cbn [forallb] in Hdata. apply andb_true_iff in Hdata as [Hc Hdata].
    cbn [app data_part tail_part]. rewrite Hc.
    destruct (IH Hdata) as [-> ->]. split; reflexivity.
Qed.

Lemma either_alphabet_standard (c : Z) :
  is_either_alphabet_char c = true ->
  (c =? ch_minus) = false -> (c =? ch_under) = false ->
  is_base64_char c = true.
Proof.
  unfold is_either_alphabet_char, unbase64, is_base64_char, fromBase64.
  intros H E1 E2. rewrite E1, E2, !orb_false_r in H.
  destruct ((65 <=? c) && (c <=? 90)); [reflexivity|].
  destruct ((97 <=? c) && (c <=? 122)); [reflexivity|].
  destruct ((48 <=? c) && (c <=? 57)); [reflexivity|].
  destruct (c =? ch_plus); [reflexivity|].
  destruct (c =? ch_slash); [reflexivity|].
  discriminate H.
Qed.

Lemma toStandardAlphabet_chars (s : jsstring) :
  forallb is_either_alphabet_char s = true ->
  forallb is_base64_char (toStandardAlphabet s) = true.
Proof.
  unfold toStandardAlphabet, replaceAll. rewrite map_map.
  induction s as [|c s IH]; [reflexivity|].
  cbn [forallb map]. intros H. apply andb_true_iff in H as [Hc Hs].
  rewrite (IH Hs), andb_true_r.
  destruct (c =? ch_minus) eqn:E1; [reflexivity|].
  destruct (c =? ch_under) eqn:E2; [reflexivity|].
  apply either_alphabet_standard; assumption.
Qed.

(** An invalid length: alphabet characters only, one more than a
    multiple of four.  Its padded text is malformed. *)
Lemma invalid_length_malformed (s : jsstring) :
  forallb is_either_alphabet_char s = true ->
  strlen s mod 4 = 1 ->
  well_formed_base64 (addPadding (toStandardAlphabet s)) = false.
Proof.
  intros Hs Hlen. unfold addPadding, well_formed_base64.
  rewrite strlen_toStandardAlphabet. unfold paddingNeeded. rewrite Hlen.
  change (repeat_eq ((4 - 1) mod 4)) with [ch_eq; ch_eq; ch_eq].
  destruct (data_tail_app (toStandardAlphabet s) [ch_eq; ch_eq; ch_eq])
    as [-> ->]; [apply toStandardAlphabet_chars, Hs|reflexivity|].
  reflexivity.
Qed.

(** Whatever the Java decoder accepts, Node decodes to the same bytes. *)
Lemma Buffer_from_base64_java (p : jsstring) (out : buffer) :
  Base64_decoder_decode p = Some out -> Buffer_from_base64 p = out.
Proof.
  intros H. apply Base64_decoder_decode_spec in H. destruct H as [Hwf ->].
  unfold Buffer_from_base64. f_equal.
  rewrite (data_tail_split p) at 1.
  apply legal_sextets_data; [apply data_part_chars|].
  exact (canonical_tail_cases _ _ Hwf).
Qed.

(* ------------------------------------------------------------------ *)
(** ** The forms of a base64 text *)

(** Node's decoder stops at the first [=]: the padding adds nothing to
    what it reads. *)
Lemma legal_sextets_stop (a b : jsstring) :
  legal_sextets (a ++ ch_eq :: b) = legal_sextets a.
Proof.
  induction a as [|x a IH]; cbn [app legal_sextets]; cbv zeta;
    [reflexivity|].
  rewrite IH. reflexivity.
Qed.

Lemma legal_sextets_padding (a : jsstring) (n : Z) :
  legal_sextets (a ++ repeat_eq n) = legal_sextets a.
Proof.
  unfold repeat_eq. destruct (Z.to_nat n) as [|k]; cbn [repeat].
  - rewrite app_nil_r. reflexivity.
  - apply legal_sextets_stop.
Qed.

Lemma Buffer_from_base64_addPadding (t : jsstring) :
  Buffer_from_base64 (addPadding t) = Buffer_from_base64 t.
Proof.
  unfold Buffer_from_base64, addPadding. rewrite legal_sextets_padding.
  reflexivity.
Qed.

Lemma toStandardAlphabet_map (t : jsstring) :
  toStandardAlphabet t = map standard_char t.
Proof.
  unfold toStandardAlphabet, replaceAll. rewrite map_map.
  apply map_ext. intros c. unfold standard_char.
  destruct (c =? ch_minus); reflexivity.
Qed.

Lemma standard_url_safe_char (c : Z) :
  no_urlsafe_char c = true -> standard_char (url_safe_char c) = c.
Proof.
  unfold no_urlsafe_char, standard_char, url_safe_char.
  intros H. apply andb_true_iff in H as [H1 H2].
  apply negb_true_iff in H1, H2.
  destruct (c =? ch_plus) eqn:E1.
  - apply Z.eqb_eq in E1. subst c. reflexivity.
  - destruct (c =? ch_slash) eqn:E2.
    + apply Z.eqb_eq in E2. subst c. reflexivity.
    + rewrite H1, H2. reflexivity.
Qed.

Lemma toStandardAlphabet_to_url_safe (t : jsstring) :
  forallb no_urlsafe_char t = true ->
  toStandardAlphabet (to_url_safe_alphabet t) = t.
Proof.
  intros H. rewrite toStandardAlphabet_map. unfold to_url_safe_alphabet.
  rewrite map_map. induction t as [|c t IH]; [reflexivity|].
  cbn [forallb] in H. apply andb_true_iff in H as [Hc Ht].
  cbn [map]. rewrite (standard_url_safe_char c Hc), (IH Ht). reflexivity.
Qed.

Lemma strip_padding_repeat (k : nat) : strip_padding (repeat ch_eq k) = [].
Proof.
  induction k as [|k IH]; [reflexivity|].
  cbn [repeat strip_padding]. rewrite IH. reflexivity.
Qed.

Lemma is_base64_char_not_eq (c : Z) :
  is_base64_char c = true -> (c =? ch_eq) = false.
Proof.
  unfold is_base64_char. destruct (fromBase64 c) as [v|] eqn:E;
    [|discriminate].
  intros _. exact (fromBase64_not_eq c v E).
Qed.

Lemma strip_padding_data (data : jsstring) (k : nat) :
  forallb is_base64_char data = true ->
  strip_padding (data ++ repeat ch_eq k) = data.
Proof.
  intros H. induction data as [|c data IH].
  - apply strip_padding_repeat.
  - cbn [forallb] in H. apply andb_true_iff in H as [Hc Hd].
    cbn [app strip_padding]. rewrite (IH Hd).
    rewrite (is_base64_char_not_eq c Hc). destruct data; reflexivity.
Qed.

Lemma is_base64_char_alphabet (v : Z) :
  0 <= v < 64 -> is_base64_char (base64_char v) = true.
Proof.
  intros H. unfold is_base64_char.
  rewrite fromBase64_base64_char by exact H. reflexivity.
Qed.

Lemma sextet_base64_char (v : Z) :
  0 <= v < 64 -> sextet (base64_char v) = v.
Proof.
  intros H. unfold sextet.
  rewrite fromBase64_base64_char by exact H. reflexivity.
Qed.

Lemma addPadding_unit (a b c d : Z) (l : jsstring) :
  addPadding (a :: b :: c :: d :: l) = a :: b :: c :: d :: addPadding l.
Proof.
  unfold addPadding, paddingNeeded. rewrite strlen_unit. reflexivity.
Qed.

(** The base64 text of a buffer: data characters, padded. *)
Lemma base64_encode_shape (buf : buffer) :
  exists data,
    forallb is_base64_char data = true
    /\ base64_encode buf = addPadding data.
Proof.
  induction buf as [|a|a b|a b c l IH] using list_ind3.
  - exists []. split; reflexivity.
  - pose proof (b2z_range a).
    exists [base64_char (b2z a / 4); base64_char (b2z a mod 4 * 16)].
    split; [|reflexivity].
    cbn [forallb]. rewrite !is_base64_char_alphabet by sextet_arith.
    reflexivity.
  - pose proof (b2z_range a). pose proof (b2z_range b).
    exists [base64_char (b2z a / 4);
            base64_char (b2z a mod 4 * 16 + b2z b / 16);
            base64_char (b2z b mod 16 * 4)].
    split; [|reflexivity].
    cbn [forallb]. rewrite !is_base64_char_alphabet by sextet_arith.
    reflexivity.
  - pose proof (b2z_range a). pose proof (b2z_range b).
    pose proof (b2z_range c).
    destruct IH as [data [Hd He]].
    exists (base64_char (b2z a / 4)
            :: base64_char (b2z a mod 4 * 16 + b2z b / 16)
            :: base64_char (b2z b mod 16 * 4 + b2z c / 64)
            :: base64_char (b2z c mod 64) :: data).
    split.
    + cbn [forallb]. rewrite !is_base64_char_alphabet by sextet_arith.
      exact Hd.
    + rewrite addPadding_unit, <- He. reflexivity.
Qed.

Lemma addPadding_strip_padding (buf : buffer) :
  addPadding (strip_padding (base64_encode buf)) = base64_encode buf.
Proof.
  destruct (base64_encode_shape buf) as [data [Hd He]].
  rewrite He. unfold addPadding at 2. unfold repeat_eq.
  rewrite strip_padding_data by exact Hd. reflexivity.
Qed.

Lemma strip_padding_chars (buf : buffer) :
  forallb no_urlsafe_char (strip_padding (base64_encode buf)) = true.
Proof.
  destruct (base64_encode_shape buf) as [data [Hd He]].
  rewrite He. unfold addPadding, repeat_eq.
  rewrite strip_padding_data by exact Hd.
  apply base64_text_no_urlsafe.
  rewrite forallb_forall in *. intros c Hc. unfold is_base64_text_char.
  rewrite (Hd c Hc). reflexivity.
Qed.

(** Every form of the text is, normalised and padded, the text. *)
Lemma base64_forms_standard (buf : buffer) (t : jsstring) :
  In t (base64_forms buf) ->
  addPadding (toStandardAlphabet t) = base64_encode buf.
Proof.
  pose proof (base64_text_no_urlsafe _ (base64_encode_chars buf)) as Hs.
  pose proof (strip_padding_chars buf) as Hu.
  pose proof (addPadding_padded _ (strlen_base64_encode buf)) as Hp.
  pose proof (addPadding_strip_padding buf) as Hq.
  intros [<- | [<- | [<- | [<- | []]]]].
  - rewrite toStandardAlphabet_standard by exact Hs. exact Hp.
  - rewrite toStandardAlphabet_standard by exact Hu. exact Hq.
  - rewrite toStandardAlphabet_to_url_safe by exact Hs. exact Hp.
  - rewrite toStandardAlphabet_to_url_safe by exact Hu. exact Hq.
Qed.

Lemma z2b_low (z : Z) (b : byte) : z mod 256 = b2z b -> z2b z = b.
Proof.
  intros H. rewrite <- z2b_mod. apply z2b_eq, H.
Qed.

(** java.util.Base64 decodes what [toString('base64')] wrote. *)
Lemma decode0_encode (buf : buffer) :
  forall dst, decode0 (base64_encode buf) 0 18 dst = Some (dst ++ buf).
Proof.
  induction buf as [|a|a b|a b c l IH] using list_ind3; intros dst.
  - cbn. rewrite app_nil_r. reflexivity.
  - pose proof (b2z_range a).
    cbn [base64_encode].
    rewrite decode0_char by (apply is_base64_char_alphabet; sextet_arith).
    change (18 - 6 <? 0) with false. change (18 - 6) with 12. cbv iota.
    rewrite decode0_char by (apply is_base64_char_alphabet; sextet_arith).
    change (12 - 6 <? 0) with false. change (12 - 6) with 6. cbv iota.
    rewrite !sextet_base64_char by sextet_arith.
    cbn [decode0 decode0_end Z.eqb Pos.eqb ch_eq].
    do 2 f_equal. f_equal. apply z2b_low.
    change (2 ^ 18) with 262144. change (2 ^ 12) with 4096. sextet_arith.
  - pose proof (b2z_range a). pose proof (b2z_range b).
    cbn [base64_encode].
    rewrite decode0_char by (apply is_base64_char_alphabet; sextet_arith).
    change (18 - 6 <? 0) with false. change (18 - 6) with 12. cbv iota.
    rewrite decode0_char by (apply is_base64_char_alphabet; sextet_arith).
    change (12 - 6 <? 0) with false. change (12 - 6) with 6. cbv iota.
    rewrite decode0_char by (apply is_base64_char_alphabet; sextet_arith).
    change (6 - 6 <? 0) with false. change (6 - 6) with 0. cbv iota.
    rewrite !sextet_base64_char by sextet_arith.
    cbn [decode0 decode0_end Z.eqb Pos.eqb ch_eq].
    do 2 f_equal.
    change (2 ^ 18) with 262144. change (2 ^ 12) with 4096.
    change (2 ^ 6) with 64.
    f_equal; [|f_equal]; apply z2b_low; sextet_arith.
  - pose proof (b2z_range a). pose proof (b2z_range b).
    pose proof (b2z_range c).
    cbn [base64_encode].
    rewrite decode0_unit
      by (cbn [forallb];
          rewrite !is_base64_char_alphabet by sextet_arith; reflexivity).
    rewrite IH, !sextet_base64_char by sextet_arith.
    cbn [bytes_of_sextets]. rewrite <- app_assoc. cbn [app].
    do 2 f_equal.
    f_equal; [|f_equal; [|f_equal]]; apply z2b_low; sextet_arith.
Qed.

Lemma Base64_decoder_decode_encode (buf : buffer) :
  Base64_decoder_decode (base64_encode buf) = Some buf.
Proof.
  rewrite Base64_decoder_decode_decode0. apply decode0_encode.
Qed.

(** Node's decoder reads the buffer out of every form of its text. *)
Lemma Buffer_from_base64_forms (buf : buffer) (t : jsstring) :
  In t (base64_forms buf) ->
  Buffer_from_base64 (toStandardAlphabet t) = buf.
Proof.
  intros H. rewrite <- Buffer_from_base64_addPadding.
  rewrite (base64_forms_standard buf t H). apply Buffer_from_base64_encode.
Qed.

(* ------------------------------------------------------------------ *)
(** ** The deflate variant *)

Section DeflateVariant.

Context {J : Type} {Rj : JsRuntime J} {Rg : GroovyRuntime J}.

Lemma decodeGroovyString_stages (s : jsstring) :
  decodeGroovyString s
  = let* decompressed :=
      inflateRawSync
        (Buffer_from_base64 (addPadding (toStandardAlphabet s))) in
    js_text_stages decompressed.
Proof. reflexivity. Qed.

Lemma decodeGroovyData_stages (s : jsstring) :
  decodeGroovyData s
  = let* buffer :=
      at_stage StageBase64
               (Base64_decoder_decode (addPadding (toStandardAlphabet s))) in
    let* decompressed := Inflater_inflate groovy_buffer_size buffer in
    groovy_text_stages decompressed.
Proof. reflexivity. Qed.

(** The JavaScript decoder never fails at the base64 stage. *)
Lemma decodeGroovyString_not_base64 (s : jsstring) :
  decodeGroovyString s <> Thrown StageBase64.
Proof.
  rewrite decodeGroovyString_stages. unfold inflateRawSync, js_text_stages.
  destruct (status (inflate_run _)); cbn [bind]; try discriminate.
  destruct (JSON_parse _); discriminate.
Qed.

(** Beyond the size of its array the Groovy decoder goes on with the
    first 10240 bytes of the decompressed data. *)
Lemma decodeGroovyData_truncates (s : jsstring) (buf : buffer) :
  Base64_decoder_decode (addPadding (toStandardAlphabet s)) = Some buf ->
  (groovy_buffer_size < List.length (produced (inflate_run buf)))%nat ->
  decodeGroovyData s
  = groovy_text_stages
      (firstn groovy_buffer_size (produced (inflate_run buf))).
Proof.
  intros Hb64 Hsize. rewrite decodeGroovyData_stages, Hb64.
  cbn [at_stage bind]. unfold Inflater_inflate.
  apply Nat.ltb_lt in Hsize. rewrite Hsize. reflexivity.
Qed.

(** A complete stream that fits the array is inflated alike by both. *)
Lemma inflaters_agree (buf : buffer) :
  status (inflate_run buf) = StreamEnd ->
  (List.length (produced (inflate_run buf)) <= groovy_buffer_size)%nat ->
  Inflater_inflate groovy_buffer_size buf
  = Returned (produced (inflate_run buf))
  /\ inflateRawSync buf = Returned (produced (inflate_run buf)).
Proof.
  intros Hend Hsize. unfold Inflater_inflate, inflateRawSync.
  rewrite Hend.
  assert (Hlt : Nat.ltb groovy_buffer_size
                        (List.length (produced (inflate_run buf))) = false)
    by (apply Nat.ltb_ge; exact Hsize).
  rewrite Hlt. split; reflexivity.
Qed.

(** On a string without [%] decodeURIComponent changes nothing. *)
Lemma decodeURIComponent_no_percent (s : jsstring) :
  forallb (fun c => negb (c =? ch_percent)) s = true ->
  decodeURIComponent s = Some s.
Proof.
  unfold decodeURIComponent. fold decode_start.
  induction s as [|c s IH]; intros H; [reflexivity|].
  cbn [forallb] in H. apply andb_true_iff in H as [Hc Hs].
  apply negb_true_iff in Hc.
  rewrite Decode_literal by exact Hc. rewrite (IH Hs). reflexivity.
Qed.


(** C7 (alphabet and padding tolerance).  The normalisation puts [+]
    for every [-] and [/] for every [_] and leaves every other character;
    on a string without [-] and [_] it changes nothing.  Hence both
    deflate-variant decoders accept the base64 text of a buffer in each
    of its four forms (standard or URL-safe alphabet, padded or not): in
    every form the text is decoded to the bytes of the buffer, which the
    decoder goes on to inflate and parse.  The decoders give the same
    outcome for a string, for its standard-alphabet form and for its
    padded form.  [decodeContivaData] decodes a standard-alphabet text as
    it stands, and every form of the text of a buffer to the gunzip of
    the buffer. *)
Theorem alphabet_tolerance (s : jsstring) :
  forallb no_urlsafe_char s = true ->
  toStandardAlphabet s = s
  /\ (forall t, toStandardAlphabet t = map standard_char t)
  /\ (forall buf t,
        In t (base64_forms buf) ->
        decodeGroovyString t
        = (let* decompressed := inflateRawSync buf in
           js_text_stages decompressed)
        /\ decodeGroovyData t
           = (let* decompressed := Inflater_inflate groovy_buffer_size buf in
              groovy_text_stages decompressed))
  /\ (forall t, decodeGroovyString (toStandardAlphabet t) = decodeGroovyString t)
  /\ (forall t, decodeGroovyData (toStandardAlphabet t) = decodeGroovyData t)
  /\ (forall t, decodeGroovyString (addPadding t) = decodeGroovyString t)
  /\ (forall t, decodeGroovyData (addPadding t) = decodeGroovyData t)
  /\ (forall e,
        decodeURIComponent e = Some s ->
        decodeContivaData e
        = let* decompressed := gunzipSync (Buffer_from_base64 s) in
          Returned {| zipBuffer := decompressed;
                      message := archive_message |})
  /\ (forall buf t e,
        In t (base64_forms buf) ->
        decodeURIComponent e = Some t ->
        decodeContivaData e
        = let* decompressed := gunzipSync buf in
          Returned {| zipBuffer := decompressed;
                      message := archive_message |}).
Proof.
  intros H. pose proof (toStandardAlphabet_standard s H) as Hs.
  split; [exact Hs|].
  split; [apply toStandardAlphabet_map|].
  split.
  { intros buf t Ht. pose proof (base64_forms_standard buf t Ht) as E.
    rewrite decodeGroovyString_stages, decodeGroovyData_stages, E.
    rewrite Buffer_from_base64_encode, Base64_decoder_decode_encode.
    split; reflexivity. }
  split; [intros t; rewrite !decodeGroovyString_stages,
                      toStandardAlphabet_idempotent; reflexivity|].
  split; [intros t; rewrite !decodeGroovyData_stages,
                      toStandardAlphabet_idempotent; reflexivity|].
  split; [intros t; rewrite !decodeGroovyString_stages,
                      toStandardAlphabet_addPadding, addPadding_idempotent;
          reflexivity|].
  split; [intros t; rewrite !decodeGroovyData_stages,
                      toStandardAlphabet_addPadding, addPadding_idempotent;
          reflexivity|].
  split.
  { intros e He. unfold decodeContivaData. rewrite He.
    cbn [at_stage bind]. rewrite Hs. reflexivity. }
  intros buf t e Ht He. unfold decodeContivaData. rewrite He.
  cbn [at_stage bind]. rewrite (Buffer_from_base64_forms buf t Ht).
  reflexivity.
Qed.

(** A text that is no well-formed base64 makes the Groovy decoder throw
    at the base64 step. *)
Lemma decodeGroovyData_malformed (s : jsstring) :
  well_formed_base64 (addPadding (toStandardAlphabet s)) = false ->
  decodeGroovyData s = Thrown StageBase64.
Proof.
  intros H. rewrite decodeGroovyData_stages.
  rewrite (Base64_decoder_decode_malformed _ H). reflexivity.
Qed.

(** On an input whose normalised, padded text the Java base64 decoder
    accepts and whose bytes are a complete deflate stream of at most
    10240 decompressed bytes, both decoders read the same bytes out of
    the text and inflate them to the same bytes: what is left to each is
    to decode those as UTF-8 and to parse the text. *)
Theorem decoders_inflate_alike (s : jsstring) (buf : buffer) :
  Base64_decoder_decode (addPadding (toStandardAlphabet s)) = Some buf ->
  status (inflate_run buf) = StreamEnd ->
  (List.length (produced (inflate_run buf)) <= groovy_buffer_size)%nat ->
  Buffer_from_base64 (addPadding (toStandardAlphabet s)) = buf
  /\ decodeGroovyData s = groovy_text_stages (produced (inflate_run buf))
  /\ decodeGroovyString s = js_text_stages (produced (inflate_run buf)).
Proof.
  intros Hb64 Hend Hsize.
  pose proof (Buffer_from_base64_java _ _ Hb64) as Hnode.
  destruct (inflaters_agree buf Hend Hsize) as [Hjava Hjs].
  split; [exact Hnode|]. split.
  - rewrite decodeGroovyData_stages, Hb64. cbn [at_stage bind].
    rewrite Hjava. reflexivity.
  - rewrite decodeGroovyString_stages, Hnode, Hjs. reflexivity.
Qed.

End DeflateVariant.

(** Padding idempotence: on a string that is in the standard alphabet
    and padded already, the first two steps of the decoders (normalise,
    pad) change nothing. *)
Theorem toStandardBase64_noop (s : jsstring) :
  forallb no_urlsafe_char s = true ->
  strlen s mod 4 = 0 ->
  addPadding (toStandardAlphabet s) = s.
Proof.
  intros Hs Hlen. rewrite (toStandardAlphabet_standard s Hs).
  apply addPadding_padded, Hlen.
Qed.

Lemma toStandardBase64_noop_witness :
  addPadding (toStandardAlphabet (str "q1ZKVLJSSlKqBQA="))
  = str "q1ZKVLJSSlKqBQA=".
Proof.
  apply (toStandardBase64_noop (str "q1ZKVLJSSlKqBQA=")); reflexivity.
Defined.

(** C6 (padding count).  For a string of any length [L] the count
    [need = (4 - L % 4) % 4] completes the length to a multiple of 4 and
    lies between 0 and 3; the padded string has a length that is a
    multiple of 4, so padding a padded string adds nothing, and [need] is
    0 for every multiple of 4.  The same computation in the encoder, on
    text that [toString('base64')] has padded, adds nothing. *)
Theorem padding_count (s : jsstring) :
  (strlen s + paddingNeeded (strlen s)) mod 4 = 0
  /\ 0 <= paddingNeeded (strlen s) <= 3
  /\ strlen (addPadding s) mod 4 = 0
  /\ addPadding (addPadding s) = addPadding s
  /\ (forall k, paddingNeeded (4 * k) = 0)
  /\ (forall compressed,
        base64_encode compressed
        ++ repeat_eq (paddingNeeded (strlen (base64_encode compressed)))
        = base64_encode compressed).
Proof.
  split; [apply paddingNeeded_completes|].
  split; [apply paddingNeeded_range|].
  split; [apply strlen_addPadding|].
  split; [apply addPadding_idempotent|].
  split; [apply paddingNeeded_multiple|].
  apply encoder_padding_is_empty.
Qed.

(* ------------------------------------------------------------------ *)
(** ** The deflate variant on concrete inputs *)

(** C3 (oversized input).  The payload of [oversized_input] inflates to
    10309 bytes.  The JavaScript decoder parses all of them; the Groovy
    decoder parses the first 10240, without any error about the size:
    whatever its JSON parser makes of the cut text is its result. *)
Theorem groovy_truncates_oversized :
  List.length oversized_document = Z.to_nat 10309
  /\ forall (J : Type) (Rj : JsRuntime J) (Rg : GroovyRuntime J),
       decodeGroovyString oversized_input = js_text_stages oversized_document
       /\ decodeGroovyData oversized_input
          = groovy_text_stages (firstn groovy_buffer_size oversized_document).
Proof.
  split; [reflexivity|]. intros J Rj Rg.
  remember (Buffer_from_base64
              (addPadding (toStandardAlphabet oversized_input))) as buf
    eqn:Hbuf.
  assert (Hb64 : Base64_decoder_decode
                   (addPadding (toStandardAlphabet oversized_input))
                 = Some buf)
    by (rewrite Hbuf; vm_compute; reflexivity).
  assert (Hrun : produced (inflate_run buf) = oversized_document
                 /\ status (inflate_run buf) = StreamEnd)
    by (rewrite Hbuf; vm_compute; split; reflexivity).
  destruct Hrun as [Hout Hend].
  assert (Hsize : (groovy_buffer_size
                   < List.length (produced (inflate_run buf)))%nat)
    by (rewrite Hout; vm_compute; lia).
  split.
  - rewrite decodeGroovyString_stages, <- Hbuf.
    unfold inflateRawSync. rewrite Hend, Hout. reflexivity.
  - pose proof (decodeGroovyData_truncates oversized_input buf Hb64 Hsize)
      as Ht.
    rewrite Hout in Ht. exact Ht.
Qed.


(** C9 (malformed base64): the JavaScript decoder misses what its Groovy
    sibling does.  The padded text of [stray_padding_input] is malformed
    (a [=] after a complete unit, and three more from the padding step).
    [decodeGroovyData] throws at the base64 step, on this input as on
    every input whose padded text is malformed.  [decodeGroovyString]
    never throws at that step: [Buffer.from] reports no error, and on
    this input the decoder returns what JSON.parse makes of the
    payload. *)
Theorem malformed_base64 :
  well_formed_base64 (addPadding (toStandardAlphabet stray_padding_input))
  = false
  /\ (forall (J : Type) (Rg : GroovyRuntime J),
        decodeGroovyData stray_padding_input = Thrown StageBase64)
  /\ (forall (J : Type) (Rj : JsRuntime J),
        decodeGroovyString stray_padding_input
        = js_text_stages stray_padding_document)
  /\ (forall (J : Type) (Rg : GroovyRuntime J) (s : jsstring),
        well_formed_base64 (addPadding (toStandardAlphabet s)) = false ->
        decodeGroovyData s = Thrown StageBase64)
  /\ (forall (J : Type) (Rj : JsRuntime J) (s : jsstring),
        decodeGroovyString s <> Thrown StageBase64).
Proof.
  split; [reflexivity|].
  split; [intros J Rg; apply decodeGroovyData_malformed; reflexivity|].
  split.
  { intros J Rj. rewrite decodeGroovyString_stages.
    assert (E : inflateRawSync
                  (Buffer_from_base64
                     (addPadding (toStandardAlphabet stray_padding_input)))
                = Returned stray_padding_document)
      by (vm_compute; reflexivity).
    rewrite E. reflexivity. }
  split; [intros J Rg s; apply decodeGroovyData_malformed|].
  intros J Rj s. apply decodeGroovyString_not_base64.
Qed.

(** C10 (the two decoders): they differ where the base64 text is not
    clean.  The payload of [line_feed_input] inflates to 9 bytes;
    [decodeGroovyString] passes over the line feed at the end of the
    text and returns what JSON.parse makes of the payload,
    [decodeGroovyData] throws at the base64 step. *)
Theorem decoders_differ_on_line_feed :
  (List.length
     (produced
        (inflate_run
           (Buffer_from_base64
              (addPadding (toStandardAlphabet line_feed_input)))))
   <= groovy_buffer_size)%nat
  /\ forall (J : Type) (Rj : JsRuntime J) (Rg : GroovyRuntime J),
       decodeGroovyString line_feed_input = js_text_stages small_document
       /\ decodeGroovyData line_feed_input = Thrown StageBase64
       /\ decodeGroovyData line_feed_input
          <> decodeGroovyString line_feed_input.
Proof.
  split; [vm_compute; lia|]. intros J Rj Rg.
  assert (Hjs : decodeGroovyString line_feed_input
                = js_text_stages small_document).
  { rewrite decodeGroovyString_stages.
    assert (E : inflateRawSync
                  (Buffer_from_base64
                     (addPadding (toStandardAlphabet line_feed_input)))
                = Returned small_document)
      by (vm_compute; reflexivity).
    rewrite E. reflexivity. }
  assert (Hg : decodeGroovyData line_feed_input = Thrown StageBase64).
  { rewrite decodeGroovyData_stages.
    assert (E : Base64_decoder_decode
                  (addPadding (toStandardAlphabet line_feed_input))
                = None)
      by (vm_compute; reflexivity).
    rewrite E. reflexivity. }
  split; [exact Hjs|]. split; [exact Hg|].
  rewrite Hjs, Hg. unfold js_text_stages.
  destruct (JSON_parse _); discriminate.
Qed.


Lemma alphabet_tolerance_witness :
  toStandardAlphabet (str "q1bKzCsoLVGyqlZKyk+pVLJSyshUqq0FAA==")
  = str "q1bKzCsoLVGyqlZKyk+pVLJSyshUqq0FAA=="
  /\ toStandardAlphabet (str "q1bKzCsoLVGyqlZKyk-pVLJSyshUqq0FAA")
     = map standard_char (str "q1bKzCsoLVGyqlZKyk-pVLJSyshUqq0FAA")
  /\ @decodeGroovyString jsstring text_js_runtime
       (str "q1bKzCsoLVGyqlZKyk-pVLJSyshUqq0FAA")
     = Returned (map b2z percent_encoded_document)
  /\ @decodeGroovyData jsstring text_groovy_runtime
       (str "q1bKzCsoLVGyqlZKyk-pVLJSyshUqq0FAA")
     = Returned (map b2z percent_encoded_document).
Proof.
  destruct (@alphabet_tolerance jsstring text_js_runtime text_groovy_runtime
              (str "q1bKzCsoLVGyqlZKyk+pVLJSyshUqq0FAA==") eq_refl)
    as [H1 [H2 [H3 _]]].
  split; [exact H1|]. split; [apply H2|].
  destruct (H3 (Buffer_from_base64
                  (str "q1bKzCsoLVGyqlZKyk+pVLJSyshUqq0FAA=="))
               (str "q1bKzCsoLVGyqlZKyk-pVLJSyshUqq0FAA"))
    as [Hjs Hg].
  - right. right. right. left. vm_compute. reflexivity.
  - split.
    + rewrite Hjs. vm_compute. reflexivity.
    + rewrite Hg. vm_compute. reflexivity.
Defined.

Lemma decoders_inflate_alike_witness :
  Buffer_from_base64 (addPadding (toStandardAlphabet (str "q1ZKVLJSSlKqBQA")))
  = Buffer_from_base64 (str "q1ZKVLJSSlKqBQA=")
  /\ @decodeGroovyData jsstring text_groovy_runtime (str "q1ZKVLJSSlKqBQA")
     = Returned (map b2z small_document)
  /\ @decodeGroovyString jsstring text_js_runtime (str "q1ZKVLJSSlKqBQA")
     = Returned (map b2z small_document).
Proof.
  destruct (@decoders_inflate_alike jsstring text_js_runtime
              text_groovy_runtime
              (str "q1ZKVLJSSlKqBQA")
              (Buffer_from_base64 (str "q1ZKVLJSSlKqBQA=")))
    as [Hb [Hg Hjs]].
  - vm_compute. reflexivity.
  - vm_compute. reflexivity.
  - vm_compute. lia.
  - split; [exact Hb|]. split.
    + rewrite Hg. vm_compute. reflexivity.
    + rewrite Hjs. vm_compute. reflexivity.
Defined.

(* ------------------------------------------------------------------ *)
(** ** What Node's base64 decoder reads of a text *)

Lemma legal_sextets_skip (c : Z) (a b : jsstring) :
  unbase64 (low_byte c) = None -> low_byte c <> ch_eq ->
  legal_sextets (a ++ c :: b) = legal_sextets (a ++ b).
Proof.
  intros Hc Hne. induction a as [|x a IH]; cbn [app legal_sextets]; cbv zeta.
  - rewrite Hc. apply Z.eqb_neq in Hne. rewrite Hne. reflexivity.
  - rewrite IH. reflexivity.
Qed.

(** The normalisation leaves every character but [-] and [_] alone. *)
Lemma toStandardAlphabet_cons_other (c : Z) (b : jsstring) :
  c <> ch_minus -> c <> ch_under ->
  toStandardAlphabet (c :: b) = c :: toStandardAlphabet b.
Proof.
  intros H1 H2. apply Z.eqb_neq in H1, H2.
  unfold toStandardAlphabet, replaceAll. cbn [map].
  rewrite H1, H2. reflexivity.
Qed.

Lemma toStandardAlphabet_cons_low_foreign (c : Z) (b : jsstring) :
  unbase64 (low_byte c) = None ->
  toStandardAlphabet (c :: b) = c :: toStandardAlphabet b.
Proof.
  intros Hc. apply toStandardAlphabet_cons_other; intros ->; discriminate Hc.
Qed.

Lemma toStandardAlphabet_cons_foreign (c : Z) (b : jsstring) :
  unbase64 c = None ->
  toStandardAlphabet (c :: b) = c :: toStandardAlphabet b.
Proof.
  intros Hc. apply toStandardAlphabet_cons_other; intros ->; discriminate Hc.
Qed.

Section Lenient.

Context {J : Type} {R : JsRuntime J}.

(** Of its argument [decodeGroovyString] reads the sextets only. *)
Lemma decodeGroovyString_sextets (s t : jsstring) :
  legal_sextets (toStandardAlphabet s) = legal_sextets (toStandardAlphabet t) ->
  decodeGroovyString s = decodeGroovyString t.
Proof.
  intros H. rewrite !decodeGroovyString_stages.
  rewrite !Buffer_from_base64_addPadding. unfold Buffer_from_base64.
  rewrite H. reflexivity.
Qed.

(** [decodeGroovyString] skips every code unit whose low byte belongs to
    neither alphabet and is not [=] (white space, a line break, [%],
    U+00E9, U+20AC, ...), wherever it stands: the result, or the error,
    is that of the string without it.  The low byte decides: U+0141,
    whose low byte is [A], is not skipped. *)
Theorem js_decoder_skips_foreign_characters (c : Z) (a b : jsstring) :
  unbase64 (low_byte c) = None -> low_byte c <> ch_eq ->
  decodeGroovyString (a ++ c :: b) = decodeGroovyString (a ++ b).
Proof.
  intros Hc Hne. apply decodeGroovyString_sextets.
  rewrite !toStandardAlphabet_app, toStandardAlphabet_cons_low_foreign
    by exact Hc.
  apply legal_sextets_skip; assumption.
Qed.

(** [decodeGroovyString] reads its argument up to the first [=]: what
    follows it, padding or not, changes neither the result nor the
    error. *)
Theorem js_decoder_stops_at_padding (a junk : jsstring) :
  decodeGroovyString (a ++ ch_eq :: junk) = decodeGroovyString a.
Proof.
  apply decodeGroovyString_sextets.
  rewrite toStandardAlphabet_app.
  change (toStandardAlphabet (ch_eq :: junk))
    with (ch_eq :: toStandardAlphabet junk).
  apply legal_sextets_stop.
Qed.

End Lenient.

Lemma js_decoder_skips_foreign_characters_witness :
  @decodeGroovyString jsstring text_js_runtime
     (str "q1ZKVLJS" ++ 8364 :: str "SlKqBQA")
  = @decodeGroovyString jsstring text_js_runtime
     (str "q1ZKVLJS" ++ str "SlKqBQA").
Proof.
  apply (@js_decoder_skips_foreign_characters jsstring text_js_runtime 8364).
  - reflexivity.
  - unfold ch_eq, low_byte. cbv. discriminate.
Defined.

(* ------------------------------------------------------------------ *)
(** ** Percent-decoding: an escape cut short *)

Lemma Decode_bad_escape (b : jsstring) :
  two_hex_digits b = false ->
  forall (a : jsstring) (st : Utf8State * EscState),
    Decode st (a ++ ch_percent :: b) = None.
Proof.
  intros Hb. induction a as [|c a IH]; intros [u e]; cbn [app].
  - destruct e as [| |h]; [|reflexivity|reflexivity].
    cbn [Decode decode_step]. rewrite Z.eqb_refl.
    destruct b as [|x b]; [destruct u; reflexivity|].
    cbn [Decode decode_step]. destruct (hex_value x) as [hx|] eqn:Hx;
      [|reflexivity].
    destruct b as [|y b]; [destruct u; reflexivity|].
    cbn [Decode decode_step]. cbn [two_hex_digits] in Hb. rewrite Hx in Hb.
    destruct (hex_value y); [discriminate Hb|reflexivity].
  - cbn [Decode]. destruct (decode_step (u, e) c) as [[st' out]|];
      [|reflexivity].
    rewrite IH. reflexivity.
Qed.

(** [decodeContivaData] throws a URIError, at its first step, on every
    string in which a [%] is not followed by two hexadecimal digits. *)
Theorem zip_decoder_rejects_bad_escape (a b : jsstring) :
  two_hex_digits b = false ->
  decodeContivaData (a ++ ch_percent :: b) = Thrown StagePercent.
Proof.
  intros Hb. unfold decodeContivaData, decodeURIComponent.
  rewrite (Decode_bad_escape b Hb). reflexivity.
Qed.

Lemma zip_decoder_rejects_bad_escape_witness :
  decodeContivaData (str "H4sIAAAA" ++ ch_percent :: str "2")
  = Thrown StagePercent.
Proof.
  apply (zip_decoder_rejects_bad_escape (str "H4sIAAAA") (str "2")).
  reflexivity.
Defined.

(* ------------------------------------------------------------------ *)
(** ** Input that is no gzip file *)

Lemma b2z_eqb (b : byte) (v : byte) :
  (b2z b =? b2z v) = true -> b = v.
Proof.
  intros H. apply Z.eqb_eq in H.
  rewrite <- (z2b_b2z b), <- (z2b_b2z v), H. reflexivity.
Qed.

Lemma gunzip_member_magic (input : buffer) (r : buffer * buffer) :
  gunzip_member input = Some r ->
  firstn 3 input = [x1f; x8b; x08].
Proof.
  destruct input
    as [|id1 [|id2 [|cm [|flg [|b4 [|b5 [|b6 [|b7 [|b8 [|b9 rest]]]]]]]]]];
    try discriminate.
  unfold gunzip_member.
  destruct ((b2z id1 =? 31) && (b2z id2 =? 139) && (b2z cm =? 8)
            && (Z.land (b2z flg) 224 =? 0)) eqn:E; cbn [negb];
    [|discriminate].
  intros _. apply andb_true_iff in E as [E _].
  apply andb_true_iff in E as [E E3]. apply andb_true_iff in E as [E1 E2].
  cbn [firstn]. f_equal; [|f_equal; [|f_equal]].
  - apply (b2z_eqb id1 x1f E1).
  - apply (b2z_eqb id2 x8b E2).
  - apply (b2z_eqb cm x08 E3).
Qed.

Lemma gunzipSync_magic (input : buffer) :
  firstn 3 input <> [x1f; x8b; x08] ->
  gunzipSync input = Thrown StageInflate.
Proof.
  intros H. unfold gunzipSync.
  destruct (List.length input) as [|fuel]; [reflexivity|].
  cbn [gunzip_members].
  destruct (gunzip_member input) as [r|] eqn:E; [|reflexivity].
  elim H. exact (gunzip_member_magic input r E).
Qed.

(** [decodeContivaData] throws at the gunzip step whenever the bytes it
    has base64-decoded do not start with 1f 8b 08, the magic number and
    the method of a gzip file: on too few bytes, on a bare ZIP archive,
    on a raw deflate stream. *)
Theorem zip_decoder_rejects_other_data (s u : jsstring) :
  decodeURIComponent s = Some u ->
  firstn 3 (Buffer_from_base64 (toStandardAlphabet u)) <> [x1f; x8b; x08] ->
  decodeContivaData s = Thrown StageInflate.
Proof.
  intros Hu Hmagic. unfold decodeContivaData. rewrite Hu.
  cbn [at_stage bind]. rewrite (gunzipSync_magic _ Hmagic). reflexivity.
Qed.

Lemma zip_decoder_rejects_other_data_witness :
  decodeContivaData (str "UEsDBAoAAAgAAA") = Thrown StageInflate.
Proof.
  apply (zip_decoder_rejects_other_data
           (str "UEsDBAoAAAgAAA") (str "UEsDBAoAAAgAAA")).
  - reflexivity.
  - vm_compute. discriminate.
Defined.

(* ------------------------------------------------------------------ *)
(** ** A gzip file is no raw deflate stream *)

(** Its first byte, 1f, announces a final block of the reserved type. *)
Lemma inflate_run_gzip (rest : buffer) :
  status (inflate_run (x1f :: rest)) = DataError
  /\ produced (inflate_run (x1f :: rest)) = [].
Proof.
  unfold inflate_run. rewrite bits_of_cons.
  change (bits_of_byte x1f)
    with [true; true; true; true; true; false; false; false].
  cbn [app List.length]. split; reflexivity.
Qed.

Lemma inflateRawSync_gzip (rest : buffer) :
  inflateRawSync (x1f :: rest) = Thrown StageInflate.
Proof.
  unfold inflateRawSync. destruct (inflate_run_gzip rest) as [-> _].
  reflexivity.
Qed.

Lemma Inflater_inflate_gzip (rest : buffer) :
  Inflater_inflate groovy_buffer_size (x1f :: rest) = Thrown StageInflate.
Proof.
  unfold Inflater_inflate. destruct (inflate_run_gzip rest) as [-> ->].
  reflexivity.
Qed.

(* ------------------------------------------------------------------ *)
(** ** The two variants are not interchangeable *)

(** The base64 text of what starts with a gzip header. *)
Lemma base64_encode_gzip (os : byte) (rest : buffer) :
  base64_encode (gzip_header os ++ rest)
  = gzip_prefix ++ base64_encode (os :: rest).
Proof. reflexivity. Qed.

Lemma encodeURIComponent_gzip (t : jsstring) :
  encodeURIComponent (gzip_prefix ++ t)
  = option_map (app gzip_prefix) (encodeURIComponent t).
Proof.
  change (gzip_prefix ++ t)
    with (72 :: 52 :: 115 :: 73 :: 65 :: 65 :: 65 :: 65 :: 65 :: 65 :: 65
          :: 65 :: t).
  rewrite !encode_unescaped by reflexivity.
  destruct (encodeURIComponent t); reflexivity.
Qed.

Lemma Buffer_from_base64_gzip (t : jsstring) :
  exists rest,
    Buffer_from_base64 (addPadding (toStandardAlphabet (gzip_prefix ++ t)))
    = x1f :: rest.
Proof.
  rewrite Buffer_from_base64_addPadding.
  eexists. unfold Buffer_from_base64.
  rewrite toStandardAlphabet_app.
  change (toStandardAlphabet gzip_prefix) with gzip_prefix.
  change (gzip_prefix ++ toStandardAlphabet t)
    with (72 :: 52 :: 115 :: 73 :: str "AAAAAAAA" ++ toStandardAlphabet t).
  cbn [legal_sextets].
  change (unbase64 72) with (Some 7). change (unbase64 52) with (Some 56).
  change (unbase64 115) with (Some 44). change (unbase64 73) with (Some 8).
  cbv iota. cbn [bytes_of_sextets]. reflexivity.
Qed.

Section Variants.

Context {C : Compressor} {A : Archiver}.

Lemma encodeContivaData_gzip (now : Z) (x : DebugPayload) :
  exists t, encodeContivaData now x = Returned (gzip_prefix ++ t).
Proof.
  destruct (encodeContivaData_returns now x) as [s [Henc _]].
  revert Henc. unfold encodeContivaData, gzipSync.
  rewrite encoder_padding_is_empty.
  rewrite base64_encode_gzip, encodeURIComponent_gzip.
  destruct (encodeURIComponent _) as [t|]; cbn [option_map at_stage];
    [|discriminate].
  intros _. exists t. reflexivity.
Qed.

(** What the encoder of the ZIP variant returns, no decoder of the
    deflate variant accepts.  [decodeGroovyString] throws at the inflate
    step: the bytes are a gzip file, whose first byte is no start of a
    deflate stream.  [decodeGroovyData] throws at the base64 step when
    the string holds a [%], and at the inflate step when it does not. *)
Theorem zip_string_rejected_by_deflate_decoders (now : Z) (x : DebugPayload) :
  exists s,
    encodeContivaData now x = Returned s
    /\ (forall (J : Type) (R : JsRuntime J),
          decodeGroovyString s = Thrown StageInflate)
    /\ (forall (J : Type) (R : GroovyRuntime J),
          decodeGroovyData s = Thrown StageBase64
          \/ decodeGroovyData s = Thrown StageInflate).
Proof.
  destruct (encodeContivaData_gzip now x) as [t Ht].
  exists (gzip_prefix ++ t). split; [exact Ht|].
  destruct (Buffer_from_base64_gzip t) as [rest Hbuf].
  split; intros J R.
  - rewrite decodeGroovyString_stages, Hbuf, inflateRawSync_gzip.
    reflexivity.
  - rewrite decodeGroovyData_stages.
    destruct (Base64_decoder_decode _) as [buf|] eqn:E;
      cbn [at_stage bind]; [right|left; reflexivity].
    apply Buffer_from_base64_java in E. rewrite Hbuf in E. subst buf.
    rewrite Inflater_inflate_gzip. reflexivity.
Qed.

End Variants.

Section DeflateOnly.

Context {J : Type} {R : JsRuntime J}.

(** And the other way round: a string without [%] that
    [decodeGroovyString] decodes, [decodeContivaData] rejects at the
    gunzip step. *)
Theorem deflate_string_rejected_by_zip_decoder (s : jsstring) (v : J) :
  forallb (fun c => negb (c =? ch_percent)) s = true ->
  decodeGroovyString s = Returned v ->
  decodeContivaData s = Thrown StageInflate.
Proof.
  intros Hs Hv. unfold decodeContivaData.
  rewrite (decodeURIComponent_no_percent s Hs). cbn [at_stage bind].
  rewrite gunzipSync_magic; [reflexivity|].
  intros Hmagic. rewrite decodeGroovyString_stages in Hv.
  rewrite Buffer_from_base64_addPadding in Hv.
  destruct (Buffer_from_base64 (toStandardAlphabet s)) as [|b rest];
    [discriminate Hmagic|].
  cbn [firstn] in Hmagic. injection Hmagic as -> _.
  rewrite inflateRawSync_gzip in Hv. discriminate Hv.
Qed.

End DeflateOnly.

Lemma deflate_string_rejected_by_zip_decoder_witness :
  decodeContivaData (str "q1ZKVLJSSlKqBQA") = Thrown StageInflate.
Proof.
  apply (@deflate_string_rejected_by_zip_decoder jsstring text_js_runtime
           (str "q1ZKVLJSSlKqBQA") (map b2z small_document)).
  - reflexivity.
  - vm_compute. reflexivity.
Defined.

(* ------------------------------------------------------------------ *)
(** ** JavaScript values *)

Section ValueFacts.

Context {N : JsNumbers}.

Lemma or_else_cases (a b : JsValue) :
  truthy (or_else a b) = true \/ or_else a b = b.
Proof.
  unfold or_else. destruct (truthy a) eqn:E; [left; exact E|right; reflexivity].
Qed.

Lemma or_else_truthy (a b : JsValue) :
  truthy b = true -> truthy (or_else a b) = true.
Proof.
  intros Hb. destruct (or_else_cases a b) as [H|H];
    [exact H|rewrite H; exact Hb].
Qed.

Lemma get_defined (v : JsValue) (key : jsstring) :
  v <> JsUndefined -> v <> JsNull -> exists w, get v key = Normal w.
Proof.
  intros Hu Hn. destruct v; try (eexists; reflexivity); congruence.
Qed.

Lemma truthy_defined (v : JsValue) :
  truthy v = true -> v <> JsUndefined /\ v <> JsNull.
Proof.
  intros H. split; intros ->; discriminate H.
Qed.

Lemma get_truthy (v : JsValue) (key : jsstring) :
  truthy v = true -> exists w, get v key = Normal w.
Proof.
  intros H. apply truthy_defined in H as [Hu Hn].
  apply get_defined; assumption.
Qed.

(** [JSON.stringify] gives a text for everything but [undefined]. *)
Lemma stringify_defined (v : JsValue) :
  v <> JsUndefined -> exists t, stringify v = Some t.
Proof.
  intros H. destruct v; try (eexists; reflexivity). congruence.
Qed.

Lemma stringify_string_map (m : list (jsstring * jsstring)) :
  stringify (string_map_value m) = Some (string_map_text m).
Proof.
  unfold string_map_value, string_map_text. cbn [stringify]. do 2 f_equal.
  induction m as [|[k v] m IH]; [reflexivity|].
  cbn [map flat_map stringify fst snd app]. rewrite IH. reflexivity.
Qed.

(** The JSON text of the encoder's payload is the text
    [JSON.stringify] gives for it as a value. *)
Lemma stringify_payload (d : DebugPayload) :
  stringify (payload_value d) = Some (JSON_stringify d).
Proof.
  unfold payload_value, JSON_stringify.
  pose proof (stringify_string_map (headers d)) as Hh.
  pose proof (stringify_string_map (properties d)) as Hp.
  remember (string_map_value (headers d)) as h.
  remember (string_map_value (properties d)) as p.
  cbn [stringify flat_map fst snd app]. rewrite Hh, Hp. reflexivity.
Qed.

End ValueFacts.

(* ------------------------------------------------------------------ *)
(** ** [cpiHelperToContiva] *)

Section ConversionFacts.

Context {N : JsNumbers} {D : JsDates}.

Lemma cpiHelperToContiva_returns (cpiHelperData i s : JsValue) :
  get cpiHelperData (str "input") = Normal i ->
  get cpiHelperData (str "script") = Normal s ->
  exists body code function headers properties,
    get (or_else i (JsObject [])) (str "body") = Normal body
    /\ get (or_else s (JsObject [])) (str "code") = Normal code
    /\ get (or_else s (JsObject [])) (str "function") = Normal function
    /\ get (or_else i (JsObject [])) (str "headers") = Normal headers
    /\ get (or_else i (JsObject [])) (str "properties") = Normal properties
    /\ cpiHelperToContiva cpiHelperData
       = Normal
           (JsObject
              [(str "currentSessionType", JsString (str "groovy"));
               (str "scriptInput", or_else body (JsString []));
               (str "script", or_else code (JsString []));
               (str "functionName",
                or_else function (JsString (str "processData")));
               (str "headers", or_else headers (JsObject []));
               (str "properties", or_else properties (JsObject []))]).
Proof.
  intros Hi Hs. unfold cpiHelperToContiva. rewrite Hi, Hs.
  assert (Ti : truthy (or_else i (JsObject [])) = true)
    by (apply or_else_truthy; reflexivity).
  assert (Ts : truthy (or_else s (JsObject [])) = true)
    by (apply or_else_truthy; reflexivity).
  destruct (get_truthy _ (str "body") Ti) as [body Hb].
  destruct (get_truthy _ (str "code") Ts) as [code Hc].
  destruct (get_truthy _ (str "function") Ts) as [function Hf].
  destruct (get_truthy _ (str "headers") Ti) as [headers Hh].
  destruct (get_truthy _ (str "properties") Ti) as [properties Hp].
  exists body, code, function, headers, properties.
  rewrite Hb, Hc, Hf, Hh, Hp. repeat split; reflexivity.
Qed.

(** On [undefined] and [null] the conversion throws a TypeError.  On
    every other value it returns an object with the six fields of the
    Contiva format, in this order: [currentSessionType] is ['groovy'],
    [functionName] is never falsy, and each of the other four is either
    truthy or its default (the empty string, the empty object).  No
    field is [undefined], so the JSON text of the result has all six
    members. *)
Theorem cpiHelperToContiva_fields (cpiHelperData : JsValue) :
  (cpiHelperData = JsUndefined \/ cpiHelperData = JsNull ->
   cpiHelperToContiva cpiHelperData = Throw TypeError)
  /\ (cpiHelperData <> JsUndefined -> cpiHelperData <> JsNull ->
      exists scriptInput script functionName headers properties,
        cpiHelperToContiva cpiHelperData
        = Normal
            (JsObject
               [(str "currentSessionType", JsString (str "groovy"));
                (str "scriptInput", scriptInput);
                (str "script", script);
                (str "functionName", functionName);
                (str "headers", headers);
                (str "properties", properties)])
        /\ (truthy scriptInput = true \/ scriptInput = JsString [])
        /\ (truthy script = true \/ script = JsString [])
        /\ truthy functionName = true
        /\ (truthy headers = true \/ headers = JsObject [])
        /\ (truthy properties = true \/ properties = JsObject [])
        /\ exists t1 t2 t3 t4 t5,
             stringify
               (JsObject
                  [(str "currentSessionType", JsString (str "groovy"));
                   (str "scriptInput", scriptInput);
                   (str "script", script);
                   (str "functionName", functionName);
                   (str "headers", headers);
                   (str "properties", properties)])
             = Some
                 (object_text
                    [member (str "currentSessionType") (quote (str "groovy"));
                     member (str "scriptInput") t1;
                     member (str "script") t2;
                     member (str "functionName") t3;
                     member (str "headers") t4;
                     member (str "properties") t5])).
Proof.
  split.
  - intros [-> | ->]; reflexivity.
  - intros Hu Hn.
    destruct (get_defined cpiHelperData (str "input") Hu Hn) as [i Hi].
    destruct (get_defined cpiHelperData (str "script") Hu Hn) as [s Hs].
    destruct (cpiHelperToContiva_returns cpiHelperData i s Hi Hs)
      as [body [code [function [headers [properties [_ [_ [_ [_ [_ H]]]]]]]]]].
    do 5 eexists. split; [exact H|].
    assert (Hdef : forall a b : JsValue,
               b <> JsUndefined -> or_else a b <> JsUndefined).
    { intros a b Hb. destruct (or_else_cases a b) as [T|E].
      - apply truthy_defined in T. apply T.
      - rewrite E. exact Hb. }
    split; [apply or_else_cases|]. split; [apply or_else_cases|].
    split; [apply or_else_truthy; reflexivity|].
    split; [apply or_else_cases|]. split; [apply or_else_cases|].
    destruct (stringify_defined (or_else body (JsString [])))
      as [t1 H1]; [apply Hdef; discriminate|].
    destruct (stringify_defined (or_else code (JsString [])))
      as [t2 H2]; [apply Hdef; discriminate|].
    destruct (stringify_defined
                (or_else function (JsString (str "processData"))))
      as [t3 H3]; [apply Hdef; discriminate|].
    destruct (stringify_defined (or_else headers (JsObject [])))
      as [t4 H4]; [apply Hdef; discriminate|].
    destruct (stringify_defined (or_else properties (JsObject [])))
      as [t5 H5]; [apply Hdef; discriminate|].
    exists t1, t2, t3, t4, t5.
    cbn [stringify flat_map fst snd app]. rewrite H1, H2, H3, H4, H5.
    reflexivity.
Qed.

End ConversionFacts.

(* ------------------------------------------------------------------ *)
(** ** The properties format *)

Ltac app_normal := repeat (rewrite <- app_assoc || rewrite <- app_comm_cons).

Lemma escapeValue_head (s : jsstring) :
  match escapeValue s with
  | [] => s = []
  | c :: _ => properties_special c = false
  end.
Proof.
  destruct s as [|c s]; [reflexivity|].
  cbn [escapeValue flat_map]. destruct (properties_special c) eqn:E;
    cbn [app]; [reflexivity|exact E].
Qed.

(** Dropping the backslashes gives the value back. *)
Lemma unescapeValue_escapeValue (s : jsstring) :
  unescapeValue (escapeValue s) = s.
Proof.
  induction s as [|c s IH]; [reflexivity|].
  change (escapeValue (c :: s))
    with ((if properties_special c then [ch_backslash; c] else [c])
          ++ escapeValue s).
  destruct (properties_special c) eqn:E; cbn [app].
  - cbn [unescapeValue]. rewrite Z.eqb_refl, E. cbn [andb].
    fold (unescapeValue (escapeValue s)). rewrite IH. reflexivity.
  - pose proof (escapeValue_head s) as Hh.
    destruct (escapeValue s) as [|d rest] eqn:Es.
    + subst s. reflexivity.
    + cbn [unescapeValue]. rewrite Hh, andb_false_r.
      change (c :: unescapeValue (d :: rest) = c :: s). rewrite IH.
      reflexivity.
Qed.

Lemma escapeValue_plain (s : jsstring) :
  forallb (fun c => negb (properties_special c)) s = true ->
  escapeValue s = s.
Proof.
  induction s as [|c s IH]; intros H; [reflexivity|].
  cbn [forallb] in H. apply andb_true_iff in H as [Hc Hs].
  apply negb_true_iff in Hc. cbn [escapeValue flat_map]. rewrite Hc.
  cbn [app]. f_equal. apply IH, Hs.
Qed.

Section PropertiesFacts.

Context {N : JsNumbers} {D : JsDates}.

Lemma objectToPropertiesFormat_single (now : Z) (title : option jsstring)
                                      (key value : jsstring) :
  objectToPropertiesFormat now (JsObject [(key, JsString value)]) title
  = (objectToPropertiesFormat now (JsObject []) title
     ++ [ch_newline] ++ key ++ str "=") ++ escapeValue value.
Proof.
  unfold objectToPropertiesFormat.
  cbn [Object_entries map app join property_line typeof_object ToString].
  app_normal. reflexivity.
Qed.

(** The value of a property is written so that it can be read back: two
    objects that differ in the string under their one key give different
    texts, because dropping the backslash before [=], [:] and TAB gives
    the value back.  Nothing else is escaped: a value without these three
    characters is written as it is, a backslash or a line break in it
    included. *)
Theorem property_values_escaped (now : Z) (title : option jsstring)
                                (key a b : jsstring) :
  (objectToPropertiesFormat now (JsObject [(key, JsString a)]) title
   = objectToPropertiesFormat now (JsObject [(key, JsString b)]) title ->
   a = b)
  /\ unescapeValue (escapeValue a) = a
  /\ (forallb (fun c => negb (properties_special c)) a = true ->
      objectToPropertiesFormat now (JsObject [(key, JsString a)]) title
      = objectToPropertiesFormat now (JsObject []) title
        ++ [ch_newline] ++ key ++ str "=" ++ a).
Proof.
  split; [|split].
  - rewrite !objectToPropertiesFormat_single. intros H.
    apply app_inv_head in H.
    rewrite <- (unescapeValue_escapeValue a), <- (unescapeValue_escapeValue b).
    f_equal. exact H.
  - apply unescapeValue_escapeValue.
  - intros Ha. rewrite objectToPropertiesFormat_single.
    rewrite (escapeValue_plain a Ha). app_normal. reflexivity.
Qed.

(** What has no property to list gives the two comment lines only: the
    title (['Contents'] when none is given) and the date. *)
Theorem objectToPropertiesFormat_header_only (now : Z) (obj : JsValue)
                                             (title : option jsstring) :
  typeof_object obj = false \/ obj = JsNull \/ obj = JsObject []
  \/ obj = JsArray [] ->
  objectToPropertiesFormat now obj title
  = str "#" ++ match title with
               | Some t => t
               | None => str "Contents"
               end
    ++ [ch_newline] ++ str "#" ++ Date_toUTCString now.
Proof.
  intros [H | [-> | [-> | ->]]]; try reflexivity.
  destruct obj; try discriminate H; reflexivity.
Qed.

End PropertiesFacts.

Lemma objectToPropertiesFormat_header_only_witness :
  @objectToPropertiesFormat integer_numbers plain_dates 0
     (JsString (str "text")) None
  = str "#Contents" ++ [ch_newline] ++ str "#0".
Proof.
  apply (@objectToPropertiesFormat_header_only integer_numbers plain_dates 0
           (JsString (str "text")) None).
  left. reflexivity.
Defined.

(* ------------------------------------------------------------------ *)
(** ** Saving, and the [/debug] routes *)

Section SavingFacts.

Context {N : JsNumbers} {D : JsDates} {F : NodeFs} {E : JsErrors}.

Lemma written_app (a b : list FsCall) :
  written (a ++ b) = written a ++ written b.
Proof. unfold written. apply flat_map_app. Qed.

(** Looking for a directory and making it writes no file. *)
Lemma ensure_directory_written (calls : list FsCall) (dir : jsstring) :
  written (fst (ensure_directory calls dir)) = written calls.
Proof.
  unfold ensure_directory, existsSync, mkdirSync.
  destruct (fs_exists calls dir); cbn [fst]; rewrite !written_app;
    cbn [written flat_map app]; rewrite ?app_nil_r; reflexivity.
Qed.

Lemma ensure_directory_succeeds (calls : list FsCall) (dir : jsstring) :
  (forall cs path, fs_throws cs (MkdirSync path) = None) ->
  snd (ensure_directory calls dir) = None.
Proof.
  intros Hmk. unfold ensure_directory, existsSync, mkdirSync.
  destruct (fs_exists calls dir); cbn [snd]; [reflexivity|apply Hmk].
Qed.

(** [saveDecodedData] ends in one of two ways: it reports a failure (of a
    directory call, or of the read of [input]) and has attempted no
    write, or it reports success with the three paths and has attempted
    the three writes. *)
Lemma saveDecodedData_result (env : option jsstring) (t1 t2 : Z)
                             (calls : list FsCall) (decodedData : JsValue) :
  ((exists error,
      snd (saveDecodedData env t1 t2 calls decodedData) = save_failure error)
   /\ written (fst (saveDecodedData env t1 t2 calls decodedData))
      = written calls)
  \/ (snd (saveDecodedData env t1 t2 calls decodedData)
      = JsObject [(str "success", JsBoolean true);
                  (str "files", saved_files env)]
      /\ written (fst (saveDecodedData env t1 t2 calls decodedData))
         = written calls ++ saved_paths env).
Proof.
  unfold saveDecodedData.
  pose proof (ensure_directory_written
                calls (path_join (DATA_DUMP_BASE env) (str "Debug"))) as W1.
  destruct (ensure_directory calls _) as [calls1 [e1|]]; cbn [fst] in W1;
    [left; cbn [fst snd]; split; [exists e1; reflexivity|exact W1]|].
  pose proof (ensure_directory_written
                calls1 (path_join (DATA_DUMP_BASE env) (str "Debug"))) as W2.
  rewrite W1 in W2.
  destruct (ensure_directory calls1 _) as [calls2 [e2|]]; cbn [fst] in W2;
    [left; cbn [fst snd]; split; [exists e2; reflexivity|exact W2]|].
  destruct (get decodedData (str "input")) as [i|e3];
    [|left; cbn [fst snd]; split; [exists e3; reflexivity|exact W2]].
  right. cbn [fst snd]. split; [reflexivity|].
  assert (Ti : truthy (or_else i (JsObject [])) = true)
    by (apply or_else_truthy; reflexivity).
  destruct (get_truthy _ (str "body") Ti) as [b Hb].
  destruct (get_truthy _ (str "headers") Ti) as [h Hh].
  destruct (get_truthy _ (str "properties") Ti) as [p Hp].
  rewrite Hb, Hh, Hp. unfold writeFileSync. cbn [fst].
  rewrite !written_app, W2. cbn [written flat_map app].
  rewrite <- !app_assoc. reflexivity.
Qed.

(** When the directory calls do not throw and the data is neither
    [undefined] nor [null], [saveDecodedData] reports success with the
    three paths, whatever becomes of the writes: it attempts exactly three
    of them, [debug.body], [debug.header] and [debug.properties] in this
    order, all in the directory [Debug], each whether or not the one
    before it failed. *)
Theorem saveDecodedData_reports_success (env : option jsstring) (t1 t2 : Z)
                                        (calls : list FsCall)
                                        (decodedData : JsValue) :
  (forall cs path, fs_throws cs (MkdirSync path) = None) ->
  decodedData <> JsUndefined -> decodedData <> JsNull ->
  let dir := path_join (DATA_DUMP_BASE env) (str "Debug") in
  exists calls',
    saveDecodedData env t1 t2 calls decodedData
    = (calls',
       JsObject
         [(str "success", JsBoolean true);
          (str "files",
           JsObject
             [(str "body", JsString (path_join dir (str "debug.body")));
              (str "header", JsString (path_join dir (str "debug.header")));
              (str "properties",
               JsString (path_join dir (str "debug.properties")))])])
    /\ written calls'
       = written calls
         ++ [path_join dir (str "debug.body");
             path_join dir (str "debug.header");
             path_join dir (str "debug.properties")].
Proof.
  intros Hmk Hu Hn dir. unfold saveDecodedData. fold dir.
  pose proof (ensure_directory_succeeds calls dir Hmk) as S1.
  pose proof (ensure_directory_written calls dir) as W1.
  destruct (ensure_directory calls dir) as [calls1 r1].
  cbn [fst snd] in S1, W1. subst r1.
  pose proof (ensure_directory_succeeds calls1 dir Hmk) as S2.
  pose proof (ensure_directory_written calls1 dir) as W2.
  destruct (ensure_directory calls1 dir) as [calls2 r2].
  cbn [fst snd] in S2, W2. subst r2.
  destruct (get_defined decodedData (str "input") Hu Hn) as [i Hi].
  rewrite Hi.
  assert (Ti : truthy (or_else i (JsObject [])) = true)
    by (apply or_else_truthy; reflexivity).
  destruct (get_truthy _ (str "body") Ti) as [b Hb].
  destruct (get_truthy _ (str "headers") Ti) as [h Hh].
  destruct (get_truthy _ (str "properties") Ti) as [p Hp].
  rewrite Hb, Hh, Hp. unfold writeFileSync. cbn [fst].
  eexists. split; [reflexivity|].
  rewrite !written_app, W2, W1. cbn [written flat_map app].
  rewrite <- !app_assoc. reflexivity.
Qed.

Context {R : JsRuntime JsValue}.

(** A request whose data does not decode is answered with status 400 and
    leaves the file system alone.  A request whose data decodes is
    answered with status 200, [success: true] and the decoded value,
    whatever the file system did: [files] holds the three paths when the
    three writes were attempted, and [null] when [saveDecodedData] failed
    before it wrote anything. *)
Theorem get_debug_reply (env : option jsstring) (t1 t2 t3 : Z)
                        (calls : list FsCall) (encodedData : jsstring) :
  (forall st,
     decodeGroovyString encodedData = Thrown st ->
     get_debug env t1 t2 t3 calls encodedData
     = (calls, decode_failed (PipelineError st) t3))
  /\ (forall decodedData,
        decodeGroovyString encodedData = Returned decodedData ->
        exists calls' files,
          get_debug env t1 t2 t3 calls encodedData
          = (calls',
             {| statusCode := 200;
                body :=
                  JsObject
                    [(str "success", JsBoolean true);
                     (str "message",
                      JsString (str "Data decoded successfully"));
                     (str "data", decodedData);
                     (str "files", files);
                     (str "timestamp", JsString (Date_toISOString t3))] |})
          /\ ((files = JsNull /\ written calls' = written calls)
              \/ (files = saved_files env
                  /\ written calls' = written calls ++ saved_paths env))).
Proof.
  unfold get_debug, decode_and_save, decodeGroovyString_value. split.
  - intros st ->. reflexivity.
  - intros decodedData ->.
    pose proof (saveDecodedData_result env t1 t2 calls decodedData) as Hr.
    destruct (saveDecodedData env t1 t2 calls decodedData)
      as [calls' saveResult].
    cbn [fst snd] in Hr. exists calls'.
    destruct Hr as [[[error ->] Hw] | [-> Hw]].
    + exists JsNull. split; [reflexivity|left; split; [reflexivity|exact Hw]].
    + exists (saved_files env).
      split; [reflexivity|right; split; [reflexivity|exact Hw]].
Qed.

(** A body without [data], or with a falsy one ([null], [false], [0],
    the empty string), is answered with status 400 and the message that
    the field is missing; a [data] that is truthy but no string with
    status 400 and the message of a failed decoding.  Neither touches the
    file system.  A string is treated as by the GET route. *)
Theorem post_debug_reply (env : option jsstring) (t1 t2 t3 : Z)
                         (calls : list FsCall) (req_body data : JsValue) :
  get req_body (str "data") = Normal data ->
  (truthy data = false ->
   fst (post_debug env t1 t2 t3 calls req_body) = calls
   /\ statusCode (snd (post_debug env t1 t2 t3 calls req_body)) = 400
   /\ get (body (snd (post_debug env t1 t2 t3 calls req_body)))
          (str "message")
      = Normal
          (JsString (str "Missing " ++ [ch_quote] ++ str "data"
                     ++ [ch_quote] ++ str " field in request body")))
  /\ (truthy data = true -> (forall s, data <> JsString s) ->
      post_debug env t1 t2 t3 calls req_body
      = (calls, decode_failed TypeError t3))
  /\ (forall s, data = JsString s -> s <> [] ->
      post_debug env t1 t2 t3 calls req_body
      = get_debug env t1 t2 t3 calls s).
Proof.
  intros Hd. unfold post_debug. rewrite Hd. split; [|split].
  - intros ->. cbn [negb fst snd statusCode body]. repeat split.
  - intros -> Hs. cbn [negb]. unfold decode_and_save.
    destruct data; try reflexivity. elim (Hs s). reflexivity.
  - intros s -> Hs. destruct s as [|c s]; [elim Hs; reflexivity|].
    reflexivity.
Qed.

End SavingFacts.

Lemma saveDecodedData_reports_success_witness :
  exists calls',
    @saveDecodedData integer_numbers plain_dates read_only_disk plain_errors
       None 0 0 [] (JsObject [])
    = (calls',
       JsObject
         [(str "success", JsBoolean true);
          (str "files",
           JsObject
             [(str "body",
               JsString (str "C:\CPIViewer\DataDump/Debug/debug.body"));
              (str "header",
               JsString (str "C:\CPIViewer\DataDump/Debug/debug.header"));
              (str "properties",
               JsString
                 (str "C:\CPIViewer\DataDump/Debug/debug.properties"))])])
    /\ written calls'
       = [str "C:\CPIViewer\DataDump/Debug/debug.body";
          str "C:\CPIViewer\DataDump/Debug/debug.header";
          str "C:\CPIViewer\DataDump/Debug/debug.properties"].
Proof.
  apply (@saveDecodedData_reports_success integer_numbers plain_dates
           read_only_disk plain_errors None 0 0 [] (JsObject [])).
  - reflexivity.
  - discriminate.
  - discriminate.
Defined.

Lemma post_debug_reply_witness :
  @post_debug integer_numbers plain_dates empty_disk plain_errors
     text_value_runtime None 0 0 0 [] (JsObject [(str "data", JsBoolean true)])
  = ([], @decode_failed integer_numbers plain_dates plain_errors TypeError 0).
Proof.
  destruct (@post_debug_reply integer_numbers plain_dates empty_disk
              plain_errors text_value_runtime None 0 0 0 []
              (JsObject [(str "data", JsBoolean true)]) (JsBoolean true)
              eq_refl)
    as [_ [H _]].
  apply H; [reflexivity|discriminate].
Defined.

(* ------------------------------------------------------------------ *)
(** ** The browser command *)

Lemma url_query_safe_plain (s : jsstring) :
  forallb url_query_safe s = true -> forallb url_plain s = true.
Proof.
  intros H. apply forallb_forall. intros c Hc.
  unfold url_plain. rewrite (proj1 (forallb_forall _ _) H c Hc).
  reflexivity.
Qed.

Lemma url_plain_no_quote (s : jsstring) :
  forallb url_plain s = true -> ~ In ch_quote s.
Proof.
  intros H Hin. pose proof (proj1 (forallb_forall _ _) H _ Hin) as Hq.
  discriminate Hq.
Qed.

Lemma chrome_command_shape (platform : Platform) (encodedData : jsstring) :
  exists prefix,
    chrome_command platform encodedData
    = prefix ++ [ch_quote] ++ contiva_url encodedData ++ [ch_quote].
Proof.
  destruct platform; unfold chrome_command.
  - exists (str "start chrome "). reflexivity.
  - exists (str "open -a " ++ [ch_quote] ++ str "Google Chrome"
            ++ [ch_quote] ++ str " ").
    rewrite <- !app_assoc. reflexivity.
  - exists (str "google-chrome "). reflexivity.
Qed.

Section BrowserFacts.

Context {C : Compressor} {A : Archiver}.

Lemma contiva_url_plain (now : Z) (x : DebugPayload) :
  exists s,
    encodeContivaData now x = Returned s
    /\ forallb url_plain (contiva_url s) = true.
Proof.
  destruct (encodeContivaData_returns now x) as [s [Henc [Hsafe _]]].
  exists s. split; [exact Henc|].
  unfold contiva_url. rewrite forallb_app. apply andb_true_iff.
  split; [reflexivity|apply url_query_safe_plain, Hsafe].
Qed.

(** The command [openInChrome] runs on what the encoder returns, on
    every platform: the URL of the IDE between two double quotes, and in
    the URL only letters, digits and [% . - _ ~ : / ? =].  No character
    of the data ends the quoted argument or starts another one. *)
Theorem chrome_command_quoted (now : Z) (x : DebugPayload)
                              (platform : Platform) :
  exists s prefix,
    encodeContivaData now x = Returned s
    /\ chrome_command platform s
       = prefix ++ [ch_quote] ++ contiva_url s ++ [ch_quote]
    /\ forallb url_plain (contiva_url s) = true
    /\ ~ In ch_quote (contiva_url s).
Proof.
  destruct (contiva_url_plain now x) as [s [Henc Hplain]].
  destruct (chrome_command_shape platform s) as [prefix Hcmd].
  exists s, prefix. split; [exact Henc|]. split; [exact Hcmd|].
  split; [exact Hplain|apply url_plain_no_quote, Hplain].
Qed.

End BrowserFacts.

(* ------------------------------------------------------------------ *)
(** ** The [/contiva/:data] route *)

Section ContivaRouteFacts.

Context {N : JsNumbers} {D : JsDates} {E : JsErrors} {P : ChildProcess}
        {C : Compressor} {A : Archiver} {R : JsRuntime JsValue}.

(** The route does not convert what it decodes.  Whatever the request
    holds, it either runs no command and answers with status 400 (the
    data does not decode, or decodes to something that is no object), or
    it runs the browser command for the encoding of the constant
    [contiva_route_data] and answers with status 200 and that constant as
    [contivaData]. *)
Theorem get_contiva_ignores_data (now t_reply : Z) :
  exists encoded,
    encodeContivaData now contiva_route_data = Returned encoded
    /\ forall encodedData,
         (fst (get_contiva now t_reply encodedData) = None
          /\ statusCode (snd (get_contiva now t_reply encodedData)) = 400)
         \/ (fst (get_contiva now t_reply encodedData)
             = Some (chrome_command platform encoded)
             /\ statusCode (snd (get_contiva now t_reply encodedData)) = 200
             /\ get (body (snd (get_contiva now t_reply encodedData)))
                    (str "contivaData")
                = Normal (payload_value contiva_route_data)).
Proof.
  destruct (encodeContivaData_returns now contiva_route_data)
    as [encoded [Henc _]].
  exists encoded. split; [exact Henc|]. intros encodedData.
  unfold get_contiva.
  destruct (decodeGroovyString encodedData) as [cpiHelperData|st];
    [|left; split; reflexivity].
  destruct (negb (truthy cpiHelperData) || negb (typeof_object cpiHelperData));
    [left; split; reflexivity|].
  destruct (get cpiHelperData (str "input")) as [i|e1];
    [|left; split; reflexivity].
  destruct (get cpiHelperData (str "script")) as [s|e2];
    [|left; split; reflexivity].
  rewrite Henc. unfold openInChrome.
  destruct (exec (chrome_command platform encoded)) as [error|error];
    right; repeat split.
Qed.

End ContivaRouteFacts.

(* ------------------------------------------------------------------ *)
(** ** The head of a transport string, and input without content *)

Section TransportHead.

Context {C : Compressor} {A : Archiver}.

(** Every transport string of the ZIP variant starts with the same
    twelve characters, [H4sIAAAAAAAA]: the base64 text of the nine bytes
    every gzip header written by [zlib.gzipSync] starts with (magic 1f 8b,
    method 8, no flags, MTIME 0, XFL 0).  The payload and the time of the
    call show only after them. *)
Theorem transport_string_head (now : Z) (x : DebugPayload) :
  (exists t, encodeContivaData now x = Returned (gzip_prefix ++ t))
  /\ Buffer_from_base64 gzip_prefix = firstn 9 (gzip_header os_code)
  /\ firstn 9 (gzipSync (contiva_archive now x) {| mtime := Some 0 |})
     = firstn 9 (gzip_header os_code).
Proof.
  split; [apply encodeContivaData_gzip|]. split; reflexivity.
Qed.

End TransportHead.

(** Input without content.  When Node's base64 decoder finds no byte in
    the text, [decodeGroovyString] throws at the inflate step (the stream
    ends before it starts).  On the empty string [decodeGroovyData], whose
    one call of [inflate] returns 0 bytes without complaint, goes on and
    hands the empty text to the JSON parser, and [decodeContivaData]
    throws at the gunzip step. *)
Theorem decoders_without_content :
  (forall (J : Type) (R : JsRuntime J) (s : jsstring),
     Buffer_from_base64 (toStandardAlphabet s) = [] ->
     decodeGroovyString s = Thrown StageInflate)
  /\ (forall (J : Type) (R : GroovyRuntime J),
        decodeGroovyData [] = groovy_text_stages [])
  /\ decodeContivaData [] = Thrown StageInflate.
Proof.
  split; [|split; [intros J R|]; reflexivity].
  intros J R s Hs.
  rewrite decodeGroovyString_stages, Buffer_from_base64_addPadding, Hs.
  reflexivity.
Qed.

(* ------------------------------------------------------------------ *)
(** ** The [/debug] route on particular data *)

Section DebugRouteFacts.

Context {N : JsNumbers} {D : JsDates} {F : NodeFs} {E : JsErrors}
        {R : JsRuntime JsValue}.

Lemma saveDecodedData_null (env : option jsstring) (t1 t2 : Z)
                           (calls : list FsCall) :
  (exists error,
     snd (saveDecodedData env t1 t2 calls JsNull) = save_failure error)
  /\ written (fst (saveDecodedData env t1 t2 calls JsNull)) = written calls.
Proof.
  unfold saveDecodedData.
  pose proof (ensure_directory_written
                calls (path_join (DATA_DUMP_BASE env) (str "Debug"))) as W1.
  destruct (ensure_directory calls _) as [calls1 [e1|]]; cbn [fst] in W1;
    [split; [exists e1; reflexivity|exact W1]|].
  pose proof (ensure_directory_written
                calls1 (path_join (DATA_DUMP_BASE env) (str "Debug"))) as W2.
  destruct (ensure_directory calls1 _) as [calls2 [e2|]]; cbn [fst] in W2;
    cbn [get fst snd];
    (split; [eexists; reflexivity|rewrite W2; exact W1]).
Qed.

(** A request whose data decodes to [null] is answered with status 200
    and [success: true], although nothing is saved: [saveDecodedData]
    fails on reading [input] of [null], the route takes its result for a
    success without files, and no file is written. *)
Theorem get_debug_null (env : option jsstring) (t1 t2 t3 : Z)
                       (calls : list FsCall) (encodedData : jsstring) :
  decodeGroovyString encodedData = Returned JsNull ->
  exists calls',
    get_debug env t1 t2 t3 calls encodedData
    = (calls',
       {| statusCode := 200;
          body :=
            JsObject
              [(str "success", JsBoolean true);
               (str "message", JsString (str "Data decoded successfully"));
               (str "data", JsNull);
               (str "files", JsNull);
               (str "timestamp", JsString (Date_toISOString t3))] |})
    /\ written calls' = written calls.
Proof.
  intros Hd. unfold get_debug, decode_and_save, decodeGroovyString_value.
  rewrite Hd.
  destruct (saveDecodedData_null env t1 t2 calls) as [[error He] Hw].
  destruct (saveDecodedData env t1 t2 calls JsNull) as [calls' saveResult].
  cbn [fst snd] in He, Hw. subst saveResult.
  exists calls'. split; [reflexivity|exact Hw].
Qed.

Context {C : Compressor} {A : Archiver}.

(** The route for the deflate variant refuses what the encoder of the
    ZIP variant returns.  The string [s] of the encoder stands in the
    path of the request; Express percent-decodes the path parameter, so
    the handler finds in [req.params.data] the base64 text [data] of the
    gzip file.  The reply has status 400 and names the inflate step, and
    the file system is not called. *)
Theorem get_debug_rejects_zip_string (env : option jsstring) (t1 t2 t3 : Z)
                                     (calls : list FsCall)
                                     (now : Z) (x : DebugPayload) :
  exists s data,
    encodeContivaData now x = Returned s
    /\ decodeURIComponent s = Some data
    /\ get_debug env t1 t2 t3 calls data
       = (calls, decode_failed (PipelineError StageInflate) t3).
Proof.
  destruct (encodeContivaData_returns now x) as [s [Henc [_ [Hdec _]]]].
  exists s. eexists. split; [exact Henc|]. split; [exact Hdec|].
  unfold gzipSync. rewrite base64_encode_gzip.
  destruct (Buffer_from_base64_gzip
              (base64_encode
                 (os_code :: deflate (contiva_archive now x)
                          ++ gzip_trailer (contiva_archive now x))))
    as [rest Hbuf].
  unfold get_debug, decode_and_save, decodeGroovyString_value.
  rewrite decodeGroovyString_stages, Hbuf, inflateRawSync_gzip.
  reflexivity.
Qed.

End DebugRouteFacts.

Lemma get_debug_null_witness :
  exists calls',
    @get_debug integer_numbers plain_dates empty_disk plain_errors
       null_runtime None 0 0 0 [] (str "yyvNyQEA")
    = (calls',
       {| statusCode := 200;
          body :=
            JsObject
              [(str "success", JsBoolean true);
               (str "message", JsString (str "Data decoded successfully"));
               (str "data", JsNull);
               (str "files", JsNull);
               (str "timestamp", JsString (str "0"))] |})
    /\ written calls' = [].
Proof.
  apply (@get_debug_null integer_numbers plain_dates empty_disk plain_errors
           null_runtime None 0 0 0 [] (str "yyvNyQEA")).
  vm_compute. reflexivity.
Defined.

(* ------------------------------------------------------------------ *)
(** ** The properties format of the Groovy server *)

Lemma length_replaceAll (a b : Z) (s : jsstring) :
  List.length (replaceAll a b s) = List.length s.
Proof. unfold replaceAll. apply length_map. Qed.

Lemma length_escapeValue (s : jsstring) :
  existsb properties_special s = true ->
  (List.length s < List.length (escapeValue s))%nat.
Proof.
  induction s as [|c s IH]; [discriminate|].
  assert (Hle : forall t, (List.length t <= List.length (escapeValue t))%nat).
  { induction t as [|d t IHt]; [apply Nat.le_refl|].
    cbn [escapeValue flat_map]. fold (escapeValue t).
    rewrite length_app. destruct (properties_special d); cbn [List.length];
      lia. }
  cbn [existsb escapeValue flat_map]. fold (escapeValue s).
  rewrite length_app. specialize (Hle s).
  destruct (properties_special c); cbn [orb List.length]; [lia|].
  intros H. specialize (IH H). lia.
Qed.

Section GroovyPropertiesFacts.

Context {V : Type} {G : GroovyText V}.

Lemma replace_as_char_length (valStr : option jsstring) (a b : jsstring)
                             (s' : jsstring) :
  replace_as_char valStr a b = Some s' ->
  exists s, valStr = Some s /\ List.length s' = List.length s.
Proof.
  unfold replace_as_char. destruct valStr as [s|]; [|discriminate].
  destruct (as_char a); [|discriminate]. destruct (as_char b);
    [|discriminate].
  intros H. injection H as <-. exists s.
  split; [reflexivity|apply length_replaceAll].
Qed.

(** The Groovy server cannot write an escape.  Each of its three
    replacements is [String.replace(char, char)], with a string of two
    characters coerced to the new character: whatever the coercion does,
    the function either throws or writes, after [key=], a text exactly as
    long as the value.  The line is therefore never the one
    [objectToPropertiesFormat] writes for a value with [=], [:] or TAB,
    which is longer by a backslash for each of them. *)
Theorem formatAsProperties_cannot_escape (now : Z)
                                         (title key value : jsstring) :
  formatAsProperties now title [(key, inl value)] = None
  \/ exists written_value,
       formatAsProperties now title [(key, inl value)]
       = Some (str "#" ++ title ++ [ch_newline] ++ str "#"
               ++ Date_toString now ++ [ch_newline] ++ key ++ str "="
               ++ written_value)
       /\ List.length written_value = List.length value
       /\ (existsb properties_special value = true ->
           written_value <> escapeValue value).
Proof.
  unfold formatAsProperties. cbn [properties_entries properties_entry].
  destruct (replace_as_char _ [ch_colon] _) as [v3|] eqn:H3;
    [right|left; reflexivity].
  exists v3. split.
  - cbn [option_map app join]. app_normal. reflexivity.
  - apply replace_as_char_length in H3 as [v2 [H2 L3]].
    apply replace_as_char_length in H2 as [v1 [H1 L2]].
    apply replace_as_char_length in H1 as [v0 [H0 L1]].
    injection H0 as <-.
    assert (L : List.length v3 = List.length value) by congruence.
    split; [exact L|].
    intros Hs Heq. apply length_escapeValue in Hs.
    rewrite <- Heq in Hs. lia.
Qed.

End GroovyPropertiesFacts.

(* ------------------------------------------------------------------ *)
(** ** What java.util.Base64 makes of a foreign character *)

Lemma foreign_not_base64 (c : Z) :
  unbase64 c = None -> is_base64_char c = false.
Proof.
  intros H. unfold is_base64_char.
  destruct (fromBase64 c) as [v|] eqn:E; [|reflexivity].
  apply unbase64_fromBase64 in E. congruence.
Qed.

Lemma tail_part_foreign (c : Z) (p : jsstring) :
  In c p -> is_base64_char c = false -> In c (tail_part p).
Proof.
  intros Hin Hc. induction p as [|x p IH]; [contradiction|].
  cbn [tail_part]. destruct (is_base64_char x) eqn:E; [|exact Hin].
  destruct Hin as [-> | Hin]; [congruence|apply IH, Hin].
Qed.

(** A text with a character that is neither of the alphabet nor [=] is
    not well formed. *)
Lemma foreign_char_malformed (c : Z) (p : jsstring) :
  In c p -> is_base64_char c = false -> c <> ch_eq ->
  well_formed_base64 p = false.
Proof.
  intros Hin Hc Hne. unfold well_formed_base64.
  pose proof (tail_part_foreign c p Hin Hc) as Ht.
  apply Z.eqb_neq in Hne.
  destruct (tail_part p) as [|x [|y [|z t]]]; cbn [canonical_tail].
  - contradiction.
  - destruct Ht as [-> | []]. rewrite Hne. apply andb_false_r.
  - destruct Ht as [-> | [-> | []]]; rewrite Hne.
    + rewrite andb_false_r. reflexivity.
    + apply andb_false_r.
  - reflexivity.
Qed.

Section Strict.

Context {J : Type} {R : GroovyRuntime J}.

(** [decodeGroovyData] throws at the base64 step on every string with a
    character that belongs to neither alphabet and is not [=] (white
    space, a line break, [%], ...): java.util.Base64 skips nothing.  On
    each such string that [decodeGroovyString] decodes, the two decoders
    differ. *)
Theorem groovy_decoder_rejects_foreign_characters (c : Z) (a b : jsstring) :
  unbase64 c = None -> c <> ch_eq ->
  decodeGroovyData (a ++ c :: b) = Thrown StageBase64.
Proof.
  intros Hc Hne. rewrite decodeGroovyData_stages.
  rewrite (Base64_decoder_decode_malformed
             (addPadding (toStandardAlphabet (a ++ c :: b))));
    [reflexivity|].
  apply (foreign_char_malformed c);
    [|apply foreign_not_base64, Hc|exact Hne].
  unfold addPadding.
  rewrite toStandardAlphabet_app, toStandardAlphabet_cons_foreign
    by exact Hc.
  apply in_or_app. left. apply in_or_app. right. left. reflexivity.
Qed.

End Strict.

Lemma groovy_decoder_rejects_foreign_characters_witness :
  @decodeGroovyData jsstring text_groovy_runtime
     (str "q1ZKVLJS" ++ 32 :: str "SlKqBQA")
  = Thrown StageBase64.
Proof.
  apply (@groovy_decoder_rejects_foreign_characters
           jsstring text_groovy_runtime 32).
  - reflexivity.
  - unfold ch_eq. lia.
Defined.
